(** * pyfixest: the [Feols] estimator of src/pyfixest/feols.py

    A shallow embedding of the class [Feols] (point estimation, covariance
    estimation, inference summary, F-test) and of the helper functions
    [_check_vcov_input], [_deparse_vcov_input] and [_feols_input_checks].

    Conventions of the embedding.

    - Numbers.  numpy's float64 arithmetic is idealised as exact arithmetic in
      an arbitrary real field [F]; concrete evaluations are over [rat].
      This is the reading under which the algebraic statements of the
      specification (normal equations, invariance) are meant; rounding is not
      modelled.  Division is the field's total division: where numpy
      divides by zero it yields an infinite value or NaN, which is no number
      of the field, and the model's value stands for nothing there; a
      theorem that states a value computed by a division assumes that the
      divisor is not zero (the lemmas that evaluate the model step by step
      do not).
    - Arrays.  An array whose shape the code relies on is a matrix of that
      shape ([Y] is N x 1, [X] and [Z] are N x k): numpy raises on any other
      shape.  One-dimensional arrays ([beta_hat], [u_hat]) are column vectors,
      so [flatten] and [reshape] between (n,) and (n,1) are the identity.
      [weights], which the class only validates, stays a raw Python value.
    - Effects.  Methods mutate [self] and may raise: a method is a function
      from the object to an outcome and the object as the exception (or the
      return) leaves it.
    - Attributes.  Reading an attribute that no method has assigned yet
      raises AttributeError.  An attribute that never holds [None] is an
      [option] ([None]: not assigned yet); one that may hold Python's [None]
      is an [attr] ([Unset], [PyNone] or a value).
    - External code (numpy.linalg, scipy.stats, pandas, and the modules
      pyfixest.ssc_utils and pyfixest.fixest, which are not part of the file)
      enters through its mathematical contract or as a parameter. *)

From HB Require Import structures.
From mathcomp Require Import boot order fingroup perm algebra.
From Stdlib Require Import String.

Set Implicit Arguments.
Unset Strict Implicit.
Unset Printing Implicit Defensive.

Import GRing.Theory Num.Theory Order.Theory.

Local Open Scope string_scope.
Local Open Scope seq_scope.
Local Open Scope ring_scope.

HB.instance Definition _ := hasDecEq.Build string String.eqb_spec.

(** ** Exceptions and the state-and-exception monad *)

Inductive exn : Type :=
  | AssertionError
  | AttributeError
  | IndexError
  | KeyError
  | TypeError
  | ValueError
  | UnboundLocalError
  | NotImplementedError
  | LinAlgError
  | VcovTypeNotSupportedError
  | NanInClusterVarError.

Inductive exc (A : Type) : Type :=
  | Ok (a : A)
  | Raise (e : exn).

Arguments Ok {A} a.
Arguments Raise {A} e.

Definition is_ok A (r : exc A) : bool :=
  if r is Ok _ then true else false.

Definition exc_bind A B (r : exc A) (f : A -> exc B) : exc B :=
  match r with
  | Ok a => f a
  | Raise e => Raise e
  end.

(** [assert c] is Python's [assert c, msg]. *)
Definition assert (c : bool) : exc unit :=
  if c then Ok tt else Raise AssertionError.

Section Monad.

Variable S : Type.

(** A computation on an object of type [S]: the object is returned in both
    outcomes, as Python leaves it mutated when an exception propagates. *)
Definition M (A : Type) : Type := S -> exc A * S.

Definition ret A (a : A) : M A := fun s => (Ok a, s).

Definition raise A (e : exn) : M A := fun s => (Raise e, s).

Definition bind A B (c : M A) (f : A -> M B) : M B :=
  fun s => match c s with
           | (Ok a, s') => f a s'
           | (Raise e, s') => (Raise e, s')
           end.

Definition lift_exc A (r : exc A) : M A := fun s => (r, s).

Definition get : M S := fun s => (Ok s, s).

Definition modify (f : S -> S) : M unit := fun s => (Ok tt, f s).

End Monad.

Arguments ret {S A} a.
Arguments raise {S A} e.
Arguments lift_exc {S A} r.
Arguments get {S}.
Arguments modify {S} f.

Notation "x <- c ;; k" := (bind c (fun x => k))
  (at level 100, c at next level, right associativity,
   format "'[v' x  <-  c  ;; '/' k ']'").
Notation "c ;;; k" := (bind c (fun _ => k))
  (at level 100, right associativity,
   format "'[v' c  ;;; '/' k ']'").
Notation "x <-- r ;; k" := (exc_bind r (fun x => k))
  (at level 100, r at next level, right associativity,
   format "'[v' x  <--  r  ;; '/' k ']'").

(** ** Python values *)

(** An attribute of the object. *)
Inductive attr (T : Type) : Type :=
  | Unset
  | PyNone
  | Val (x : T).

Arguments Unset {T}.
Arguments PyNone {T}.
Arguments Val {T} x.

(** [hasattr(self, name)] *)
Definition is_set T (a : attr T) : bool :=
  if a is Unset then false else true.

(** A scalar Python value as far as the code tells values apart: a string or
    something else. *)
Inductive pyatom : Type :=
  | PStr (s : string)
  | PNonStr.

(** The argument [vcov] of [get_vcov]: a string, a dict (its items in
    insertion order), a list, or a value of any other type. *)
Inductive vcov_arg : Type :=
  | VcovStr (s : string)
  | VcovDict (items : seq (pyatom * pyatom))
  | VcovList (l : seq pyatom)
  | VcovOther.

(** The values of a cluster column: integers or strings.  A cell of a column
    is a label or missing (NaN). *)
Inductive label : Type :=
  | LInt (z : int)
  | LStr (s : string).

Definition label_eqb (a b : label) : bool :=
  match a, b with
  | LInt x, LInt y => x == y
  | LStr s, LStr t => s == t
  | _, _ => false
  end.

Definition label_eqP : Equality.axiom label_eqb.
Proof.
case=> [x|s] [y|t] /=; try by constructor.
- by apply: (iffP eqP) => [->|[]].
- by apply: (iffP eqP) => [->|[]].
Qed.

HB.instance Definition _ := hasDecEq.Build label label_eqP.

Definition cell : Type := option label.

(** A pandas DataFrame with [N] rows, as far as the estimator reads it: its
    columns by name (names are distinct). *)
Definition DataFrame (N : nat) : Type := seq (string * N.-tuple cell).

Definition columns N (df : DataFrame N) : seq string := [seq c.1 | c <- df].

(** [df[name]]; a name that is no column raises KeyError. *)
Fixpoint getitem N (df : DataFrame N) (name : string) : exc (N.-tuple cell) :=
  match df with
  | [::] => Raise KeyError
  | c :: df' => if c.1 == name then Ok c.2 else getitem df' name
  end.

Section Model.

Variable F : realFieldType.

(** ** numpy arrays *)

(** A raw numpy array: its shape and its entries in row-major order. *)
Record ndarray : Type := Ndarray { shape : seq nat; data : seq F }.

Definition ndim (a : ndarray) : nat := size (shape a).

(** [a.flatten()] *)
Definition flatten (a : ndarray) : seq F := data a.

Definition ndarray_of_mx r c (A : 'M[F]_(r, c)) : ndarray :=
  Ndarray [:: r; c] [seq A i j | i <- enum 'I_r, j <- enum 'I_c].

(** A Python value where an array is expected. *)
Inductive pyobj : Type :=
  | PyNoneObj
  | PyArray (a : ndarray)
  | PyOther.

(** [isinstance(o, np.ndarray)] *)
Definition is_ndarray (o : pyobj) : bool :=
  if o is PyArray _ then true else false.

(** [np.linalg.inv]: the inverse; LinAlgError on a singular matrix. *)
Definition np_linalg_inv n (A : 'M[F]_n) : exc 'M[F]_n :=
  if A \in unitmx then Ok (invmx A) else Raise LinAlgError.

(** [np.linalg.solve]: the solution of [A x = b]; LinAlgError on a singular
    matrix. *)
Definition np_linalg_solve n c (A : 'M[F]_n) (b : 'M[F]_(n, c)) :
  exc 'M[F]_(n, c) :=
  if A \in unitmx then Ok (invmx A *m b) else Raise LinAlgError.

(** [np.linalg.pinv]: the Moore-Penrose pseudo-inverse, by the closed form
    A' (A A')^- A (A' A)^- A' where ^- is any generalised inverse.  It never
    raises. *)
Definition np_linalg_pinv m n (A : 'M[F]_(m, n)) : 'M[F]_(n, m) :=
  A^T *m pinvmx (A *m A^T) *m A *m pinvmx (A^T *m A) *m A^T.

(** [A[mask]]: the rows of [A] selected by a boolean mask, in order. *)
Definition rowsel N k (P : pred 'I_N) (A : 'M[F]_(N, k)) : 'M[F]_(#|P|, k) :=
  \matrix_(i, j) A (enum_val i) j.

(** [np.outer(v, v)] for a vector [v]. *)
Definition np_outer k (v w : 'cV[F]_k) : 'M[F]_k := v *m w^T.

(** [(w * u.flatten()).reshape((N, 1))] for flat [w]: numpy broadcasts a
    one-element operand and raises ValueError on any other length mismatch
    (the mismatch is caught by [reshape] when [N] is 1). *)
Definition broadcast_mul N (w : seq F) (u : 'cV[F]_N) : exc 'cV[F]_N :=
  if size w == N then Ok (\col_i (nth 0 w i * u i 0))
  else if size w == 1%N then Ok (\col_i (nth 0 w 0 * u i 0))
  else Raise ValueError.

(** ** Code outside the file *)

(** - [np_sqrt], [t_cdf], [t_ppf], [norm_cdf], [norm_ppf]: [np.sqrt] and the
      distribution functions of [scipy.stats], applied entrywise.
    - [get_ssc]: [pyfixest.ssc_utils.get_ssc] with its keyword arguments
      [ssc_dict], [N], [k], [G], [vcov_sign], [vcov_type].
    - [fixest_coef data keep fml]: the coefficients of
      [Fixest(data[keep]).feols(fml, vcov="iid")], the refit of
      [pyfixest.fixest] on the rows [keep] of the data. *)
Record externals : Type := Externals {
  np_sqrt : F -> F;
  t_cdf : F -> int -> F;
  t_ppf : F -> int -> F;
  norm_cdf : F -> F;
  norm_ppf : F -> F;
  ssc_dict : Type;
  get_ssc : option ssc_dict -> nat -> nat -> nat -> int -> string -> exc F;
  fixest_coef : forall N k : nat,
    DataFrame N -> pred 'I_N -> option string -> exc 'cV[F]_k
}.

Variable E : externals.

(** ** Input checks (lines 880-902) *)

(** [o.ndim] of an array. *)
Definition obj_ndim (o : pyobj) : nat :=
  if o is PyArray a then ndim a else 0%N.

Definition _feols_input_checks (Y X weights : pyobj) : exc unit :=
  if ~~ is_ndarray Y then Raise TypeError
  else if ~~ is_ndarray X then Raise TypeError
  else if ~~ is_ndarray weights then Raise TypeError
  else if obj_ndim Y != 2%N then Raise ValueError
  else if obj_ndim X != 2%N then Raise ValueError
  else if obj_ndim weights != 2%N then Raise ValueError
  else Ok tt.

(** ** Validation and resolution of the inference request *)

(** [a in l] for a list [l] of string literals. *)
Definition atom_in (a : pyatom) (l : seq string) : bool :=
  if a is PStr s then s \in l else false.

Definition is_str (a : pyatom) : bool :=
  if a is PStr _ then true else false.

(** [l[0]] *)
Definition item0 T (l : seq T) : exc T :=
  if l is x :: _ then Ok x else Raise IndexError.

(** [data.columns]; [data] may be [None]. *)
Definition data_columns N (data : option (DataFrame N)) : exc (seq string) :=
  if data is Some df then Ok (columns df) else Raise AttributeError.

(** [all(v in data.columns for v in vcov)]: the generator evaluates
    [data.columns] once per element and [all] stops at the first False. *)
Fixpoint all_in_columns N (data : option (DataFrame N)) (l : seq pyatom) :
  exc bool :=
  match l with
  | [::] => Ok true
  | v :: l' =>
      cols <-- data_columns data ;;
      if atom_in v cols then all_in_columns data l' else Ok false
  end.

(** [_check_vcov_input] (lines 791-825) *)
Definition _check_vcov_input N (vcov : vcov_arg)
    (data : option (DataFrame N)) : exc unit :=
  _ <-- assert (if vcov is VcovOther then false else true) ;;
  _ <-- (if vcov is VcovDict items then
           key0 <-- item0 [seq kv.1 | kv <- items] ;;
           _ <-- assert (atom_in key0 [:: "CRV1"; "CRV3"]) ;;
           val0 <-- item0 [seq kv.2 | kv <- items] ;;
           _ <-- assert (is_str val0) ;;
           val0' <-- item0 [seq kv.2 | kv <- items] ;;
           cols <-- data_columns data ;;
           assert (atom_in val0' cols)
         else Ok tt) ;;
  _ <-- (if vcov is VcovList l then
           _ <-- assert (all is_str l) ;;
           b <-- all_in_columns data l ;;
           assert b
         else Ok tt) ;;
  if vcov is VcovStr s then
    assert (s \in [:: "iid"; "hetero"; "HC1"; "HC2"; "HC3"])
  else Ok tt.

(** The local [vcov_type_detail] of [_deparse_vcov_input]: a dict key, a
    string, or the whole list. *)
Inductive pyval : Type :=
  | PAtom (a : pyatom)
  | PList (l : seq pyatom).

(** [v == s] and [v in l] for string literals; a list equals no string. *)
Definition pyval_eq (v : pyval) (s : string) : bool :=
  if v is PAtom (PStr t) then t == s else false.

Definition pyval_in (v : pyval) (l : seq string) : bool :=
  has (pyval_eq v) l.

(** [list(vcov.values())[0]]; only a dict has [values]. *)
Definition vcov_values0 (vcov : vcov_arg) : exc pyatom :=
  if vcov is VcovDict items then item0 [seq kv.2 | kv <- items]
  else Raise AttributeError.

(** [_deparse_vcov_input] (lines 828-877).  The locals [vcov_type] and
    [is_clustered] are bound together, in one of the three branches of lines
    853-870, or not at all: then [if is_clustered] raises
    UnboundLocalError. *)
Definition _deparse_vcov_input (vcov : vcov_arg) (has_fixef is_iv : bool) :
  exc (string * pyval * bool * option pyatom) :=
  vcov_type_detail <--
    match vcov with
    | VcovDict items =>
        key0 <-- item0 [seq kv.1 | kv <- items] ;;
        _ <-- item0 [seq kv.2 | kv <- items] ;;
        Ok (PAtom key0)
    | VcovList l => Ok (PList l)
    | VcovStr s => Ok (PAtom (PStr s))
    | VcovOther => Raise AssertionError
    end ;;
  bound <--
    (if pyval_eq vcov_type_detail "iid" then Ok (Some ("iid", false))
     else if pyval_in vcov_type_detail [:: "hetero"; "HC1"; "HC2"; "HC3"] then
       if pyval_in vcov_type_detail [:: "HC2"; "HC3"] then
         if has_fixef then Raise VcovTypeNotSupportedError
         else if is_iv then Raise VcovTypeNotSupportedError
         else Ok (Some ("hetero", false))
       else Ok (Some ("hetero", false))
     else if pyval_in vcov_type_detail [:: "CRV1"; "CRV3"] then
       Ok (Some ("CRV", true))
     else Ok None) ;;
  match bound with
  | None => Raise UnboundLocalError
  | Some (vcov_type, is_clustered) =>
      clustervar <-- (if is_clustered then
                        v <-- vcov_values0 vcov ;; Ok (Some v)
                      else Ok None) ;;
      Ok (vcov_type, vcov_type_detail, is_clustered, clustervar)
  end.

(** ** Cluster bookkeeping *)

(** The distinct values of a sequence in order of first appearance: the
    second component of [pd.factorize]. *)
Definition uniques (T : eqType) (s : seq T) : seq T :=
  foldl (fun acc x => if x \in acc then acc else rcons acc x) [::] s.

(** [_, clustid = pd.factorize(cluster_df)]: missing values are no group. *)
Definition factorize_uniques N (cluster_df : N.-tuple cell) : seq label :=
  uniques (pmap id cluster_df).

(** [cluster_df.isna().any()] *)
Definition isna_any N (cluster_df : N.-tuple cell) : bool :=
  has (fun c : cell => ~~ isSome c) cluster_df.

(** The mask [cluster_df == g]. *)
Definition eq_label N (cluster_df : N.-tuple cell) (g : label) : pred 'I_N :=
  fun i => tnth cluster_df i == Some g.

(** The mask [np.equal(ixg, group)]: the entries of the column are compared
    with the integer [ixg]. *)
Definition np_equal N (ixg : nat) (group : N.-tuple cell) : pred 'I_N :=
  fun i => tnth group i == Some (LInt ixg%:Z).

(** [A @ B] where an operand may be [None]: [None @ None] is a TypeError,
    an array with [None] a ValueError of [np.matmul]. *)
Definition matmul_opt n (A B : option 'M[F]_n) : exc 'M[F]_n :=
  match A, B with
  | Some A, Some B => Ok (A *m B)
  | None, None => Raise TypeError
  | _, _ => Raise ValueError
  end.

Definition attr_of_option T (o : option T) : attr T :=
  if o is Some x then Val x else PyNone.

(** ** The object *)

Section Object.

Variables N k : nat.

(** Attributes assigned by [__init__] (lines 64-91); [N] and [k], the shape
    of [X], are the indices of the type.  [_data], [_fml], [_has_fixef],
    [_ssc_dict] and, in the IV subclass, [_is_iv] and [Z] are set from
    outside. *)
Record init_attrs : Type := InitAttrs {
  _method : string;
  Y : 'cV[F]_N;
  X : 'M[F]_(N, k);
  Z : 'M[F]_(N, k);
  weights : pyobj;
  _is_iv : bool;
  _support_crv3_inference : bool;
  _support_iid_inference : bool;
  _data : option (DataFrame N);
  _fml : option string;
  _has_fixef : bool;
  _ssc_dict : option (ssc_dict E)
}.

(** Attributes assigned by [get_fit]; [None] is "not assigned yet".  [tXZ]
    and [tZZinv] hold Python's [None] after an OLS fit. *)
Record fit_attrs : Type := FitAttrs {
  tZX : option 'M[F]_k;
  tZy : option 'cV[F]_k;
  tZXinv : option 'M[F]_k;
  beta_hat : option 'cV[F]_k;
  Y_hat_link : option 'cV[F]_N;
  u_hat : option 'cV[F]_N;
  scores : option 'M[F]_(N, k);
  hessian : option 'M[F]_k;
  tXZ : attr 'M[F]_k;
  tZZinv : attr 'M[F]_k
}.

(** Attributes assigned by [get_vcov]. *)
Record vcov_attrs : Type := VcovAttrs {
  vcov_type : attr string;
  vcov_type_detail : attr pyval;
  is_clustered : attr bool;
  clustervar : attr pyatom;
  G : attr nat;
  ssc : attr F;
  vcov : attr 'M[F]_k
}.

(** Attributes assigned by [get_inference] and [get_Ftest]; [conf_int] has
    the lower bounds in row 0 and the upper bounds in row 1. *)
Record inference_attrs : Type := InferenceAttrs {
  _se : attr 'cV[F]_k;
  _tstat : attr 'cV[F]_k;
  _pvalue : attr 'cV[F]_k;
  conf_int : attr 'M[F]_(2, k);
  F_stat : attr F
}.

Record Feols : Type := Obj {
  init : init_attrs;
  fit : fit_attrs;
  cov : vcov_attrs;
  inf : inference_attrs
}.

Definition unfitted : fit_attrs :=
  FitAttrs None None None None None None None None Unset Unset.

Definition no_vcov : vcov_attrs :=
  VcovAttrs Unset Unset Unset Unset Unset Unset Unset.

Definition no_inference : inference_attrs :=
  InferenceAttrs Unset Unset Unset Unset Unset.

(** *** Attribute assignment *)

Definition set_tZX v (a : fit_attrs) : fit_attrs :=
  FitAttrs v (tZy a) (tZXinv a) (beta_hat a) (Y_hat_link a) (u_hat a)
           (scores a) (hessian a) (tXZ a) (tZZinv a).
Definition set_tZy v (a : fit_attrs) : fit_attrs :=
  FitAttrs (tZX a) v (tZXinv a) (beta_hat a) (Y_hat_link a) (u_hat a)
           (scores a) (hessian a) (tXZ a) (tZZinv a).
Definition set_tZXinv v (a : fit_attrs) : fit_attrs :=
  FitAttrs (tZX a) (tZy a) v (beta_hat a) (Y_hat_link a) (u_hat a)
           (scores a) (hessian a) (tXZ a) (tZZinv a).
Definition set_beta_hat v (a : fit_attrs) : fit_attrs :=
  FitAttrs (tZX a) (tZy a) (tZXinv a) v (Y_hat_link a) (u_hat a)
           (scores a) (hessian a) (tXZ a) (tZZinv a).
Definition set_Y_hat_link v (a : fit_attrs) : fit_attrs :=
  FitAttrs (tZX a) (tZy a) (tZXinv a) (beta_hat a) v (u_hat a)
           (scores a) (hessian a) (tXZ a) (tZZinv a).
Definition set_u_hat v (a : fit_attrs) : fit_attrs :=
  FitAttrs (tZX a) (tZy a) (tZXinv a) (beta_hat a) (Y_hat_link a) v
           (scores a) (hessian a) (tXZ a) (tZZinv a).
Definition set_scores v (a : fit_attrs) : fit_attrs :=
  FitAttrs (tZX a) (tZy a) (tZXinv a) (beta_hat a) (Y_hat_link a) (u_hat a)
           v (hessian a) (tXZ a) (tZZinv a).
Definition set_hessian v (a : fit_attrs) : fit_attrs :=
  FitAttrs (tZX a) (tZy a) (tZXinv a) (beta_hat a) (Y_hat_link a) (u_hat a)
           (scores a) v (tXZ a) (tZZinv a).
Definition set_tXZ v (a : fit_attrs) : fit_attrs :=
  FitAttrs (tZX a) (tZy a) (tZXinv a) (beta_hat a) (Y_hat_link a) (u_hat a)
           (scores a) (hessian a) v (tZZinv a).
Definition set_tZZinv v (a : fit_attrs) : fit_attrs :=
  FitAttrs (tZX a) (tZy a) (tZXinv a) (beta_hat a) (Y_hat_link a) (u_hat a)
           (scores a) (hessian a) (tXZ a) v.

Definition set_vcov_type v (a : vcov_attrs) : vcov_attrs :=
  VcovAttrs v (vcov_type_detail a) (is_clustered a) (clustervar a) (G a)
            (ssc a) (vcov a).
Definition set_vcov_type_detail v (a : vcov_attrs) : vcov_attrs :=
  VcovAttrs (vcov_type a) v (is_clustered a) (clustervar a) (G a)
            (ssc a) (vcov a).
Definition set_is_clustered v (a : vcov_attrs) : vcov_attrs :=
  VcovAttrs (vcov_type a) (vcov_type_detail a) v (clustervar a) (G a)
            (ssc a) (vcov a).
Definition set_clustervar v (a : vcov_attrs) : vcov_attrs :=
  VcovAttrs (vcov_type a) (vcov_type_detail a) (is_clustered a) v (G a)
            (ssc a) (vcov a).
Definition set_G v (a : vcov_attrs) : vcov_attrs :=
  VcovAttrs (vcov_type a) (vcov_type_detail a) (is_clustered a)
            (clustervar a) v (ssc a) (vcov a).
Definition set_ssc v (a : vcov_attrs) : vcov_attrs :=
  VcovAttrs (vcov_type a) (vcov_type_detail a) (is_clustered a)
            (clustervar a) (G a) v (vcov a).
Definition set_vcov v (a : vcov_attrs) : vcov_attrs :=
  VcovAttrs (vcov_type a) (vcov_type_detail a) (is_clustered a)
            (clustervar a) (G a) (ssc a) v.

Definition set__se v (a : inference_attrs) : inference_attrs :=
  InferenceAttrs v (_tstat a) (_pvalue a) (conf_int a) (F_stat a).
Definition set__tstat v (a : inference_attrs) : inference_attrs :=
  InferenceAttrs (_se a) v (_pvalue a) (conf_int a) (F_stat a).
Definition set__pvalue v (a : inference_attrs) : inference_attrs :=
  InferenceAttrs (_se a) (_tstat a) v (conf_int a) (F_stat a).
Definition set_conf_int v (a : inference_attrs) : inference_attrs :=
  InferenceAttrs (_se a) (_tstat a) (_pvalue a) v (F_stat a).
Definition set_F_stat v (a : inference_attrs) : inference_attrs :=
  InferenceAttrs (_se a) (_tstat a) (_pvalue a) (conf_int a) v.

(** [self.attr = v] for an attribute of each group. *)
Definition assign_fit (f : fit_attrs -> fit_attrs) : M Feols unit :=
  modify (fun self => Obj (init self) (f (fit self)) (cov self) (inf self)).
Definition assign_cov (f : vcov_attrs -> vcov_attrs) : M Feols unit :=
  modify (fun self => Obj (init self) (fit self) (f (cov self)) (inf self)).
Definition assign_inf (f : inference_attrs -> inference_attrs) :
  M Feols unit :=
  modify (fun self => Obj (init self) (fit self) (cov self) (f (inf self))).

(** Reading an attribute: AttributeError when it was never assigned. *)
Definition getattr T (a : Feols -> option T) : M Feols T :=
  fun self => match a self with
              | Some x => (Ok x, self)
              | None => (Raise AttributeError, self)
              end.

(** Reading an attribute that may hold [None]: the value read is [None] or
    [Some x]. *)
Definition getattr_opt T (a : Feols -> attr T) : M Feols (option T) :=
  fun self => match a self with
              | Val x => (Ok (Some x), self)
              | PyNone => (Ok None, self)
              | Unset => (Raise AttributeError, self)
              end.

(** *** [__init__] (lines 62-91) *)

Definition Feols_init (Y : 'cV[F]_N) (X : 'M[F]_(N, k)) (weights : pyobj) :
  exc Feols :=
  _ <-- _feols_input_checks (PyArray (ndarray_of_mx Y))
                            (PyArray (ndarray_of_mx X)) weights ;;
  Ok {| init := {| _method := "feols";
                   Y := Y;
                   X := X;
                   Z := X;
                   weights := weights;
                   _is_iv := false;
                   _support_crv3_inference := true;
                   _support_iid_inference := true;
                   _data := None;
                   _fml := None;
                   _has_fixef := false;
                   _ssc_dict := None |};
        fit := unfitted;
        cov := no_vcov;
        inf := no_inference |}.

(** *** [get_fit] (lines 94-126) *)

Definition get_fit : M Feols unit :=
  self <- get ;;
  let _X := X (init self) in
  let _Y := Y (init self) in
  let _Z := Z (init self) in
  let tZX := _Z^T *m _X in
  let tZy := _Z^T *m _Y in
  assign_fit (set_tZX (Some tZX)) ;;;
  assign_fit (set_tZy (Some tZy)) ;;;
  tZXinv <- lift_exc (np_linalg_inv tZX) ;;
  assign_fit (set_tZXinv (Some tZXinv)) ;;;
  beta_hat <- lift_exc (np_linalg_solve tZX tZy) ;;
  assign_fit (set_beta_hat (Some beta_hat)) ;;;
  let Y_hat_link := _X *m beta_hat in
  assign_fit (set_Y_hat_link (Some Y_hat_link)) ;;;
  let u_hat := _Y - Y_hat_link in
  assign_fit (set_u_hat (Some u_hat)) ;;;
  assign_fit (set_scores (Some (\matrix_(i, j) (_Z i j * u_hat i 0)))) ;;;
  assign_fit (set_hessian (Some (_Z^T *m _Z))) ;;;
  assign_fit (set_tXZ PyNone) ;;;
  assign_fit (set_tZZinv PyNone).

(** The object went through a successful [get_fit] (of this class or of a
    subclass): every attribute that [get_vcov] reads at its entry is
    assigned. *)
Definition fitted (self : Feols) : bool :=
  [&& isSome (beta_hat (fit self)), isSome (tZX (fit self)),
      isSome (tZXinv (fit self)), isSome (hessian (fit self)),
      isSome (scores (fit self)), isSome (u_hat (fit self)),
      is_set (tXZ (fit self)) & is_set (tZZinv (fit self))].

(** *** [get_vcov] (lines 128-383) *)

(** The bread of an IV model, [inv(_tXZ @ _tZZinv @ _tZX)] (line 197). *)
Definition iv_bread (_tXZ _tZZinv : option 'M[F]_k) (_tZX : 'M[F]_k) :
  exc 'M[F]_k :=
  t <-- matmul_opt _tXZ _tZZinv ;;
  np_linalg_inv (t *m _tZX).

(** [_tXZ @ _tZZinv @ Omega @ _tZZinv @ _tZX] (lines 258 and 312). *)
Definition iv_meat (_tXZ _tZZinv : option 'M[F]_k) (Omega _tZX : 'M[F]_k) :
  exc 'M[F]_k :=
  t <-- matmul_opt _tXZ _tZZinv ;;
  t' <-- matmul_opt (Some (t *m Omega)) _tZZinv ;;
  Ok (t' *m _tZX).

(** The leverage of line 242, [np.sum(_X * (_X @ _tZXinv), axis=1)]. *)
Definition leverage (_X : 'M[F]_(N, k)) (_tZXinv : 'M[F]_k) : 'cV[F]_N :=
  \col_i \sum_j (_X i j * (_X *m _tZXinv) i j).

(** Lines 230-247: the locals [u] and [transformed_scores] of the "hetero"
    branch.  [None] is an unbound local: no branch binds
    [transformed_scores] for an unknown detail, and the HC3 branch leaves [u]
    unbound. *)
Definition hetero_transform (detail : pyval) (_is_iv : bool)
    (_X : 'M[F]_(N, k)) (_tZXinv : 'M[F]_k) (_u_hat : 'cV[F]_N)
    (_scores : 'M[F]_(N, k)) :
  exc (option 'cV[F]_N * option 'M[F]_(N, k)) :=
  if pyval_in detail [:: "hetero"; "HC1"] then Ok (Some _u_hat, Some _scores)
  else if pyval_in detail [:: "HC2"; "HC3"] then
    if _is_iv then Raise VcovTypeNotSupportedError
    else
      tXXinv <-- np_linalg_inv (_X^T *m _X) ;;
      let leverage := leverage _X _tZXinv in
      if pyval_eq detail "HC2" then
        Ok (Some (\col_i (_u_hat i 0 / np_sqrt E (1 - leverage i 0))),
            Some (\matrix_(i, j)
                    (_scores i j / np_sqrt E (1 - leverage i 0))))
      else
        Ok (None,
            Some (\matrix_(i, j) (_scores i j / (1 - leverage i 0))))
  else Ok (None, None).

(** Reading a local variable: UnboundLocalError when no branch bound it. *)
Definition local T (v : option T) : exc T :=
  if v is Some x then Ok x else Raise UnboundLocalError.

(** Lines 202-218 *)
Definition vcov_iid (bread : 'M[F]_k) (_u_hat : 'cV[F]_N) : M Feols unit :=
  self <- get ;;
  if ~~ _support_iid_inference (init self) then raise NotImplementedError
  else
    ssc <- lift_exc (get_ssc (_ssc_dict (init self)) N k 1 1 "iid") ;;
    assign_cov (set_ssc (Val ssc)) ;;;
    let sigma2 := (\sum_i _u_hat i 0 ^+ 2) / (N%:R - 1) in
    assign_cov (set_vcov (Val (sigma2 *: (ssc *: bread)))).

(** Lines 220-259 *)
Definition vcov_hetero (detail : pyval) (bread : 'M[F]_k)
    (_tXZ _tZZinv : option 'M[F]_k) (_tZX _tZXinv : 'M[F]_k)
    (_u_hat : 'cV[F]_N) (_scores : 'M[F]_(N, k)) : M Feols unit :=
  self <- get ;;
  let _is_iv := _is_iv (init self) in
  ssc <- lift_exc (get_ssc (_ssc_dict (init self)) N k 1 1 "hetero") ;;
  assign_cov (set_ssc (Val ssc)) ;;;
  ut <- lift_exc (hetero_transform detail _is_iv (X (init self)) _tZXinv
                               _u_hat _scores) ;;
  if _is_iv == false then
    transformed_scores <- lift_exc (local ut.2) ;;
    let meat := transformed_scores^T *m transformed_scores in
    assign_cov (set_vcov (Val (ssc *: bread *m meat *m bread)))
  else
    u <- lift_exc (local ut.1) ;;
    transformed_scores <- lift_exc (local ut.2) ;;
    let Omega := transformed_scores^T *m transformed_scores in
    meat <- lift_exc (iv_meat _tXZ _tZZinv Omega _tZX) ;;
    assign_cov (set_vcov (Val (ssc *: bread *m meat *m bread))).

(** Lines 291-296: [weighted_uhat]. *)
Definition weighted_uhat (_weights : pyobj) (_u_hat : 'cV[F]_N) :
  exc 'cV[F]_N :=
  match _weights with
  | PyNoneObj => Ok _u_hat
  | PyArray w => broadcast_mul (flatten w) _u_hat
  | PyOther => Raise AttributeError
  end.

(** Lines 298-305: the loop over [clustid] that accumulates [meat]. *)
Definition crv1_meat (clustid : seq label) (cluster_df : N.-tuple cell)
    (_Z : 'M[F]_(N, k)) (weighted_uhat : 'cV[F]_N) : 'M[F]_k :=
  \sum_(g <- clustid)
    (let Zg := rowsel (eq_label cluster_df g) _Z in
     let ug := rowsel (eq_label cluster_df g) weighted_uhat in
     let score_g := Zg^T *m ug in
     score_g *m score_g^T).

(** Lines 345-356: the jackknife coefficient of iteration [ixg] of the loop
    of the model without fixed effects. *)
Definition beta_jack_fast (X : 'M[F]_(N, k)) (Y : 'cV[F]_N)
    (group : N.-tuple cell) (ixg : nat) : 'cV[F]_k :=
  let tXX := X^T *m X in
  let tXy := X^T *m Y in
  let Xg := rowsel (np_equal ixg group) X in
  let Yg := rowsel (np_equal ixg group) Y in
  let tXgXg := Xg^T *m Xg in
  np_linalg_pinv (tXX - tXgXg) *m (tXy - Xg^T *m Yg).

(** Lines 363-368: the loop of the model with fixed effects; each iteration
    refits on [_data[~np.equal(ixg, group)]] and may raise. *)
Fixpoint beta_jack_refit (data : DataFrame N) (fml : option string)
    (group : N.-tuple cell) (ixgs : seq nat) : exc (seq 'cV[F]_k) :=
  match ixgs with
  | [::] => Ok [::]
  | ixg :: ixgs' =>
      b <-- fixest_coef E k data (predC (np_equal ixg group)) fml ;;
      bs <-- beta_jack_refit data fml group ixgs' ;;
      Ok (b :: bs)
  end.

(** Lines 376-381: the sum of the outer products of the centred jackknife
    coefficients. *)
Definition crv3_sum (beta_jack : seq 'cV[F]_k) (beta_center : 'cV[F]_k) :
  'M[F]_k :=
  \sum_(b <- beta_jack)
    (let beta_centered := b - beta_center in
     np_outer beta_centered beta_centered).

(** Lines 261-383 *)
Definition vcov_CRV (detail : pyval) (bread : 'M[F]_k)
    (_tXZ _tZZinv : option 'M[F]_k) (_u_hat : 'cV[F]_N) : M Feols unit :=
  self <- get ;;
  let _data := _data (init self) in
  let _is_iv := _is_iv (init self) in
  let _Z := Z (init self) in
  clustervar <- getattr_opt (fun self => clustervar (cov self)) ;;
  cluster_df <- lift_exc (match _data, clustervar with
                      | None, _ => Raise TypeError
                      | Some df, Some (PStr name) => getitem df name
                      | Some df, _ => Raise KeyError
                      end) ;;
  if isna_any cluster_df then raise NanInClusterVarError
  else
    let clustid := factorize_uniques cluster_df in
    let G := size clustid in
    assign_cov (set_G (Val G)) ;;;
    ssc <- lift_exc (get_ssc (_ssc_dict (init self)) N k G 1 "CRV") ;;
    assign_cov (set_ssc (Val ssc)) ;;;
    if pyval_eq detail "CRV1" then
      weighted_uhat <- lift_exc (weighted_uhat (weights (init self)) _u_hat) ;;
      let meat := crv1_meat clustid cluster_df _Z weighted_uhat in
      if _is_iv == false then
        assign_cov (set_vcov (Val (ssc *: bread *m meat *m bread)))
      else
        tZX <- getattr (fun self => tZX (fit self)) ;;
        meat <- lift_exc (iv_meat _tXZ _tZZinv meat tZX) ;;
        assign_cov (set_vcov (Val (ssc *: bread *m meat *m bread)))
    else if pyval_eq detail "CRV3" then
      if _is_iv then raise VcovTypeNotSupportedError
      else if ~~ _support_crv3_inference (init self) then
        raise NotImplementedError
      else
        beta_hat <- getattr (fun self => beta_hat (fit self)) ;;
        let n_groups := G in
        let group := cluster_df in
        beta_jack <-
          lift_exc (if _has_fixef (init self) == false then
                  Ok [seq beta_jack_fast (X (init self)) (Y (init self))
                                         group ixg
                     | ixg <- iota 0 n_groups]
                else
                  match _data with
                  | Some df =>
                      beta_jack_refit df (_fml (init self)) group
                                      (iota 0 n_groups)
                  | None => Raise TypeError
                  end) ;;
        let beta_center := beta_hat in
        let vcov := crv3_sum beta_jack beta_center in
        assign_cov (set_vcov (Val (ssc *: vcov)))
    else ret tt.

Definition get_vcov (vcov : vcov_arg) : M Feols unit :=
  self <- get ;;
  let _data := _data (init self) in
  let _has_fixef := _has_fixef (init self) in
  let _is_iv := _is_iv (init self) in
  _beta_hat <- getattr (fun self => beta_hat (fit self)) ;;
  _tXZ <- getattr_opt (fun self => tXZ (fit self)) ;;
  _tZZinv <- getattr_opt (fun self => tZZinv (fit self)) ;;
  _tZX <- getattr (fun self => tZX (fit self)) ;;
  _tZXinv <- getattr (fun self => tZXinv (fit self)) ;;
  _hessian <- getattr (fun self => hessian (fit self)) ;;
  _scores <- getattr (fun self => scores (fit self)) ;;
  _u_hat <- getattr (fun self => u_hat (fit self)) ;;
  assign_cov (set_vcov_type PyNone) ;;;
  assign_cov (set_vcov_type_detail PyNone) ;;;
  assign_cov (set_is_clustered PyNone) ;;;
  assign_cov (set_clustervar PyNone) ;;;
  assign_cov (set_G PyNone) ;;;
  assign_cov (set_ssc PyNone) ;;;
  assign_cov (set_vcov PyNone) ;;;
  lift_exc (_check_vcov_input vcov _data) ;;;
  d <- lift_exc (_deparse_vcov_input vcov _has_fixef _is_iv) ;;
  let: (vcov_type, vcov_type_detail, is_clustered, clustervar) := d in
  assign_cov (set_vcov_type (Val vcov_type)) ;;;
  assign_cov (set_vcov_type_detail (Val vcov_type_detail)) ;;;
  assign_cov (set_is_clustered (Val is_clustered)) ;;;
  assign_cov (set_clustervar (attr_of_option clustervar)) ;;;
  (if _is_iv && (vcov_type \in [:: "CRV3"]) then
     raise VcovTypeNotSupportedError
   else ret tt) ;;;
  bread <- lift_exc (if _is_iv then iv_bread _tXZ _tZZinv _tZX
                 else np_linalg_inv _hessian) ;;
  if vcov_type == "iid" then vcov_iid bread _u_hat
  else if vcov_type == "hetero" then
    vcov_hetero vcov_type_detail bread _tXZ _tZZinv _tZX _tZXinv
                _u_hat _scores
  else if vcov_type == "CRV" then
    vcov_CRV vcov_type_detail bread _tXZ _tZZinv _u_hat
  else ret tt.

(** *** [get_inference] (lines 385-431) *)

Definition get_inference (alpha : F) : M Feols unit :=
  self <- get ;;
  _vcov <- getattr_opt (fun self => vcov (cov self)) ;;
  _beta_hat <- getattr (fun self => beta_hat (fit self)) ;;
  _vcov_type <- getattr_opt (fun self => vcov_type (cov self)) ;;
  _G <- getattr_opt (fun self => G (cov self)) ;;
  let _method := _method (init self) in
  assign_inf (set__se PyNone) ;;;
  assign_inf (set__tstat PyNone) ;;;
  assign_inf (set__pvalue PyNone) ;;;
  assign_inf (set_conf_int PyNone) ;;;
  V <- lift_exc (if _vcov is Some V then Ok V else Raise ValueError) ;;
  let se : 'cV[F]_k := \col_i np_sqrt E (V i i) in
  assign_inf (set__se (Val se)) ;;;
  let tstat : 'cV[F]_k := \col_i (_beta_hat i 0 / se i 0) in
  assign_inf (set__tstat (Val tstat)) ;;;
  df <- lift_exc (if (if _vcov_type is Some t then t \in [:: "iid"; "hetero"]
                  else false)
              then Ok (N%:Z - k%:Z)
              else if _G is Some g then Ok (g%:Z - 1)
              else Raise TypeError) ;;
  let pz :=
    if _method == "feols" then
      (\col_i (2 * (1 - t_cdf E `|tstat i 0| df)) : 'cV[F]_k,
       `|t_ppf E ((1 - alpha) / 2) df|)
    else
      (\col_i (2 * (1 - norm_cdf E `|tstat i 0|)) : 'cV[F]_k,
       `|norm_ppf E ((1 - alpha) / 2)|) in
  assign_inf (set__pvalue (Val pz.1)) ;;;
  let z := pz.2 in
  let z_se := z *: se in
  assign_inf (set_conf_int
    (Val (\matrix_(r, i) (if r == 0 :> nat then (_beta_hat - z_se) i 0
                          else (_beta_hat + z_se) i 0)))).

(** *** [get_Ftest] (lines 433-454) *)

(** A call of a method on another object [o]: an exception propagates to
    the caller; otherwise the caller holds the object as the method left
    it. *)
Definition call_on A (o : Feols) (c : M Feols A) : exc Feols :=
  match c o with
  | (Ok _, o') => Ok o'
  | (Raise e, _) => Raise e
  end.

(** The attribute [o.vcov] ([vcov] also names the argument of
    [get_Ftest]). *)
Definition vcov_of (o : Feols) : attr 'M[F]_k := vcov (cov o).

(** Lines 446-452: the local [vcov] of [get_Ftest]; for an IV model the
    covariance of a first-stage regression of [Y] on the instruments. *)
Definition Ftest_vcov (vcov : vcov_arg) : M Feols (option 'M[F]_k) :=
  self <- get ;;
  if _is_iv (init self) then
    first_stage <-
      lift_exc (Feols_init (Y (init self)) (Z (init self))
                           (PyArray (ndarray_of_mx (Z (init self))))) ;;
    first_stage <- lift_exc (call_on first_stage get_fit) ;;
    first_stage <- lift_exc (call_on first_stage (get_vcov vcov)) ;;
    getattr_opt (fun _ => vcov_of first_stage)
  else getattr_opt vcov_of.

Definition get_Ftest (vcov : vcov_arg) : M Feols unit :=
  let R : 'rV[F]_k := const_mx 1 in
  let q : 'M[F]_1 := 0 in
  beta <- getattr (fun self => beta_hat (fit self)) ;;
  let Rbetaq := R *m beta - q in
  vcov <- Ftest_vcov vcov ;;
  self_vcov <- getattr_opt vcov_of ;;
  V <- lift_exc (if self_vcov is Some V then Ok V else Raise ValueError) ;;
  inv <- lift_exc (np_linalg_inv (R *m V *m R^T)) ;;
  assign_inf (set_F_stat (Val ((Rbetaq *m inv *m Rbetaq) 0 0))).

End Object.

Arguments unfitted {N k}.
Arguments no_vcov {k}.
Arguments no_inference {k}.

End Model.

(** ** Notions used in the statements *)

(** [hoare P c Q R]: from an object satisfying [P], the computation [c]
    either returns [a] and leaves an object satisfying [Q a], or raises [e]
    and leaves an object satisfying [R e]. *)
Definition hoare S A (P : S -> Prop) (c : M S A) (Q : A -> S -> Prop)
    (R : exn -> S -> Prop) : Prop :=
  forall s, P s ->
    match c s with
    | (Ok a, s') => Q a s'
    | (Raise e, s') => R e s'
    end.

(** A request for CRV1: a dict whose first key is "CRV1". *)
Definition crv1_request (vcov : vcov_arg) : bool :=
  if vcov is VcovDict ((PStr key, _) :: _) then key == "CRV1" else false.

(** The cluster column with its labels renamed by [f]. *)
Definition relabel N (f : label -> label) (cluster_df : N.-tuple cell) :
  N.-tuple cell :=
  map_tuple (omap f) cluster_df.

(** A column whose observations are reordered by the permutation [s]: row
    [i] of the new column is row [s i] of the old one (as [row_perm] does
    for matrices). *)
Definition reorder N (s : 'S_N) (cluster_df : N.-tuple cell) :
  N.-tuple cell :=
  [tuple tnth cluster_df (s i) | i < N].

Section Statements.

Variable F : realFieldType.
Variable E : externals F.
Variables N k : nat.

(** The object after the seven assignments of [None] at lines 173-179. *)
Definition reset_vcov (self : Feols E N k) : Feols E N k :=
  Obj (init self) (fit self)
      (VcovAttrs PyNone PyNone PyNone PyNone PyNone PyNone PyNone)
      (inf self).

(** The object after the tuple assignment of lines 183-188. *)
Definition resolved (self : Feols E N k)
    (d : string * pyval * bool * option pyatom) : Feols E N k :=
  let: (vcov_type, vcov_type_detail, is_clustered, clustervar) := d in
  Obj (init self) (fit self)
      (VcovAttrs (Val vcov_type) (Val vcov_type_detail) (Val is_clustered)
                 (attr_of_option clustervar) PyNone PyNone PyNone)
      (inf self).

(** The object with another value of [self.weights]. *)
Definition with_weights (w : pyobj F) (self : Feols E N k) : Feols E N k :=
  Obj (InitAttrs (_method (init self)) (Y (init self)) (X (init self))
                 (Z (init self)) w (_is_iv (init self))
                 (_support_crv3_inference (init self))
                 (_support_iid_inference (init self)) (_data (init self))
                 (_fml (init self)) (_has_fixef (init self))
                 (_ssc_dict (init self)))
      (fit self) (cov self) (inf self).

(** [self.vcov is None] *)
Definition vcov_is_None (self : Feols E N k) : Prop := vcov_of self = PyNone.

(** [erasing c]: started with [self.vcov] holding [None], [c] leaves [None]
    there whenever it raises. *)
Definition erasing A (c : M (Feols E N k) A) : Prop :=
  hoare vcov_is_None c (fun _ _ => True) (fun _ => vcov_is_None).

(** [sim w c1 c2]: [c1] on the object with the weights [w] does what [c2]
    does on the object with its own weights, and leaves the same object up
    to the weights. *)
Definition sim (w : pyobj F) A (c1 c2 : M (Feols E N k) A) : Prop :=
  forall s, c1 (with_weights w s) = ((c2 s).1, with_weights w (c2 s).2).

(** The leverage of observation [i] as the specification defines it: the
    diagonal entry X_i (X'X)^-1 X_i' of the projection matrix. *)
Definition hat_diag (X : 'M[F]_(N, k)) (i : 'I_N) : F :=
  (X *m invmx (X^T *m X) *m X^T) i i.

(** The scores as the "hetero" branch transforms them (lines 230-247), by
    detail. *)
Definition hc_scores (detail : string) (_X : 'M[F]_(N, k))
    (_tZXinv : 'M[F]_k) (_scores : 'M[F]_(N, k)) : 'M[F]_(N, k) :=
  if detail \in [:: "hetero"; "HC1"] then _scores
  else if detail == "HC2" then
    \matrix_(r, j) (_scores r j / np_sqrt E (1 - leverage _X _tZXinv r 0))
  else \matrix_(r, j) (_scores r j / (1 - leverage _X _tZXinv r 0)).

(** The leave-one-cluster-out coefficient of the cluster labelled [g], as
    the specification words it (section 4.2, CRV3, path (a)): the
    contribution of the cluster is subtracted from X'X and X'Y and the
    reduced normal equations are solved. *)
Definition loo_coef (X : 'M[F]_(N, k)) (Y : 'cV[F]_N)
    (cluster_df : N.-tuple cell) (g : label) : 'cV[F]_k :=
  let Xg := rowsel (eq_label cluster_df g) X in
  let Yg := rowsel (eq_label cluster_df g) Y in
  np_linalg_pinv (X^T *m X - Xg^T *m Xg) *m (X^T *m Y - Xg^T *m Yg).

(** The CRV3 covariance of the specification: ssc times the sum over the
    clusters of the outer products of the leave-one-cluster-out coefficients
    centred at the full-sample estimate. *)
Definition crv3_spec (ssc : F) (X : 'M[F]_(N, k)) (Y : 'cV[F]_N)
    (cluster_df : N.-tuple cell) (beta : 'cV[F]_k) : 'M[F]_k :=
  ssc *: \sum_(g <- factorize_uniques cluster_df)
           np_outer (loo_coef X Y cluster_df g - beta)
                    (loo_coef X Y cluster_df g - beta).

(** The statistic of [get_Ftest] for the coefficient [beta] and the
    covariance [V]: (R beta - q)' (R V R')^-1 (R beta - q) with [R] a row of
    ones and [q] = 0. *)
Definition F_statistic (beta : 'cV[F]_k) (V : 'M[F]_k) : F :=
  let R : 'rV[F]_k := const_mx 1 in
  let Rbetaq : 'M[F]_1 := R *m beta - 0 in
  (Rbetaq *m invmx (R *m V *m R^T) *m Rbetaq) 0 0.

End Statements.

(** ** Concrete models *)

(** An instance of the external code, to run the model: [get_ssc] applies no
    correction (it returns 1, also for the [None] dict of a first stage),
    there is no fixed-effects refit, and the scalar functions are
    placeholders. *)
Definition toy : externals rat :=
  {| np_sqrt := id;
     t_cdf := fun x _ => x;
     t_ppf := fun x _ => x;
     norm_cdf := id;
     norm_ppf := id;
     ssc_dict := unit;
     get_ssc := fun _ _ _ _ _ _ => Ok 1;
     fixest_coef := fun _ _ _ _ _ => Raise NotImplementedError |}.

(** The column vector of a list. *)
Definition colv (l : seq rat) : 'cV[rat]_(size l) := \col_i nth 0 l i.

(** The requests {"CRV1": "c"} and {"CRV3": "c"}. *)
Definition crv1_c : vcov_arg := VcovDict [:: (PStr "CRV1", PStr "c")].
Definition crv3_c : vcov_arg := VcovDict [:: (PStr "CRV3", PStr "c")].

(** The weights [[1], [1]]. *)
Definition ones2 : pyobj rat := PyArray (Ndarray [:: 2%N; 1%N] [:: 1; 1]).

(** A data frame of two rows with one column, "c". *)
Definition data2 (a b : cell) : DataFrame 2 := [:: ("c", [tuple a; b])].

(** Two observations, one regressor: Y = [[1], [3]], X = [[1], [1]], as
    [Feols(Y, X, weights)] builds it, with the data attached. *)
Definition ols2 (data : option (DataFrame 2)) (w : pyobj rat) :
  Feols toy 2 1 :=
  Obj (InitAttrs (E := toy) "feols" (colv [:: 1; 3]) (const_mx 1)
                 (const_mx 1) w false true true data None false None)
      (unfitted rat 2 1) (no_vcov rat 1) (no_inference rat 1).

(** The same object after [get_fit]. *)
Definition ols2_fitted (data : option (DataFrame 2)) (w : pyobj rat) :
  Feols toy 2 1 :=
  Obj (init (ols2 data w))
      (FitAttrs (Some 2%:M) (Some 4%:M) (Some (2^-1)%:M) (Some 2%:M)
                (Some (colv [:: 2; 2])) (Some (colv [:: -1; 1]))
                (Some (colv [:: -1; 1])) (Some 2%:M) PyNone PyNone)
      (no_vcov rat 1) (no_inference rat 1).

(** One observation, one regressor, as an IV subclass leaves the object
    after its fit: [_is_iv] is set, every cross-moment is the 1 x 1 identity,
    and the cluster column "c" of the data holds one cell. *)
Definition iv1 (c : cell) (beta : rat) (V : attr 'M[rat]_1) : Feols toy 1 1 :=
  Obj (InitAttrs (E := toy) "feols" 1%:M 1%:M 1%:M
                 (PyArray (Ndarray [:: 1%N; 1%N] [:: 1])) true true true
                 (Some [:: ("c", [tuple c])]) None false None)
      (FitAttrs (Some 1%:M) (Some 1%:M) (Some 1%:M) (Some beta%:M)
                (Some 1%:M) (Some 0) (Some 0) (Some 1%:M) (Val 1%:M)
                (Val 1%:M))
      (VcovAttrs Unset Unset Unset Unset Unset Unset V)
      (no_inference rat 1).

(** Two observations and one instrument, as an IV subclass leaves the
    object: Y = [[1], [3]], Z = [[1], [1]], the coefficient 2 and the stored
    covariance [[4]]. *)
Definition iv2 : Feols toy 2 1 :=
  Obj (InitAttrs (E := toy) "feols" (colv [:: 1; 3]) (const_mx 1)
                 (const_mx 1) (PyArray (Ndarray [:: 2%N; 1%N] [:: 1; 1]))
                 true true true None None false None)
      (FitAttrs (Some 2%:M) (Some 4%:M) (Some (2^-1)%:M) (Some 2%:M)
                (Some (colv [:: 2; 2])) (Some (colv [:: -1; 1]))
                (Some (colv [:: -1; 1])) (Some 2%:M) (Val 2%:M)
                (Val (2^-1)%:M))
      (VcovAttrs (Val "hetero") (Val (PAtom (PStr "hetero"))) (Val false)
                 PyNone PyNone (Val 1) (Val 4%:M))
      (no_inference rat 1).

(** The first stage that [get_Ftest] builds from [iv2], after its fit. *)
Definition iv2_first_stage : Feols toy 2 1 :=
  ols2_fitted None (PyArray (ndarray_of_mx (const_mx 1 : 'M[rat]_(2, 1)))).

(** One observation, one regressor: Y = [[1]], X = [[1]], as
    [Feols(Y, X, weights)] builds it.  The fit is perfect and the leverage of
    the observation is 1. *)
Definition ols1 : Feols toy 1 1 :=
  Obj (InitAttrs (E := toy) "feols" 1%:M 1%:M 1%:M
                 (PyArray (Ndarray [:: 1%N; 1%N] [:: 1])) false true true
                 None None false None)
      (unfitted rat 1 1) (no_vcov rat 1) (no_inference rat 1).

(** Two observations, one regressor that is zero in the second: Y = [[1],
    [3]], X = [[1], [0]], with a dict of small-sample corrections attached.
    The fit passes through the first observation, whose leverage is 1. *)
Definition lev2 : Feols toy 2 1 :=
  Obj (InitAttrs (E := toy) "feols" (colv [:: 1; 3]) (colv [:: 1; 0])
                 (colv [:: 1; 0]) ones2 false true true None None false
                 (Some tt))
      (unfitted rat 2 1) (no_vcov rat 1) (no_inference rat 1).

(** ** Notions used in the further properties *)

(** A positive semi-definite matrix: its quadratic form is nowhere
    negative. *)
Definition psd (F : realFieldType) k (V : 'M[F]_k) : Prop :=
  forall x : 'rV[F]_k, 0 <= (x *m V *m x^T) 0 0.

(** The requests that [get_vcov] answers without dividing by zero: "iid"
    divides by N - 1 (line 217), "HC2" by sqrt(1 - h_i) and "HC3" by
    1 - h_i, where h_i is the leverage of line 242.  For "HC2" the argument
    of the square root is to be positive as well. *)
Definition divisors_nonzero (F : realFieldType) (E : externals F) N k
    (self : Feols E N k) (request : vcov_arg) : Prop :=
  if request is VcovStr s then
    (s = "iid" -> N != 1%N) /\
    (forall zxi, tZXinv (fit self) = Some zxi ->
       let h := leverage (X (init self)) zxi in
       (s = "HC2" ->
        forall i, 0 < 1 - h i 0 /\ np_sqrt E (1 - h i 0) != 0) /\
       (s = "HC3" -> forall i, 1 - h i 0 != 0))
  else True.

(** * The rest of the class: summaries and predictions *)

(** ** Python strings and sequences *)

(** [s.split(sep)] for a non-empty separator: the pieces of [s] between the
    occurrences of [sep], which are found from left to right and do not
    overlap.  [cur] is the piece being read and [skip] the number of
    characters of an occurrence of [sep] still to be passed over. *)
Fixpoint split_from (sep : string) (skip : nat) (cur s : string) :
  seq string :=
  match s with
  | EmptyString => [:: cur]
  | String c s' =>
      if skip is n.+1 then split_from sep n cur s'
      else if String.prefix sep s then
        cur :: split_from sep (String.length sep).-1 EmptyString s'
      else split_from sep 0 (String.append cur (String c EmptyString)) s'
  end.

Definition str_split (s sep : string) : seq string :=
  split_from sep 0 EmptyString s.

(** [s.count(sep)] for a non-empty [sep]: the number of occurrences of
    [sep] in [s], found from left to right without overlap. *)
Fixpoint count_from (sep : string) (skip : nat) (s : string) : nat :=
  match s with
  | EmptyString => 0%N
  | String c s' =>
      if skip is n.+1 then count_from sep n s'
      else if String.prefix sep s then
        (count_from sep (String.length sep).-1 s').+1
      else count_from sep 0 s'
  end.

Definition str_count (s sep : string) : nat := count_from sep 0 s.

(** [s.replace(old, new)] for a non-empty [old]: the pieces between the
    occurrences of [old], joined by [new]. *)
Definition str_replace (s old new : string) : string :=
  String.concat new (str_split s old).

(** [l[a:b]] for [a <= b]: slices are cut at the end of the list. *)
Definition slice T (l : seq T) (a b : nat) : seq T := take (b - a) (drop a l).

(** [a, b = l]: ValueError unless [l] has exactly two items. *)
Definition unpack2 T (l : seq T) : exc (T * T) :=
  if l is [:: a; b] then Ok (a, b) else Raise ValueError.

Section Reporting.

Variable F : realFieldType.
Variable E : externals F.

(** ** formulaic *)

(** A model matrix: the number of rows that [model_matrix] kept and the
    columns by name. *)
Record design : Type := Design {
  rows : nat;
  rhs : seq (string * rows.-tuple F)
}.

(** [model_matrix(fml, data)] is a parameter.  For a formula with two
    sides the class unpacks the result into the matrix of the left-hand
    side and the matrix of the right-hand side ([model_matrix_type]; only
    [fixef] uses the left-hand side, of which it takes the entries in
    row-major order); for a formula with one side the result is one matrix
    ([model_matrix_rhs_type]). *)
Definition model_matrix_type : Type :=
  forall M : nat, string -> DataFrame M -> exc (seq F * design).

Definition model_matrix_rhs_type : Type :=
  forall M : nat, string -> DataFrame M -> exc design.

(** [scipy.sparse.linalg.spsolve(A, b)] for a square [A] and a vector [b]
    is a parameter too. *)
Definition spsolve_type : Type :=
  forall n : nat, 'M[F]_n -> 'cV[F]_n -> exc 'cV[F]_n.

(** [X.drop("Intercept", axis=1)]: KeyError when there is no such
    column. *)
Definition drop_Intercept (d : design) : exc design :=
  if "Intercept" \in [seq c.1 | c <- rhs d] then
    Ok (Design [seq c <- rhs d | c.1 != "Intercept"])
  else Raise KeyError.

(** [X.to_numpy() @ beta] for the columns of a design and a vector of [k]
    coefficients: ValueError unless there are [k] columns. *)
Definition design_matmul k (d : design) (beta : 'cV[F]_k) :
  exc (seq F) :=
  if size (rhs d) == k then
    Ok [seq \sum_(j < k)
              tnth (nth [tuple of nseq (rows d) 0] [seq c.2 | c <- rhs d] j) r
              * beta j 0
       | r <- enum 'I_(rows d)]
  else Raise ValueError.

(** [col.to_numpy() - u] for a column of the data and a flat array [u] of
    the same length: an integer cell is a number, a missing cell is NaN and
    stays NaN ([None]), and a string cell makes the subtraction raise
    TypeError. *)
Definition column_minus N (col : N.-tuple cell) (u : 'cV[F]_N) :
  exc (seq (option F)) :=
  if has (fun c : cell => if c is Some (LStr _) then true else false) col
  then Raise TypeError
  else Ok [seq (if tnth col i is Some (LInt z) then Some (z%:~R - u i 0)
                else None)
          | i <- enum 'I_N].

(** The matrix of a design. *)
Definition design_mx (d : design) : 'M[F]_(rows d, size (rhs d)) :=
  \matrix_(r, j)
    tnth (nth [tuple of nseq (rows d) 0] [seq c.2 | c <- rhs d] j) r.

(** [a - b] for two flat arrays: equal lengths, or one of them of length 1,
    which is broadcast; ValueError otherwise. *)
Definition np_sub (a b : seq F) : exc (seq F) :=
  if size a == size b then Ok [seq x.1 - x.2 | x <- zip a b]
  else if size b == 1%N then Ok [seq x - head 0 b | x <- a]
  else if size a == 1%N then Ok [seq head 0 a - y | y <- b]
  else Raise ValueError.

(** Lines 602-603: [df[x] = pd.Categorical(df[x])] for the names [xs]; a
    name that is no column raises KeyError.  (The frame of the model does
    not record the type of a column, so the conversion itself leaves it as
    it is.) *)
Fixpoint to_categorical N (df : DataFrame N) (xs : seq string) : exc unit :=
  match xs with
  | [::] => Ok tt
  | x :: xs' => _ <-- getitem df x ;; to_categorical df xs'
  end.

(** Line 623: the name of a column of the matrix of the fixed effects,
    without its brackets, split at "T."; [res[1]] raises IndexError when
    the name does not contain "T.". *)
Definition var_level (x : string) : exc (string * string) :=
  let res := str_split (str_replace (str_replace x "[" "") "]" "") "T." in
  match res with
  | v :: l :: _ => Ok (v, l)
  | _ => Raise IndexError
  end.

(** Lines 620-625 *)
Fixpoint var_levels (cols : seq string) : exc (seq string * seq string) :=
  match cols with
  | [::] => Ok ([::], [::])
  | x :: cols' =>
      vl <-- var_level x ;;
      r <-- var_levels cols' ;;
      Ok (vl.1 :: r.1, vl.2 :: r.2)
  end.

(** A table of estimated fixed effects: its rows, a level and a value. *)
Definition fe_table : Type := seq (string * F).

(** [pd.DataFrame({"level": levi, "value": alphai})]: ValueError when the
    two columns differ in length. *)
Definition level_value (levi : seq string) (alphai : seq F) :
  exc fe_table :=
  if size levi == size alphai then Ok (zip levi alphai)
  else Raise ValueError.

(** [d[x] = v] for a dict as the list of its items. *)
Definition dict_set T (d : seq (string * T)) (x : string) (v : T) :
  seq (string * T) :=
  if x \in [seq kv.1 | kv <- d] then
    [seq (if kv.1 == x then (x, v) else kv) | kv <- d]
  else rcons d (x, v).

(** [np.unique(var)]: the distinct names in increasing order. *)
Definition np_unique (var : seq string) : seq string :=
  sort String.leb (undup var).

Section Extended.

Variables N k : nat.

(** ** The object, with the attributes that the summaries use *)

(** [_coefnames] is assigned [None] by [__init__] (line 89) and set from
    outside; the other attributes are assigned by [get_performance]. *)
Record report_attrs : Type := ReportAttrs {
  _coefnames : option (seq string);
  rmse : attr F;
  r2_within : attr F;
  r2 : attr F;
  adj_r2_within : attr F;
  adj_r2 : attr F
}.

(** [sumFE] is assigned [None] by [__init__] (line 76); [fixef] assigns it
    and [fixef_dict]. *)
Record fixef_attrs : Type := FixefAttrs {
  sumFE : attr (seq F);
  fixef_dict : attr (seq (string * fe_table))
}.

Record FeolsObj : Type := Self {
  core : Feols E N k;
  more : report_attrs;
  fe : fixef_attrs
}.

Definition set_rmse v (a : report_attrs) : report_attrs :=
  ReportAttrs (_coefnames a) v (r2_within a) (r2 a) (adj_r2_within a)
              (adj_r2 a).
Definition set_r2_within v (a : report_attrs) : report_attrs :=
  ReportAttrs (_coefnames a) (rmse a) v (r2 a) (adj_r2_within a) (adj_r2 a).
Definition set_r2 v (a : report_attrs) : report_attrs :=
  ReportAttrs (_coefnames a) (rmse a) (r2_within a) v (adj_r2_within a)
              (adj_r2 a).
Definition set_adj_r2_within v (a : report_attrs) : report_attrs :=
  ReportAttrs (_coefnames a) (rmse a) (r2_within a) (r2 a) v (adj_r2 a).
Definition set_adj_r2 v (a : report_attrs) : report_attrs :=
  ReportAttrs (_coefnames a) (rmse a) (r2_within a) (r2 a)
              (adj_r2_within a) v.

Definition set_sumFE v (a : fixef_attrs) : fixef_attrs :=
  FixefAttrs v (fixef_dict a).
Definition set_fixef_dict v (a : fixef_attrs) : fixef_attrs :=
  FixefAttrs (sumFE a) v.

Definition assign_more (f : report_attrs -> report_attrs) :
  M FeolsObj unit :=
  modify (fun self => Self (core self) (f (more self)) (fe self)).
Definition assign_fe (f : fixef_attrs -> fixef_attrs) : M FeolsObj unit :=
  modify (fun self => Self (core self) (more self) (f (fe self))).

(** A method of the estimator proper, called on the whole object. *)
Definition on_core A (c : M (Feols E N k) A) : M FeolsObj A :=
  fun self =>
    ((c (core self)).1, Self (c (core self)).2 (more self) (fe self)).

(** Reading an attribute of the whole object. *)
Definition getattr_of T (a : FeolsObj -> option T) : M FeolsObj T :=
  fun self => match a self with
              | Some x => (Ok x, self)
              | None => (Raise AttributeError, self)
              end.

Definition getattr_opt_of T (a : FeolsObj -> attr T) :
  M FeolsObj (option T) :=
  fun self => match a self with
              | Val x => (Ok (Some x), self)
              | PyNone => (Ok None, self)
              | Unset => (Raise AttributeError, self)
              end.

(** *** [get_performance] (lines 688-724) *)

(** [np.sum((y - np.mean(y)) ** 2)] *)
Definition sum_sq_dev (y : 'cV[F]_N) : F :=
  let mean := (\sum_i y i 0) / N%:R in
  \sum_i (y i 0 - mean) ^+ 2.

Definition get_performance : M FeolsObj unit :=
  self <- get ;;
  let _Y := Y (init (core self)) in
  _u_hat <- getattr_of (fun self => u_hat (fit (core self))) ;;
  let _N : F := N%:R in
  let _k : F := k%:R in
  let Y_no_demean := _Y in
  let ssu := \sum_i _u_hat i 0 ^+ 2 in
  let ssy_within := sum_sq_dev _Y in
  let ssy := sum_sq_dev Y_no_demean in
  assign_more (set_rmse (Val (np_sqrt E (ssu / _N)))) ;;;
  let self_r2_within := 1 - ssu / ssy_within in
  assign_more (set_r2_within (Val self_r2_within)) ;;;
  let self_r2 := 1 - ssu / ssy in
  assign_more (set_r2 (Val self_r2)) ;;;
  assign_more (set_adj_r2_within
                 (Val (1 - (1 - self_r2_within) * (_N - 1)
                           / (_N - _k - 1)))) ;;;
  assign_more (set_adj_r2
                 (Val (1 - (1 - self_r2) * (_N - 1) / (_N - _k - 1)))).

(** *** [predict] (lines 645-676) and [resid] (lines 784-788) *)

Definition predict (model_matrix : model_matrix_type) M'
    (data : option (DataFrame M')) (type : pyatom) :
  M FeolsObj (seq (option F)) :=
  self <- get ;;
  let _fml := _fml (init (core self)) in
  let _data := _data (init (core self)) in
  _u_hat <- getattr_of (fun self => u_hat (fit (core self))) ;;
  _beta_hat <- getattr_of (fun self => beta_hat (fit (core self))) ;;
  if ~~ atom_in type [:: "response"; "link"] then raise ValueError
  else
    match data with
    | None =>
        fml <- lift_exc (if _fml is Some s then Ok s
                         else Raise AttributeError) ;;
        depvar <- lift_exc (item0 (str_split fml "~")) ;;
        col <- lift_exc (if _data is Some df then getitem df depvar
                         else Raise TypeError) ;;
        lift_exc (column_minus col _u_hat)
    | Some data =>
        fml <- lift_exc (if _fml is Some s then Ok s
                         else Raise AttributeError) ;;
        parts <- lift_exc (unpack2 (str_split fml "|")) ;;
        let fml_linear := parts.1 in
        YX <- lift_exc (model_matrix M' fml_linear data) ;;
        X <- lift_exc (drop_Intercept YX.2) ;;
        y_hat <- lift_exc (design_matmul X _beta_hat) ;;
        ret [seq Some y | y <- y_hat]
    end.

Definition resid : M FeolsObj 'cV[F]_N :=
  getattr_of (fun self => u_hat (fit (core self))).

(** *** [tidy] (lines 726-752) and the accessors (lines 754-782) *)

(** A row of the frame that [tidy] builds, by column.  A column built from
    an attribute that holds [None] is [None] in every row. *)
Record tidy_row : Type := TidyRow {
  Estimate : F;
  Std_Error : option F;
  t_value : option F;
  Pr_t : option F;
  lower : F;
  upper : F
}.

(** [pd.DataFrame({...}).set_index("Coefficient")] for [k] coefficients:
    the rows by their index.  [None] for the names is broadcast; a list of
    names of another length raises ValueError. *)
Definition tidy_frame (_coefnames : option (seq string))
    (_beta_hat : 'cV[F]_k) (_se _tstat _pvalue : option 'cV[F]_k)
    (lo hi : 'rV[F]_k) : exc (seq (option string * tidy_row)) :=
  let row (j : 'I_k) :=
    TidyRow (_beta_hat j 0) (omap (fun v : 'cV[F]_k => v j 0) _se)
            (omap (fun v : 'cV[F]_k => v j 0) _tstat)
            (omap (fun v : 'cV[F]_k => v j 0) _pvalue) (lo 0 j) (hi 0 j) in
  match _coefnames with
  | None => Ok [seq (None, row j) | j <- enum 'I_k]
  | Some names =>
      if size names == k then
        Ok (map (fun j : 'I_k => (Some (nth EmptyString names j), row j))
                (enum 'I_k))
      else Raise ValueError
  end.

Definition tidy : M FeolsObj (seq (option string * tidy_row)) :=
  self <- get ;;
  let _coefnames := _coefnames (more self) in
  _se <- getattr_opt_of (fun self => _se (inf (core self))) ;;
  _tstat <- getattr_opt_of (fun self => _tstat (inf (core self))) ;;
  _pvalue <- getattr_opt_of (fun self => _pvalue (inf (core self))) ;;
  _beta_hat <- getattr_of (fun self => beta_hat (fit (core self))) ;;
  _conf_int <- getattr_opt_of (fun self => conf_int (inf (core self))) ;;
  ci <- lift_exc (if _conf_int is Some ci then Ok ci
                  else Raise TypeError) ;;
  lift_exc (tidy_frame _coefnames _beta_hat _se _tstat _pvalue
                       (row 0 ci) (row 1 ci)).

(** [tidy()[column]] *)
Definition tidy_column T (f : tidy_row -> T) :
  M FeolsObj (seq (option string * T)) :=
  t <- tidy ;; ret [seq (r.1, f r.2) | r <- t].

Definition coef := tidy_column Estimate.
Definition se := tidy_column Std_Error.
Definition tstat := tidy_column t_value.
Definition pvalue := tidy_column Pr_t.
Definition confint := tidy_column (fun r => (lower r, upper r)).

(** *** [fixef] (lines 560-643) *)

(** Lines 629-638: the loop over [np.unique(var)]; [ki] is the number of
    entries of [var] equal to "group" (line 630, the same in every pass),
    and [ki_start] is 0 in the first pass and [ki] afterwards. *)
Fixpoint fixef_loop (ki : nat) (level : seq string) (alpha : seq F)
    (ki_start : nat) (xs : seq string) : M FeolsObj unit :=
  match xs with
  | [::] => ret tt
  | x :: xs' =>
      let alphai := slice alpha ki_start (ki + ki_start) in
      let levi := slice level ki_start (ki + ki_start) in
      fe_dict <- lift_exc (level_value levi alphai) ;;
      d <- getattr_opt_of (fun self => fixef_dict (fe self)) ;;
      d <- lift_exc (if d is Some d then Ok d else Raise TypeError) ;;
      assign_fe (set_fixef_dict (Val (dict_set d x fe_dict))) ;;;
      fixef_loop ki level alpha ki xs'
  end.

(** The output of [print] (lines 640-641) is not modelled. *)
Definition fixef (model_matrix : model_matrix_type)
    (model_matrix_rhs : model_matrix_rhs_type) (spsolve : spsolve_type) :
  M FeolsObj unit :=
  self <- get ;;
  let _has_fixef := _has_fixef (init (core self)) in
  let _is_iv := _is_iv (init (core self)) in
  let _method := _method (init (core self)) in
  let _fml := _fml (init (core self)) in
  let _data := _data (init (core self)) in
  if ~~ _has_fixef then raise ValueError
  else if _is_iv then raise NotImplementedError
  else if _method == "fepois" then raise NotImplementedError
  else
    fml <- lift_exc (if _fml is Some s then Ok s
                     else Raise AttributeError) ;;
    p <- lift_exc (unpack2 (str_split fml "~")) ;;
    let depvars := p.1 in
    let res := p.2 in
    q <- lift_exc (unpack2 (str_split res "|")) ;;
    let covars := q.1 in
    let fixef_vars := q.2 in
    df <- lift_exc (if _data is Some df then Ok df
                    else Raise AttributeError) ;;
    lift_exc (to_categorical df (str_split fixef_vars "+")) ;;;
    let fml_linear := String.append depvars (String.append "~" covars) in
    YX <- lift_exc (model_matrix N fml_linear df) ;;
    X <- lift_exc (drop_Intercept YX.2) ;;
    let Y := YX.1 in
    beta_hat <- getattr_of (fun self => beta_hat (fit (core self))) ;;
    Xb <- lift_exc (design_matmul X beta_hat) ;;
    uhat <- lift_exc (np_sub Y Xb) ;;
    D2 <- lift_exc (model_matrix_rhs N (String.append "-1+" fixef_vars)
                                     df) ;;
    let cols := [seq c.1 | c <- rhs D2] in
    if rows D2 != size uhat then raise ValueError
    else
      let D := design_mx D2 in
      let b : 'cV[F]_(rows D2) := \col_i nth 0 uhat i in
      alpha <- lift_exc (spsolve _ (D^T *m D) (D^T *m b)) ;;
      vl <- lift_exc (var_levels cols) ;;
      let var := vl.1 in
      let level := vl.2 in
      assign_fe (set_fixef_dict (Val [::])) ;;;
      let ki := count_mem "group" var in
      fixef_loop ki level [seq alpha j 0 | j <- enum 'I_(size (rhs D2))]
                 0 (np_unique var) ;;;
      assign_fe
        (set_sumFE (Val [seq (D *m alpha) r 0 | r <- enum 'I_(rows D2)])).

End Extended.

End Reporting.

(** ** Concrete models for the summaries *)

(** External code whose [np.sqrt] returns no negative number (it is the
    absolute value, to stay within the rationals). *)
Definition toy_abs : externals rat :=
  {| np_sqrt := fun x => `|x|;
     t_cdf := fun x _ => x;
     t_ppf := fun x _ => x;
     norm_cdf := id;
     norm_ppf := id;
     ssc_dict := unit;
     get_ssc := fun _ _ _ _ _ _ => Ok 1;
     fixest_coef := fun _ _ _ _ _ => Raise NotImplementedError |}.

(** The object of [ols2], for any external code, after [get_fit] and
    [get_vcov("hetero")]: the covariance is [[1/2]]. *)
Definition ols2_hetero (E : externals rat) : Feols E 2 1 :=
  Obj (InitAttrs (E := E) "feols" (colv [:: 1; 3]) (const_mx 1)
                 (const_mx 1) ones2 false true true None None false None)
      (FitAttrs (Some 2%:M) (Some 4%:M) (Some (2^-1)%:M) (Some 2%:M)
                (Some (colv [:: 2; 2])) (Some (colv [:: -1; 1]))
                (Some (colv [:: -1; 1])) (Some 2%:M) PyNone PyNone)
      (VcovAttrs (Val "hetero") (Val (PAtom (PStr "hetero"))) (Val false)
                 PyNone PyNone (Val 1) (Val (2^-1)%:M))
      (no_inference rat 1).

(** Two observations on a regressor that is zero: X'X is the zero
    matrix. *)
Definition zero2 : Feols toy 2 1 :=
  Obj (InitAttrs (E := toy) "feols" (colv [:: 1; 3]) 0 0 ones2 false true
                 true None None false None)
      (unfitted rat 2 1) (no_vcov rat 1) (no_inference rat 1).

(** Three observations on a line through the origin: Y = X = [[1], [2],
    [3]], as [Feols(Y, X, weights)] builds it. *)
Definition line3 : Feols toy 3 1 :=
  Obj (InitAttrs (E := toy) "feols" (colv [:: 1; 2; 3])
                 (colv [:: 1; 2; 3]) (colv [:: 1; 2; 3])
                 (PyArray (Ndarray [:: 3%N; 1%N] [:: 1; 1; 1])) false true
                 true None None false None)
      (unfitted rat 3 1) (no_vcov rat 1) (no_inference rat 1).

(** The same regressor with Y = [[1], [2], [4]], after [get_fit]: the
    coefficient is 17/14. *)
Definition bent3 : Feols toy 3 1 :=
  Obj (InitAttrs (E := toy) "feols" (colv [:: 1; 2; 4])
                 (colv [:: 1; 2; 3]) (colv [:: 1; 2; 3])
                 (PyArray (Ndarray [:: 3%N; 1%N] [:: 1; 1; 1])) false true
                 true None None false None)
      (FitAttrs (Some 14%:M) (Some 17%:M) (Some (14^-1)%:M)
                (Some (17 / 14)%:M)
                (Some (colv [:: 17 / 14; 17 / 7; 51 / 14]))
                (Some (colv [:: - (3 / 14); - (3 / 7); 5 / 14]))
                (Some (colv [:: - (3 / 14); - (6 / 7); 15 / 14]))
                (Some 14%:M) PyNone PyNone)
      (no_vcov rat 1) (no_inference rat 1).

(** The model of [ols2] with the data frame and the formula attached, as
    the estimation function does it: the column "y" holds Y. *)
Definition train2 : Feols toy 2 1 :=
  Obj (InitAttrs (E := toy) "feols" (colv [:: 1; 3]) (const_mx 1)
                 (const_mx 1) ones2 false true true
                 (Some [:: ("y", [tuple Some (LInt 1); Some (LInt 3)]);
                           ("x", [tuple Some (LInt 1); Some (LInt 1)])])
                 (Some "y~x") false None)
      (unfitted rat 2 1) (no_vcov rat 1) (no_inference rat 1).

(** A model with the fixed effect "f", after its fit: the formula is
    "y~x|f" and the column "f" has the levels "a" and "b". *)
Definition fe2 : Feols toy 2 1 :=
  Obj (InitAttrs (E := toy) "feols" (colv [:: 1; 3]) (const_mx 1)
                 (const_mx 1) ones2 false true true
                 (Some [:: ("y", [tuple Some (LInt 1); Some (LInt 3)]);
                           ("x", [tuple Some (LInt 1); Some (LInt 1)]);
                           ("f", [tuple Some (LStr "a"); Some (LStr "b")])])
                 (Some "y~x|f") true None)
      (FitAttrs (Some 2%:M) (Some 4%:M) (Some (2^-1)%:M) (Some 2%:M)
                (Some (colv [:: 2; 2])) (Some (colv [:: -1; 1]))
                (Some (colv [:: -1; 1])) (Some 2%:M) PyNone PyNone)
      (no_vcov rat 1) (no_inference rat 1).

(** An object as [__init__] leaves the attributes of the summaries, with
    the names of the coefficients set from outside. *)
Definition as_built (E : externals rat) N k (names : option (seq string))
    (s : Feols E N k) : FeolsObj E N k :=
  Self s (ReportAttrs names Unset Unset Unset Unset Unset)
       (FixefAttrs PyNone Unset).

(** What formulaic and scipy return, for the model [fe2]: the two sides of
    "y~x", the dummies of the levels of "f", named as formulaic names them,
    and the solution of a system that is already diagonal. *)
Definition model_matrix2 : model_matrix_type rat :=
  fun _ _ _ =>
    Ok ([:: 1; 3],
        Design [:: ("Intercept", [tuple 1; 1]); ("x", [tuple 1; 1])]).

Definition model_matrix_rhs2 : model_matrix_rhs_type rat :=
  fun _ _ _ =>
    Ok (Design [:: ("f[T.a]", [tuple 1; 0]); ("f[T.b]", [tuple 0; 1])]).

Definition spsolve_diag : spsolve_type rat := fun _ _ b => Ok b.

(** Integer labels moved up by one; string labels stay. *)
Definition next_label (l : label) : label :=
  if l is LInt z then LInt (z + 1) else l.


(** * Theorems *)

Section Theorems.

Variable F : realFieldType.
Variable E : externals F.

(** ** Linear algebra over a real field *)

(** A matrix whose Gram matrix vanishes is zero. *)
Lemma mulmx_tr_eq0 m n (A : 'M[F]_(m, n)) : A *m A^T = 0 -> A = 0.
Proof.
move=> AA0; apply/matrixP => i j; rewrite [RHS]mxE.
have := congr1 (fun B : 'M_m => B i i) AA0; rewrite !mxE.
under eq_bigr do rewrite mxE -expr2.
move/eqP; rewrite psumr_eq0 => [l _|]; first by rewrite sqr_ge0.
by move/allP/(_ j (mem_index_enum _)); rewrite /= sqrf_eq0 => /eqP.
Qed.

(** The Gram matrix of a matrix of full column rank is invertible. *)
Lemma gram_unitmx N k (X : 'M[F]_(N, k)) :
  \rank X = k -> X^T *m X \in unitmx.
Proof.
move=> rkX; rewrite -row_free_unit -kermx_eq0.
have fX : row_free X^T by rewrite /row_free mxrank_tr rkX.
apply/eqP; apply: (row_free_inj fX); rewrite mul0mx.
apply: mulmx_tr_eq0; rewrite trmx_mul trmxK mulmxA -[_ *m X^T *m X]mulmxA.
by rewrite mulmx_ker mul0mx.
Qed.

(** ** The point estimator *)

(** What [get_fit] leaves in the object when [Z'X] is invertible. *)
Lemma get_fit_unit N k (self : Feols E N k) :
  let X := X (init self) in
  let Y := Y (init self) in
  let Z := Z (init self) in
  let beta := invmx (Z^T *m X) *m (Z^T *m Y) in
  let u := Y - X *m beta in
  Z^T *m X \in unitmx ->
  get_fit self =
    (Ok tt,
     Obj (init self)
         (FitAttrs (Some (Z^T *m X)) (Some (Z^T *m Y))
                   (Some (invmx (Z^T *m X))) (Some beta) (Some (X *m beta))
                   (Some u) (Some (\matrix_(i, j) (Z i j * u i 0)))
                   (Some (Z^T *m Z)) PyNone PyNone)
         (cov self) (inf self)).
Proof.
by move=> /= u; rewrite /get_fit /bind /= /np_linalg_inv /np_linalg_solve u.
Qed.

(** What [get_fit] leaves in the object when [Z'X] is singular: the two
    cross-moments are assigned, then [np.linalg.inv] raises. *)
Lemma get_fit_singular N k (self : Feols E N k) :
  let X := X (init self) in
  let Y := Y (init self) in
  let Z := Z (init self) in
  Z^T *m X \notin unitmx ->
  get_fit self =
    (Raise LinAlgError,
     Obj (init self)
         (set_tZy (Some (Z^T *m Y)) (set_tZX (Some (Z^T *m X)) (fit self)))
         (cov self) (inf self)).
Proof.
by move=> /= /negbTE u; rewrite /get_fit /bind /= /np_linalg_inv u.
Qed.

(** C1.  For a model with full-rank N x k regressors [X] and [Z] equal to
    [X], [get_fit] returns and stores a coefficient vector [beta] that
    solves (Z'X) beta = Z'Y; so [beta] satisfies the normal equations
    X'X beta = X'Y, the stored residual u = Y - X beta satisfies
    X'(Y - X beta) = 0, row i of the stored scores is Z_i times u_i, and the
    stored information matrix is Z'Z. *)
Theorem get_fit_normal_equations N k (self : Feols E N k) :
  let X := X (init self) in
  let Y := Y (init self) in
  let Z := Z (init self) in
  Z = X -> \rank X = k ->
  exists beta : 'cV[F]_k,
    let self' := (get_fit self).2 in
    let u := Y - X *m beta in
    [/\ (get_fit self).1 = Ok tt /\ init self' = init self,
        beta_hat (fit self') = Some beta /\ Z^T *m X *m beta = Z^T *m Y,
        X^T *m X *m beta = X^T *m Y,
        u_hat (fit self') = Some u /\ X^T *m (Y - X *m beta) = 0 &
        scores (fit self') = Some (\matrix_(i, j) (Z i j * u i 0)) /\
        hessian (fit self') = Some (Z^T *m Z)].
Proof.
move=> /= ZX rkX.
have uX := gram_unitmx rkX.
have uZX : (Z (init self))^T *m X (init self) \in unitmx by rewrite ZX.
exists (invmx ((Z (init self))^T *m X (init self))
        *m ((Z (init self))^T *m Y (init self))).
rewrite (get_fit_unit uZX) /=.
have sol : (Z (init self))^T *m X (init self)
           *m (invmx ((Z (init self))^T *m X (init self))
               *m ((Z (init self))^T *m Y (init self)))
           = (Z (init self))^T *m Y (init self).
  by rewrite mulmxA mulmxV // mul1mx.
move: sol; rewrite !ZX => sol.
split=> //; split=> //.
by rewrite mulmxBr mulmxA sol subrr.
Qed.

End Theorems.

(** ** A program logic for the state-and-exception monad *)

Section Hoare.

Variable S : Type.

Lemma hoare_pre A (P P' : S -> Prop) (c : M S A) Q R :
  (forall s, P s -> P' s) -> hoare P' c Q R -> hoare P c Q R.
Proof. by move=> PP' h s /PP' /h. Qed.

Lemma hoare_ret A (P : S -> Prop) (a : A) (Q : A -> S -> Prop) R :
  (forall s, P s -> Q a s) -> hoare P (ret a) Q R.
Proof. by move=> PQ s /PQ. Qed.

Lemma hoare_raise A (P : S -> Prop) e (Q : A -> S -> Prop)
    (R : exn -> S -> Prop) :
  (forall s, P s -> R e s) -> hoare P (raise e) Q R.
Proof. by move=> PR s /PR. Qed.

Lemma hoare_modify (P : S -> Prop) (g : S -> S) (Q : unit -> S -> Prop) R :
  (forall s, P s -> Q tt (g s)) -> hoare P (modify g) Q R.
Proof. by move=> PQ s /PQ. Qed.

Lemma hoare_bind A B (P : S -> Prop) (c : M S A) (Q : A -> S -> Prop)
    (f : A -> M S B) (Q' : B -> S -> Prop) R :
  hoare P c Q R -> (forall a, hoare (Q a) (f a) Q' R) ->
  hoare P (bind c f) Q' R.
Proof.
move=> hc hf s /hc; rewrite /bind.
by case: (c s) => [[a|e] s'] // /hf.
Qed.

Lemma hoare_bind_lift A B (P : S -> Prop) (r : exc A) (f : A -> M S B)
    (Q : B -> S -> Prop) (R : exn -> S -> Prop) :
  (forall a, r = Ok a -> hoare P (f a) Q R) ->
  (forall e, r = Raise e -> forall s, P s -> R e s) ->
  hoare P (bind (lift_exc r) f) Q R.
Proof.
rewrite /bind /lift_exc; case: r => [a|e] hok herr s Ps /=.
- exact: (hok a (erefl _) s Ps).
- exact: (herr e (erefl _) s Ps).
Qed.

Lemma hoare_bind_get B (P : S -> Prop) (f : S -> M S B) Q R :
  (forall s0, P s0 -> hoare (fun s => s = s0) (f s0) Q R) ->
  hoare P (bind get f) Q R.
Proof. by move=> hf s Ps; rewrite /bind /=; apply: (hf s Ps). Qed.

Lemma hoare_bind_modify B (P P' : S -> Prop) (g : S -> S)
    (f : unit -> M S B) Q R :
  (forall s, P s -> P' (g s)) -> hoare P' (f tt) Q R ->
  hoare P (bind (modify g) f) Q R.
Proof. by move=> PP' hf s /PP' /hf. Qed.

Lemma hoare_if A (P : S -> Prop) (b : bool) (c1 c2 : M S A) Q R :
  (b -> hoare P c1 Q R) -> (~~ b -> hoare P c2 Q R) ->
  hoare P (if b then c1 else c2) Q R.
Proof. by case: b => h1 h2; [apply: h1 | apply: h2]. Qed.

End Hoare.

Section Erasure.

Variable F : realFieldType.
Variable E : externals F.

(** ** The covariance estimator: control flow *)

Lemma fittedP N k (self : Feols E N k) :
  fitted self ->
  [/\ isSome (beta_hat (fit self)), isSome (tZX (fit self)),
      isSome (tZXinv (fit self)) & isSome (hessian (fit self))] /\
  [/\ isSome (scores (fit self)), isSome (u_hat (fit self)),
      is_set (tXZ (fit self)) & is_set (tZZinv (fit self))].
Proof.
rewrite /fitted => /and5P[h1 h2 h3 h4 /and4P[h5 h6 h7 h8]].
by split; split.
Qed.

Section Erasing.

Variables N k : nat.

Notation obj := (Feols E N k).

Lemma hoare_bind_getattr T B (P : obj -> Prop) (a : obj -> option T)
    (f : T -> M obj B) Q R :
  (forall s, P s -> isSome (a s)) ->
  (forall x, hoare (fun s => P s /\ a s = Some x) (f x) Q R) ->
  hoare P (bind (getattr a) f) Q R.
Proof.
move=> Pa hf s Ps; rewrite /bind /getattr.
by case ea: (a s) (Pa s Ps) => [x|] // _; apply: hf.
Qed.

Lemma hoare_bind_getattr_opt T B (P : obj -> Prop) (a : obj -> attr T)
    (f : option T -> M obj B) Q R :
  (forall s, P s -> is_set (a s)) ->
  (forall x, hoare (fun s => P s /\ a s = attr_of_option x) (f x) Q R) ->
  hoare P (bind (getattr_opt a) f) Q R.
Proof.
move=> Pa hf s Ps; rewrite /bind /getattr_opt.
case ea: (a s) (Pa s Ps) => [||x] // _.
- by apply: (hf None).
- by apply: (hf (Some x)).
Qed.

(** Reading an attribute neither changes the object nor distinguishes the
    outcomes as far as an invariant of the object is concerned. *)
Lemma inv_bind_getattr T B (I : obj -> Prop) (a : obj -> option T)
    (f : T -> M obj B) Q (R : exn -> obj -> Prop) :
  (forall s, I s -> R AttributeError s) ->
  (forall x, hoare I (f x) Q R) ->
  hoare I (bind (getattr a) f) Q R.
Proof.
move=> IR hf s Is; rewrite /bind /getattr.
by case: (a s) => [x|]; [apply: hf | apply: IR].
Qed.

Lemma inv_bind_getattr_opt T B (I : obj -> Prop) (a : obj -> attr T)
    (f : option T -> M obj B) Q (R : exn -> obj -> Prop) :
  (forall s, I s -> R AttributeError s) ->
  (forall x, hoare I (f x) Q R) ->
  hoare I (bind (getattr_opt a) f) Q R.
Proof.
move=> IR hf s Is; rewrite /bind /getattr_opt.
by case: (a s) => [||x]; [apply: IR | apply: hf | apply: hf].
Qed.

Lemma inv_bind_get B (I : obj -> Prop) (f : obj -> M obj B) Q R :
  (forall s0, hoare I (f s0) Q R) -> hoare I (bind get f) Q R.
Proof. by move=> hf s Is; rewrite /bind /=; apply: hf. Qed.

Ltac erasing_step :=
  first
    [ apply: inv_bind_get => ?
    | apply: inv_bind_getattr => [//|?]
    | apply: inv_bind_getattr_opt => [//|?]
    | apply: hoare_bind_lift => [? _|? _ //]
    | apply: (@hoare_bind_modify _ _ _ (@vcov_is_None F E N k)) => [//|]
    | apply: hoare_raise => //
    | apply: hoare_ret => //
    | apply: hoare_modify => //
    | apply: hoare_if => _
    | case: ifP => _ ].

Lemma erasing_vcov_iid bread (u : 'cV[F]_N) :
  erasing (@vcov_iid F E N k bread u).
Proof. by rewrite /erasing /vcov_iid; do !erasing_step. Qed.

Lemma erasing_vcov_hetero d bread xz zzi zx zxi (u : 'cV[F]_N) sc :
  erasing (@vcov_hetero F E N k d bread xz zzi zx zxi u sc).
Proof. by rewrite /erasing /vcov_hetero; do !erasing_step. Qed.

Lemma erasing_vcov_CRV d bread xz zzi (u : 'cV[F]_N) :
  erasing (@vcov_CRV F E N k d bread xz zzi u).
Proof. by rewrite /erasing /vcov_CRV; do !erasing_step. Qed.

Lemma fitted_bind_getattr T B (a : obj -> option T) (f : T -> M obj B)
    Q R :
  (forall s, fitted s -> isSome (a s)) ->
  (forall x, hoare (fun s => fitted s) (f x) Q R) ->
  hoare (fun s => fitted s) (bind (getattr a) f) Q R.
Proof.
move=> fa hf; apply: hoare_bind_getattr => // x.
by apply: hoare_pre (hf x) => s [].
Qed.

Lemma fitted_bind_getattr_opt T B (a : obj -> attr T)
    (f : option T -> M obj B) Q R :
  (forall s, fitted s -> is_set (a s)) ->
  (forall x, hoare (fun s => fitted s) (f x) Q R) ->
  hoare (fun s => fitted s) (bind (getattr_opt a) f) Q R.
Proof.
move=> fa hf; apply: hoare_bind_getattr_opt => // x.
by apply: hoare_pre (hf x) => s [].
Qed.

(** [get_vcov] on a fitted object: whatever it raises, it raises with
    [self.vcov] holding [None]. *)
Lemma get_vcov_erasing (vcov : vcov_arg) :
  hoare (fun self : obj => fitted self) (get_vcov vcov)
        (fun _ _ => True) (fun _ => @vcov_is_None F E N k).
Proof.
rewrite /get_vcov.
apply: hoare_bind_get => s0 f0; apply: (@hoare_pre _ _ _ (fun s => fitted s)).
  by move=> s ->.
apply: fitted_bind_getattr => [s /fittedP[[? ? ? ?] []]//|_beta_hat].
apply: fitted_bind_getattr_opt => [s /fittedP[[? ? ? ?] []]//|_tXZ].
apply: fitted_bind_getattr_opt => [s /fittedP[[? ? ? ?] []]//|_tZZinv].
apply: fitted_bind_getattr => [s /fittedP[[? ? ? ?] []]//|_tZX].
apply: fitted_bind_getattr => [s /fittedP[[? ? ? ?] []]//|_tZXinv].
apply: fitted_bind_getattr => [s /fittedP[[? ? ? ?] []]//|_hessian].
apply: fitted_bind_getattr => [s /fittedP[[? ? ? ?] []]//|_scores].
apply: fitted_bind_getattr => [s /fittedP[[? ? ? ?] []]//|_u_hat].
do 6!apply: (@hoare_bind_modify _ _ _ (fun _ => True)) => [//|].
apply: (@hoare_bind_modify _ _ _ (@vcov_is_None F E N k)) => [//|].
apply: hoare_bind_lift => [_ _|? _ //].
apply: hoare_bind_lift => [[[[vcov_type detail] is_clustered] clustervar] _|? _ //].
do 4!apply: (@hoare_bind_modify _ _ _ (@vcov_is_None F E N k)) => [//|].
apply: (@hoare_bind _ _ _ _ _ (fun _ => @vcov_is_None F E N k)).
  by apply: hoare_if => _; [apply: hoare_raise | apply: hoare_ret].
move=> _.
apply: hoare_bind_lift => [bread _|? _ //].
do !case: ifP => _.
- exact: erasing_vcov_iid.
- exact: erasing_vcov_hetero.
- exact: erasing_vcov_CRV.
- exact: hoare_ret.
Qed.

End Erasing.

End Erasure.



Section ControlFlow.

Variable F : realFieldType.
Variable E : externals F.
Variables N k : nat.

Notation obj := (Feols E N k).

(** A fitted object, attribute by attribute. *)
Lemma fitted_inv (self : obj) :
  fitted self ->
  exists zx zy zxi b yh u sc h xz zzi,
    fit self = FitAttrs (Some zx) zy (Some zxi) (Some b) yh (Some u)
                        (Some sc) (Some h) (attr_of_option xz)
                        (attr_of_option zzi).
Proof.
case: self => i [[zx|] zy [zxi|] [b|] yh [u|] [sc|] [h|] xz zzi] c inf0 //=.
rewrite /fitted /=.
case: xz => [||xz] //; case: zzi => [||zzi] // _;
  exists zx, zy, zxi, b, yh, u, sc, h.
- by exists None, None.
- by exists None, (Some zzi).
- by exists (Some xz), None.
- by exists (Some xz), (Some zzi).
Qed.

(** A request that fails validation: [get_vcov] raises the error of
    [_check_vcov_input] with the seven attributes reset. *)
Lemma get_vcov_check_raise (self : obj) (vcov : vcov_arg) (e : exn) :
  fitted self ->
  _check_vcov_input vcov (_data (init self)) = Raise e ->
  get_vcov vcov self = (Raise e, reset_vcov self).
Proof.
case/fitted_inv=> zx [zy] [zxi] [b] [yh] [u] [sc] [h] [xz] [zzi].
case: self => i ft c inf0 /= -> chk.
by rewrite /get_vcov /bind /=; case: xz => [xz|]; case: zzi => [zzi|];
   rewrite /= chk.
Qed.

(** A request that passes validation and fails resolution: [get_vcov]
    raises the error of [_deparse_vcov_input] with the seven attributes
    reset. *)
Lemma get_vcov_deparse_raise (self : obj) (vcov : vcov_arg) (e : exn) :
  fitted self ->
  _check_vcov_input vcov (_data (init self)) = Ok tt ->
  _deparse_vcov_input vcov (_has_fixef (init self)) (_is_iv (init self))
    = Raise e ->
  get_vcov vcov self = (Raise e, reset_vcov self).
Proof.
case/fitted_inv=> zx [zy] [zxi] [b] [yh] [u] [sc] [h] [xz] [zzi].
case: self => i ft c inf0 /= -> chk dep.
by rewrite /get_vcov /bind /=; case: xz => [xz|]; case: zzi => [zzi|];
   rewrite /= chk /= dep.
Qed.

(** *** List-valued requests *)

Lemma all_in_columnsE (data : DataFrame N) (l : seq pyatom) :
  all_in_columns (Some data) l
    = Ok (all (fun v => atom_in v (columns data)) l).
Proof. by elim: l => //= v l ->; case: ifP. Qed.

Lemma atom_in_str (v : pyatom) (l : seq string) : atom_in v l -> is_str v.
Proof. by case: v. Qed.

Lemma deparse_list (l : seq pyatom) (has_fixef is_iv : bool) :
  _deparse_vcov_input (VcovList l) has_fixef is_iv = Raise UnboundLocalError.
Proof. by []. Qed.

(** No list passes [get_vcov]. *)
Lemma get_vcov_list_raises (self : obj) (l : seq pyatom) :
  fitted self ->
  exists e, get_vcov (VcovList l) self = (Raise e, reset_vcov self).
Proof.
move=> fs.
case chk: (_check_vcov_input (VcovList l) (_data (init self))) => [[]|e].
- by exists UnboundLocalError; apply: get_vcov_deparse_raise.
- by exists e; apply: get_vcov_check_raise.
Qed.

(** C9.  For a list of strings that name columns of the data, validation
    succeeds and [get_vcov] fails with UnboundLocalError, raised by
    [_deparse_vcov_input], with [self.vcov] (and the other six attributes)
    holding [None]; and no list-valued request at all makes [get_vcov]
    return. *)
Theorem get_vcov_list_unbound_local (self : obj) (data : DataFrame N)
    (l : seq pyatom) :
  fitted self -> _data (init self) = Some data ->
  all (fun v => atom_in v (columns data)) l ->
  [/\ _check_vcov_input (VcovList l) (Some data) = Ok tt,
      _deparse_vcov_input (VcovList l) (_has_fixef (init self))
                          (_is_iv (init self)) = Raise UnboundLocalError,
      get_vcov (VcovList l) self = (Raise UnboundLocalError, reset_vcov self)
    & forall l', exists e,
        get_vcov (VcovList l') self = (Raise e, reset_vcov self)].
Proof.
move=> fs dt al.
have chk : _check_vcov_input (VcovList l) (Some data) = Ok tt.
  rewrite /_check_vcov_input /= all_in_columnsE /= al /=.
  by rewrite (sub_all _ al) // => v; apply: atom_in_str.
split=> //.
- by apply: get_vcov_deparse_raise; rewrite ?dt.
- by move=> l'; apply: get_vcov_list_raises.
Qed.

(** *** Failure and the stored covariance *)

(** Nothing that [get_vcov] does on a fitted object depends on what the
    seven attributes held before the call. *)
Lemma get_vcov_reset_first (self : obj) (request : vcov_arg) :
  fitted self -> get_vcov request self = get_vcov request (reset_vcov self).
Proof.
case/fitted_inv=> zx [zy] [zxi] [b] [yh] [u] [sc] [h] [xz] [zzi].
case: self => i ft c inf0 /= ->.
by rewrite /get_vcov /bind /=; case: xz => [xz|]; case: zzi => [zzi|].
Qed.

(** C10.  [get_vcov] assigns [None] to [self.vcov], [vcov_type],
    [vcov_type_detail], [is_clustered], [clustervar], [G] and [ssc] before
    it validates the request.  On a fitted object: a request that fails
    validation (malformed input) or resolution (an unsupported combination)
    raises with all seven attributes at [None], whatever they held before;
    whenever [get_vcov] raises, [self.vcov] is [None] afterwards; and the
    outcome and the object after the call are those of a call on the object
    with the seven attributes at [None]. *)
Theorem get_vcov_failure_erases_vcov (self : obj) (request : vcov_arg) :
  fitted self ->
  [/\ forall e,
        _check_vcov_input request (_data (init self)) = Raise e ->
        get_vcov request self = (Raise e, reset_vcov self),
      forall e,
        _check_vcov_input request (_data (init self)) = Ok tt ->
        _deparse_vcov_input request (_has_fixef (init self))
                            (_is_iv (init self)) = Raise e ->
        get_vcov request self = (Raise e, reset_vcov self),
      forall e,
        (get_vcov request self).1 = Raise e ->
        vcov_of (get_vcov request self).2 = PyNone &
      get_vcov request self = get_vcov request (reset_vcov self)].
Proof.
move=> fs; split.
- by move=> e chk; rewrite (get_vcov_check_raise fs chk).
- by move=> e chk dep; rewrite (get_vcov_deparse_raise fs chk dep).
- move=> e re; have := @get_vcov_erasing F E N k request self fs.
  by case: (get_vcov request self) re => [[a|e'] s'].
- exact: get_vcov_reset_first.
Qed.

End ControlFlow.

(** ** Unsupported combinations *)

Section Unsupported.

Variable F : realFieldType.
Variable E : externals F.
Variables N k : nat.

Notation obj := (Feols E N k).

Lemma check_str_ok (data : option (DataFrame N)) (s : string) :
  s \in [:: "iid"; "hetero"; "HC1"; "HC2"; "HC3"] ->
  _check_vcov_input (VcovStr s) data = Ok tt.
Proof. by rewrite /_check_vcov_input /= => ->. Qed.

Lemma deparse_hc_unsupported (s : string) (has_fixef is_iv : bool) :
  s \in [:: "HC2"; "HC3"] -> has_fixef || is_iv ->
  _deparse_vcov_input (VcovStr s) has_fixef is_iv
    = Raise VcovTypeNotSupportedError.
Proof.
rewrite !inE => /orP[] /eqP-> hi; rewrite /_deparse_vcov_input /=;
  by case: has_fixef hi => //= ->.
Qed.

(** HC2 and HC3 on a model with fixed effects or on an IV model: the request
    is resolved by [_deparse_vcov_input], which raises
    VcovTypeNotSupportedError; no estimator is computed. *)
Lemma get_vcov_hc_unsupported (self : obj) (s : string) :
  fitted self -> s \in [:: "HC2"; "HC3"] ->
  _has_fixef (init self) || _is_iv (init self) ->
  get_vcov (VcovStr s) self
    = (Raise VcovTypeNotSupportedError, reset_vcov self).
Proof.
move=> fs hc hi; apply: get_vcov_deparse_raise => //.
- by apply: check_str_ok; move: hc; rewrite !inE => /orP[] ->; rewrite ?orbT.
- exact: deparse_hc_unsupported.
Qed.

(** The guard of lines 190-194 compares [vcov_type], which is one of "iid",
    "hetero" and "CRV", with "CRV3": it never fires. *)
Lemma deparse_vcov_type (vcov : vcov_arg) (has_fixef is_iv : bool) vt d ic cv :
  _deparse_vcov_input vcov has_fixef is_iv = Ok (vt, d, ic, cv) ->
  (vt \in [:: "iid"; "hetero"; "CRV"]) && (vt \notin [:: "CRV3"]).
Proof.
rewrite /_deparse_vcov_input.
case: (match vcov with VcovStr _ => _ | _ => _ end) => //= d0.
case: ifP => _ /=; first by case=> <-.
case: ifP => _ /=.
  by case: ifP => _ /=; [case: has_fixef => //=; case: is_iv => //= |];
     case=> <-.
case: ifP => _ //=.
by case: (vcov_values0 vcov) => //= v [<-].
Qed.

End Unsupported.

Section UnsupportedConcrete.

(** C3 at an input where it fails.  An IV model whose cluster column has a
    missing value, asked for CRV3: the guard of lines 190-194 does not fire,
    the bread is computed, and the request is answered with
    NanInClusterVarError, not VcovTypeNotSupportedError.  (The same model with
    a complete column reaches the guard of lines 323-326.) *)
Theorem crv3_iv_missing_value :
  [/\ fitted (iv1 None 2 Unset) /\ _is_iv (init (iv1 None 2 Unset)),
      _check_vcov_input crv3_c (_data (init (iv1 None 2 Unset))) = Ok tt,
      (get_vcov crv3_c (iv1 None 2 Unset)).1 = Raise NanInClusterVarError &
      (get_vcov crv3_c (iv1 (Some (LInt 0)) 2 Unset)).1
        = Raise VcovTypeNotSupportedError].
Proof.
have u1 : (1%:M *m 1%:M *m 1%:M : 'M[rat]_1) \in unitmx.
  by rewrite !mulmx1 unitmx1.
split=> //.
- by rewrite /get_vcov /bind /= /iv_bread /= /np_linalg_inv u1.
- by rewrite /get_vcov /bind /= /iv_bread /= /np_linalg_inv u1.
Qed.

End UnsupportedConcrete.

(** ** numpy operations as sums over the observations *)

Section RowSums.

Variable F : realFieldType.

(** [A[mask].T @ B[mask]] is the sum over the selected rows. *)
Lemma rowsel_gram N k m (P : pred 'I_N) (A : 'M[F]_(N, k))
    (B : 'M[F]_(N, m)) :
  (rowsel P A)^T *m rowsel P B = \sum_(i | P i) (row i A)^T *m row i B.
Proof.
apply/matrixP => a c; rewrite mxE summxE.
under eq_bigr do rewrite !mxE.
rewrite -(big_enum_val (fun i => A i a * B i c)) /=.
apply: eq_big => // i Pi.
by rewrite [RHS]mxE big_ord1 !mxE.
Qed.

(** [A.T @ B] is the sum over all rows. *)
Lemma gram_sum N k m (A : 'M[F]_(N, k)) (B : 'M[F]_(N, m)) :
  A^T *m B = \sum_i (row i A)^T *m row i B.
Proof.
apply/matrixP => a c; rewrite mxE summxE.
apply: eq_bigr => i _.
by rewrite [RHS]mxE big_ord1 !mxE.
Qed.

(** With one column, the products are scalars. *)
Lemma dot11 N (x y : 'cV[F]_N) : x^T *m y = (\sum_i x i 0 * y i 0)%:M.
Proof.
apply/matrixP => a c; rewrite !ord1 !mxE eqxx mulr1n.
by under eq_bigr do rewrite mxE.
Qed.

Lemma rowsel_dot11 N (P : pred 'I_N) (x y : 'cV[F]_N) :
  (rowsel P x)^T *m rowsel P y = (\sum_(i | P i) x i 0 * y i 0)%:M.
Proof.
rewrite rowsel_gram; apply/matrixP => a c; rewrite !ord1 summxE !mxE eqxx mulr1n.
by apply: eq_bigr => i _; rewrite mxE big_ord1 !mxE.
Qed.

Lemma scalar_unitmx (a : F) : ((a%:M : 'M[F]_1) \in unitmx) = (a != 0).
Proof. by rewrite unitmxE det_scalar1 unitfE. Qed.

(** On an invertible matrix the pseudo-inverse is the inverse. *)
Lemma np_linalg_pinv_unit n (A : 'M[F]_n) :
  A \in unitmx -> np_linalg_pinv A = invmx A.
Proof.
move=> uA; have uAt : A^T \in unitmx by rewrite unitmx_tr.
have uG : A *m A^T \in unitmx by rewrite unitmx_mul uA.
have uH : A^T *m A \in unitmx by rewrite unitmx_mul uAt.
have e1 : A^T *m invmx (A *m A^T) = invmx A.
  by rewrite -[X in X *m invmx _](mulKmx uA) (mulmxK uG).
have e2 : invmx (A^T *m A) *m A^T = invmx A.
  by rewrite -[X in _ *m X](mulmxK uA) (mulKmx uH).
rewrite /np_linalg_pinv !pinvmxE // e1 -[_ *m _ *m A^T]mulmxA e2.
by rewrite (mulVmx uA) mul1mx.
Qed.

Lemma np_linalg_pinv_scalar (a : F) :
  np_linalg_pinv (a%:M : 'M[F]_1) = (a^-1)%:M.
Proof.
have [->|a0] := eqVneq a 0.
  have z : (0%:M : 'M[F]_1) = 0 by apply/matrixP => i j; rewrite !mxE mul0rn.
  by rewrite invr0 /np_linalg_pinv !z trmx0 !mul0mx.
by rewrite np_linalg_pinv_unit ?scalar_unitmx // invmx_scalar.
Qed.

End RowSums.

(** ** The pseudo-inverse *)

Section PseudoInverse.

Variable F : realFieldType.

(** Generalised inverses of a Gram matrix: if C = A'A and C P C = C then
    A P C = A and C P A' = A'. *)
Lemma gram_ginv_r m n (A : 'M[F]_(m, n)) (P : 'M[F]_n) :
  A^T *m A *m P *m (A^T *m A) = A^T *m A -> A *m P *m (A^T *m A) = A.
Proof.
set C := A^T *m A => CPC.
have sC : C^T = C by rewrite trmx_mul trmxK.
have AW : A^T *m (A *m P *m C - A) = 0.
  by rewrite mulmxBr 2!mulmxA -/C CPC subrr.
suff: (A *m P *m C - A)^T = 0.
  by move/(congr1 trmx); rewrite trmxK trmx0 => /eqP; rewrite subr_eq0 => /eqP.
have Wt : (A *m P *m C - A)^T = C *m P^T *m A^T - A^T.
  by rewrite [LHS]linearB /= trmx_mul sC trmx_mul mulmxA.
apply: mulmx_tr_eq0; rewrite trmxK Wt.
set W := A *m P *m C - A in AW *.
by rewrite mulmxBl -!mulmxA AW !mulmx0 subrr.
Qed.

Lemma gram_ginv_l m n (A : 'M[F]_(m, n)) (P : 'M[F]_n) :
  A^T *m A *m P *m (A^T *m A) = A^T *m A -> A^T *m A *m P *m A^T = A^T.
Proof.
set C := A^T *m A => CPC.
have sC : C^T = C by rewrite trmx_mul trmxK.
have CPtC : C *m P^T *m C = C.
  have := congr1 trmx CPC.
  by rewrite trmx_mul sC [(C *m P)^T]trmx_mul sC mulmxA.
have := congr1 trmx (gram_ginv_r CPtC).
by rewrite trmx_mul -/C sC trmx_mul trmxK mulmxA.
Qed.

(** MathComp's [pinvmx] is a generalised inverse. *)
Lemma pinvmxK m n (A : 'M[F]_(m, n)) : A *m pinvmx A *m A = A.
Proof. exact: mulmxKpV. Qed.

Lemma gram_pinvmx_r m n (A : 'M[F]_(m, n)) :
  A *m pinvmx (A^T *m A) *m (A^T *m A) = A.
Proof. by apply: gram_ginv_r; rewrite pinvmxK. Qed.

Lemma gram_pinvmx_l m n (A : 'M[F]_(m, n)) :
  A^T *m A *m pinvmx (A^T *m A) *m A^T = A^T.
Proof. by apply: gram_ginv_l; rewrite pinvmxK. Qed.

Lemma gramT_pinvmx_l m n (A : 'M[F]_(m, n)) :
  A *m A^T *m pinvmx (A *m A^T) *m A = A.
Proof. by have := gram_pinvmx_l A^T; rewrite !trmxK. Qed.

Lemma gramT_pinvmx_r m n (A : 'M[F]_(m, n)) :
  A^T *m pinvmx (A *m A^T) *m (A *m A^T) = A^T.
Proof. by have := gram_pinvmx_r A^T; rewrite !trmxK. Qed.

(** The algebra of the closed form, for any two generalised inverses [Q1]
    of A A' and [Q2] of A'A. *)
Section ClosedForm.

Variables (m n : nat) (A : 'M[F]_(m, n)) (Q1 : 'M[F]_m) (Q2 : 'M[F]_n).

Hypothesis h1 : A *m A^T *m Q1 *m A = A.
Hypothesis h2 : A *m Q2 *m A^T *m A = A.
Hypothesis h4 : A^T *m Q1 *m A *m A^T = A^T.

Local Notation pinv := (A^T *m Q1 *m A *m Q2 *m A^T).

Lemma closed_form_proj : A *m pinv = A *m Q2 *m A^T.
Proof. by rewrite !mulmxA h1. Qed.

Lemma closed_form_projT : pinv *m A = A^T *m Q1 *m A.
Proof. by move: h2; rewrite -!mulmxA => ->. Qed.

Lemma closed_formK : A *m pinv *m A = A.
Proof. by rewrite closed_form_proj h2. Qed.

Lemma closed_formKV : pinv *m A *m pinv = pinv.
Proof. by rewrite closed_form_projT !mulmxA h4. Qed.

End ClosedForm.

(** The projection A (A'A)^- A' is symmetric. *)
Lemma gram_proj_sym m n (A : 'M[F]_(m, n)) (P : 'M[F]_n) :
  A^T *m A *m P *m (A^T *m A) = A^T *m A ->
  (A *m P *m A^T)^T = A *m P *m A^T.
Proof.
move=> CPC.
have sC : (A^T *m A)^T = A^T *m A by rewrite trmx_mul trmxK.
have CPtC : A^T *m A *m P^T *m (A^T *m A) = A^T *m A.
  have := congr1 trmx CPC.
  by rewrite trmx_mul sC [(A^T *m A *m P)^T]trmx_mul sC mulmxA.
have e1 := gram_ginv_l CPC; have e2 := gram_ginv_r CPtC.
rewrite trmx_mul trmxK trmx_mul mulmxA.
rewrite !mulmxA in e2.
by rewrite -[X in _ *m X = _]e1 !mulmxA e2.
Qed.

(** The four equations of Moore and Penrose hold for [np_linalg_pinv]:
    the closed form is the pseudo-inverse. *)
Lemma np_linalg_pinvK m n (A : 'M[F]_(m, n)) :
  A *m np_linalg_pinv A *m A = A.
Proof.
apply: closed_formK; first exact: gramT_pinvmx_l.
by have := gram_pinvmx_r A; rewrite !mulmxA.
Qed.

Lemma np_linalg_pinvKV m n (A : 'M[F]_(m, n)) :
  np_linalg_pinv A *m A *m np_linalg_pinv A = np_linalg_pinv A.
Proof.
apply: closed_formKV.
- by have := gram_pinvmx_r A; rewrite !mulmxA.
- by have := gramT_pinvmx_r A; rewrite !mulmxA.
Qed.

Lemma np_linalg_pinv_sym m n (A : 'M[F]_(m, n)) :
  (A *m np_linalg_pinv A)^T = A *m np_linalg_pinv A.
Proof.
rewrite /np_linalg_pinv.
rewrite (@closed_form_proj _ _ A (pinvmx (A *m A^T)) (pinvmx (A^T *m A))
           (gramT_pinvmx_l A)).
by apply: gram_proj_sym; rewrite pinvmxK.
Qed.

Lemma np_linalg_pinv_symT m n (A : 'M[F]_(m, n)) :
  (np_linalg_pinv A *m A)^T = np_linalg_pinv A *m A.
Proof.
have h2 : A *m pinvmx (A^T *m A) *m A^T *m A = A.
  by have := gram_pinvmx_r A; rewrite !mulmxA.
rewrite /np_linalg_pinv.
rewrite (@closed_form_projT _ _ A (pinvmx (A *m A^T)) (pinvmx (A^T *m A)) h2).
have := @gram_proj_sym _ _ A^T (pinvmx (A *m A^T)).
by rewrite !trmxK => -> //; rewrite pinvmxK.
Qed.

(** The pseudo-inverse of a Gram matrix solves the normal equations,
    invertible or not. *)
Lemma np_linalg_pinv_normal_eq m n (A : 'M[F]_(m, n)) (y : 'cV[F]_m) :
  A^T *m A *m (np_linalg_pinv (A^T *m A) *m (A^T *m y)) = A^T *m y.
Proof.
have e := gram_pinvmx_l A; have K := np_linalg_pinvK (A^T *m A).
move: (np_linalg_pinv _) K => G' K; move: (pinvmx _) e => Q e.
rewrite -[X in _ *m (_ *m (X *m y))]e -[X in _ = X *m y]e.
rewrite !mulmxA in K *.
by rewrite K.
Qed.

End PseudoInverse.

(** ** The covariance estimator on a fitted OLS object *)

Section Evaluation.

Variable F : realFieldType.
Variable E : externals F.
Variables N k : nat.

Notation obj := (Feols E N k).

Variables (i : init_attrs E N k) (c : vcov_attrs F k)
          (inf0 : inference_attrs F k).
Variables (zx zxi h : 'M[F]_k) (zy : option 'cV[F]_k) (b : 'cV[F]_k)
          (yh : option 'cV[F]_N) (u : 'cV[F]_N) (sc : 'M[F]_(N, k))
          (xz zzi : option 'M[F]_k).

Local Notation ft :=
  (FitAttrs (Some zx) zy (Some zxi) (Some b) yh (Some u) (Some sc) (Some h)
            (attr_of_option xz) (attr_of_option zzi)).

Local Notation self := (Obj i ft c inf0).

Hypothesis not_iv : _is_iv i = false.
Hypothesis h_unit : h \in unitmx.

Local Notation bread := (invmx h).

Lemma get_vcov_iidE (s : F) :
  _support_iid_inference i ->
  get_ssc (_ssc_dict i) N k 1 1 "iid" = Ok s ->
  get_vcov (VcovStr "iid") self =
    (Ok tt,
     Obj i ft
       (VcovAttrs (Val "iid") (Val (PAtom (PStr "iid"))) (Val false) PyNone
          PyNone (Val s)
          (Val (((\sum_j u j 0 ^+ 2) / (N%:R - 1)) *: (s *: bread))))
       inf0).
Proof.
move=> sup es.
rewrite /get_vcov /bind /=; case: (xz) => [?|]; case: (zzi) => [?|];
  by rewrite /= not_iv /= /np_linalg_inv h_unit /= /vcov_iid /bind /= sup /=
             es.
Qed.


Lemma get_vcov_heteroE (detail : string) (s : F) :
  detail \in [:: "hetero"; "HC1"; "HC2"; "HC3"] ->
  (detail \in [:: "HC2"; "HC3"] ->
     _has_fixef i = false /\ (X i)^T *m X i \in unitmx) ->
  get_ssc (_ssc_dict i) N k 1 1 "hetero" = Ok s ->
  get_vcov (VcovStr detail) self =
    (Ok tt,
     Obj i ft
       (VcovAttrs (Val "hetero") (Val (PAtom (PStr detail))) (Val false)
          PyNone PyNone (Val s)
          (Val (s *: bread *m ((hc_scores E detail (X i) zxi sc)^T *m hc_scores E detail (X i) zxi sc)
                *m bread)))
       inf0).
Proof.
move=> dt hc es.
have {dt} : [\/ detail = "hetero", detail = "HC1", detail = "HC2" |
             detail = "HC3"].
  move: dt; rewrite !inE => /or4P[] /eqP->.
  - by constructor 1. - by constructor 2. - by constructor 3.
  - by constructor 4.
case=> dE; move: hc; rewrite dE => hc.
1,2: rewrite /get_vcov /bind /=;
     case: (xz) => [?|]; case: (zzi) => [?|];
     by rewrite /= not_iv /= /np_linalg_inv h_unit /= /vcov_hetero /bind /=
                es /= not_iv.
all: have [nf ux] := hc isT.
all: rewrite /get_vcov /bind /=;
     case: (xz) => [?|]; case: (zzi) => [?|];
     by rewrite /= nf not_iv /= /np_linalg_inv h_unit /= /vcov_hetero /bind /=
                es /= not_iv /hetero_transform /= /np_linalg_inv ux.
Qed.

Lemma getitem_columns (df : DataFrame N) (name : string)
    (col : N.-tuple cell) :
  getitem df name = Ok col -> name \in columns df.
Proof.
elim: df => //= [[n0 c0] df IH] /=; rewrite inE eq_sym.
by case: eqP => //= _ /IH.
Qed.

Lemma check_dict_ok (df : DataFrame N) (key name : string)
    (rest : seq (pyatom * pyatom)) :
  name \in columns df -> key \in [:: "CRV1"; "CRV3"] ->
  _check_vcov_input (VcovDict ((PStr key, PStr name) :: rest)) (Some df)
    = Ok tt.
Proof. by move=> inc ink; rewrite /_check_vcov_input /= ink /= inc. Qed.

Section Clustered.

Variables (df : DataFrame N) (name : string) (col : N.-tuple cell) (s : F).
Variable rest : seq (pyatom * pyatom).

Hypothesis data_df : _data i = Some df.
Hypothesis df_col : getitem df name = Ok col.
Hypothesis no_nan : ~~ isna_any col.

Local Notation clustid := (factorize_uniques col).
Local Notation G := (size clustid).

Hypothesis ssc_ok : get_ssc (_ssc_dict i) N k G 1 "CRV" = Ok s.

Lemma get_vcov_CRV1E (wu : 'cV[F]_N) :
  weighted_uhat (weights i) u = Ok wu ->
  get_vcov (VcovDict ((PStr "CRV1", PStr name) :: rest)) self =
    (Ok tt,
     Obj i ft
       (VcovAttrs (Val "CRV") (Val (PAtom (PStr "CRV1"))) (Val true)
          (Val (PStr name)) (Val G) (Val s)
          (Val (s *: bread *m crv1_meat clustid col (Z i) wu *m bread)))
       inf0).
Proof.
move=> ew; have inc := check_dict_ok rest (getitem_columns df_col).
rewrite /get_vcov /bind /=; case: (xz) => [?|]; case: (zzi) => [?|];
  by rewrite /= data_df /= ?inc //= not_iv /= /np_linalg_inv h_unit /=
             /vcov_CRV /bind /= data_df /= df_col /= (negbTE no_nan) /=
             ssc_ok /= ew /= not_iv.
Qed.

Lemma get_vcov_CRV3E :
  _support_crv3_inference i -> _has_fixef i = false ->
  get_vcov (VcovDict ((PStr "CRV3", PStr name) :: rest)) self =
    (Ok tt,
     Obj i ft
       (VcovAttrs (Val "CRV") (Val (PAtom (PStr "CRV3"))) (Val true)
          (Val (PStr name)) (Val G) (Val s)
          (Val (s *: crv3_sum [seq beta_jack_fast (X i) (Y i) col ixg
                              | ixg <- iota 0 G] b)))
       inf0).
Proof.
move=> sup nf; have inc := check_dict_ok rest (getitem_columns df_col).
rewrite /get_vcov /bind /=; case: (xz) => [?|]; case: (zzi) => [?|];
  by rewrite /= data_df /= ?inc //= not_iv /= /np_linalg_inv h_unit /=
             /vcov_CRV /bind /= data_df /= df_col /= (negbTE no_nan) /=
             ssc_ok /= not_iv /= sup /= nf.
Qed.

End Clustered.

End Evaluation.

(** ** Evaluation of the concrete models *)

Section Concrete.

Lemma ord2_cases (P : 'I_2 -> Prop) : P ord0 -> P (lift ord0 ord0) -> forall i, P i.
Proof.
move=> P0 P1 i; case: (unliftP ord0 i) => [j|] ->; last exact: P0.
by rewrite (ord1 j).
Qed.

Lemma sum_ord2 (f : 'I_2 -> rat) : \sum_i f i = f ord0 + f (lift ord0 ord0).
Proof. by rewrite big_ord_recl big_ord1. Qed.

Lemma sum_ord2_cond (P : pred 'I_2) (f : 'I_2 -> rat) :
  \sum_(i | P i) f i
    = (if P ord0 then f ord0 else 0)
      + (if P (lift ord0 ord0) then f (lift ord0 ord0) else 0).
Proof. by rewrite big_mkcond sum_ord2. Qed.

Lemma colvE (l : seq rat) (i : 'I_(size l)) : colv l i 0 = nth 0 l i.
Proof. by rewrite mxE. Qed.

Lemma colv2_eq (x y : 'cV[rat]_2) :
  x ord0 0 = y ord0 0 -> x (lift ord0 ord0) 0 = y (lift ord0 ord0) 0 -> x = y.
Proof.
move=> e0 e1; apply/matrixP => i j; rewrite (ord1 j).
by elim/ord2_cases: i.
Qed.

Lemma ols2_get_fit data w :
  get_fit (ols2 data w) = (Ok tt, ols2_fitted data w).
Proof.
have xx : (const_mx 1 : 'M[rat]_(2, 1))^T *m const_mx 1 = 2%:M.
  by rewrite dot11 sum_ord2 !mxE.
have xy : (const_mx 1 : 'M[rat]_(2, 1))^T *m colv [:: 1; 3] = 4%:M.
  by rewrite dot11 sum_ord2 !mxE.
rewrite get_fit_unit /= ?xx ?xy ?scalar_unitmx // /ols2_fitted /=.
rewrite invmx_scalar -scalar_mxM.
have -> : (2^-1 * 4 : rat) = 2 by [].
have xb : (const_mx 1 : 'M[rat]_(2, 1)) *m 2%:M = colv [:: 2; 2].
  by apply: colv2_eq; rewrite !mxE big_ord1 !mxE.
have u2 : colv [:: 1; 3] - colv [:: 2; 2] = colv [:: -1; 1].
  by apply: colv2_eq; rewrite !mxE.
rewrite xb u2.
have -> : \matrix_(i, j) ((const_mx 1 : 'M[rat]_(2, 1)) i j
                          * colv [:: -1; 1] i 0) = colv [:: -1; 1].
  by apply: colv2_eq; rewrite !mxE.
by [].
Qed.

End Concrete.

Section ConcreteCRV3.

Local Notation X2 := (const_mx 1 : 'M[rat]_(2, 1)).
Local Notation Y2 := (colv [:: 1; 3] : 'cV[rat]_2).

(** The jackknife coefficient of the two-observation model, by the mask of
    the rows that are left out. *)
Lemma jack2 (P : pred 'I_2) :
  np_linalg_pinv (X2^T *m X2 - (rowsel P X2)^T *m rowsel P X2)
    *m (X2^T *m Y2 - (rowsel P X2)^T *m rowsel P Y2)
  = ((2 - ((P ord0)%:R + (P (lift ord0 ord0))%:R))^-1
     * (4 - ((P ord0)%:R + (P (lift ord0 ord0))%:R * 3)))%:M.
Proof.
rewrite !rowsel_dot11 !dot11 !sum_ord2 !sum_ord2_cond !mxE /=.
rewrite -!raddfB /= np_linalg_pinv_scalar -scalar_mxM.
by congr (_%:M); case: (P ord0); case: (P (lift ord0 ord0)).
Qed.

Lemma beta_jack_fast2 (col : 2.-tuple cell) (ixg : nat) :
  beta_jack_fast X2 Y2 col ixg
  = ((2 - ((np_equal ixg col ord0)%:R
           + (np_equal ixg col (lift ord0 ord0))%:R))^-1
     * (4 - ((np_equal ixg col ord0)%:R
             + (np_equal ixg col (lift ord0 ord0))%:R * 3)))%:M.
Proof. exact: jack2. Qed.

Lemma loo_coef2 (col : 2.-tuple cell) (g : label) :
  loo_coef X2 Y2 col g
  = ((2 - ((eq_label col g ord0)%:R
           + (eq_label col g (lift ord0 ord0))%:R))^-1
     * (4 - ((eq_label col g ord0)%:R
             + (eq_label col g (lift ord0 ord0))%:R * 3)))%:M.
Proof. exact: jack2. Qed.

Lemma outer11 (a b : rat) :
  np_outer (a%:M - b%:M : 'cV[rat]_1) (a%:M - b%:M) = ((a - b) ^+ 2)%:M.
Proof. by rewrite /np_outer -raddfB /= tr_scalar_mx -scalar_mxM expr2. Qed.

(** The CRV3 covariance of the two-observation model with two clusters, by
    the rows that the two passes of the loop leave out. *)
Lemma ols2_crv3 (a b : label) w :
  a != b ->
  let col : 2.-tuple cell := [tuple Some a; Some b] in
  let left_out ixg : rat :=
    (2 - ((np_equal ixg col ord0)%:R
          + (np_equal ixg col (lift ord0 ord0))%:R))^-1
    * (4 - ((np_equal ixg col ord0)%:R
            + (np_equal ixg col (lift ord0 ord0))%:R * 3)) in
  get_vcov crv3_c (ols2_fitted (Some (data2 (Some a) (Some b))) w)
  = (Ok tt,
     Obj (init (ols2 (Some (data2 (Some a) (Some b))) w))
         (fit (ols2_fitted (Some (data2 (Some a) (Some b))) w))
         (VcovAttrs (Val "CRV") (Val (PAtom (PStr "CRV3"))) (Val true)
                    (Val (PStr "c")) (Val 2%N) (Val 1)
                    (Val ((left_out 0%N - 2) ^+ 2
                          + (left_out 1%N - 2) ^+ 2)%:M))
         (no_inference rat 1)).
Proof.
move=> ab col left_out.
have uq : factorize_uniques col = [:: a; b].
  by rewrite /factorize_uniques /uniques /= inE eq_sym (negbTE ab).
rewrite /ols2_fitted.
rewrite (@get_vcov_CRV3E _ toy 2 1 _ _ _ _ _ _ _ _ _ _ _ None None _ _
           (data2 (Some a) (Some b)) "c" col 1 [::])
        ?scalar_unitmx //= uq //=.
congr (_, _); congr Obj; congr VcovAttrs; congr Val.
rewrite /crv3_sum !big_cons big_nil !beta_jack_fast2.
by rewrite !outer11 addr0 -raddfD /= scale1r.
Qed.

End ConcreteCRV3.
(** ** Invariance of the meat matrices (the part of C6 that holds) *)

Section Uniques.

Variable T : eqType.

Local Notation step :=
  (fun (acc : seq T) (x : T) => if x \in acc then acc else rcons acc x).

Lemma uniques_acc_uniq (acc s : seq T) : uniq acc -> uniq (foldl step acc s).
Proof.
elim: s acc => //= x s IH acc u; apply: IH.
by case: ifP => // nx; rewrite rcons_uniq nx.
Qed.

Lemma mem_uniques_acc (acc s : seq T) : foldl step acc s =i acc ++ s.
Proof.
elim: s acc => [|x s IH] acc y /=; first by rewrite cats0.
rewrite IH !mem_cat inE; case: ifP => xa.
  by case: eqP => [->|]; rewrite ?xa ?orbT.
by rewrite mem_rcons inE orbA [(y \in acc) || _]orbC.
Qed.

Lemma uniques_uniq (s : seq T) : uniq (uniques s).
Proof. exact: uniques_acc_uniq. Qed.

Lemma mem_uniques (s : seq T) : uniques s =i s.
Proof. by move=> y; rewrite /uniques mem_uniques_acc. Qed.

End Uniques.

Lemma uniques_map (T : eqType) (f : T -> T) (s : seq T) :
  injective f -> uniques (map f s) = map f (uniques s).
Proof.
move=> inj; rewrite /uniques -[[::] in LHS]/(map f [::]).
elim: s [::] => //= x s IH acc.
rewrite mem_map //; case: ifP => _; first exact: IH.
by rewrite -map_rcons IH.
Qed.

Section Invariance.

Variables (F : realFieldType) (N k : nat).

(** The cluster identifiers of a relabelled column are the relabelled
    identifiers, in the same order. *)
Lemma factorize_uniques_relabel (f : label -> label)
    (cluster_df : N.-tuple cell) :
  injective f ->
  factorize_uniques (relabel f cluster_df)
  = map f (factorize_uniques cluster_df).
Proof.
move=> inj; rewrite /factorize_uniques -uniques_map //; congr uniques.
rewrite /relabel /=; elim: (tval cluster_df) => //= c s ->.
by case: c.
Qed.

Lemma eq_label_relabel (f : label -> label) (cluster_df : N.-tuple cell)
    (g : label) :
  injective f ->
  eq_label (relabel f cluster_df) (f g) =1 eq_label cluster_df g.
Proof.
move=> inj i; rewrite /eq_label /relabel tnth_map.
case: (tnth cluster_df i) => [a|] //=.
by apply/eqP/eqP => [[/inj ->]|[->]].
Qed.

(** Lines 298-305: renaming the cluster labels by an injective map does not
    change the CRV1 meat. *)
Lemma crv1_meat_relabel (f : label -> label) (cluster_df : N.-tuple cell)
    (Z : 'M[F]_(N, k)) (u : 'cV[F]_N) :
  injective f ->
  crv1_meat (factorize_uniques (relabel f cluster_df)) (relabel f cluster_df)
            Z u
  = crv1_meat (factorize_uniques cluster_df) cluster_df Z u.
Proof.
move=> inj; rewrite /crv1_meat factorize_uniques_relabel // big_map.
apply: eq_bigr => g _ /=; rewrite !rowsel_gram.
by rewrite (eq_bigl _ _ (eq_label_relabel cluster_df g inj)).
Qed.

Lemma row_row_perm m (s : 'S_N) (A : 'M[F]_(N, m)) (i : 'I_N) :
  row i (row_perm s A) = row (s i) A.
Proof. by apply/rowP => j; rewrite !mxE. Qed.

(** Reordering the observations of both factors does not change a cross
    product: X'X, X'Y and the heteroskedastic meat scores'scores (lines
    249-250). *)
Lemma gram_row_perm m (s : 'S_N) (A : 'M[F]_(N, k)) (B : 'M[F]_(N, m)) :
  (row_perm s A)^T *m row_perm s B = A^T *m B.
Proof.
rewrite !gram_sum [RHS](reindex_perm s) /=.
by apply: eq_bigr => i _; rewrite !row_row_perm.
Qed.

(** The same for the rows selected by a mask that is reordered too. *)
Lemma rowsel_gram_perm m (s : 'S_N) (P : pred 'I_N) (A : 'M[F]_(N, k))
    (B : 'M[F]_(N, m)) :
  (rowsel (fun i => P (s i)) (row_perm s A))^T
    *m rowsel (fun i => P (s i)) (row_perm s B)
  = (rowsel P A)^T *m rowsel P B.
Proof.
rewrite !rowsel_gram [RHS](reindex_perm s) /=.
by apply: eq_bigr => i _; rewrite !row_row_perm.
Qed.

Lemma eq_label_reorder (s : 'S_N) (cluster_df : N.-tuple cell) (g : label) :
  eq_label (reorder s cluster_df) g =1 (fun i => eq_label cluster_df g (s i)).
Proof. by move=> i; rewrite /eq_label /reorder tnth_mktuple. Qed.

Lemma np_equal_reorder (s : 'S_N) (group : N.-tuple cell) (ixg : nat) :
  np_equal ixg (reorder s group) =1 (fun i => np_equal ixg group (s i)).
Proof. by move=> i; rewrite /np_equal /reorder tnth_mktuple. Qed.

Lemma rowsel_gram_eq m (P Q : pred 'I_N) (A : 'M[F]_(N, k))
    (B : 'M[F]_(N, m)) :
  P =1 Q -> (rowsel P A)^T *m rowsel P B = (rowsel Q A)^T *m rowsel Q B.
Proof. by move=> e; rewrite !rowsel_gram (eq_bigl _ _ e). Qed.

(** The cluster identifiers of a reordered column are those of the column,
    in another order. *)
Lemma factorize_uniques_reorder (s : 'S_N) (cluster_df : N.-tuple cell) :
  perm_eq (factorize_uniques (reorder s cluster_df))
          (factorize_uniques cluster_df).
Proof.
apply: uniq_perm; rewrite ?uniques_uniq // => g.
rewrite /factorize_uniques !mem_uniques !mem_pmap !map_id.
apply/tnthP/tnthP => [[i ->]|[i ->]].
  by exists (s i); rewrite tnth_mktuple.
by exists ((s^-1)%g i); rewrite tnth_mktuple permKV.
Qed.

(** Lines 298-305: reordering the observations (cluster column, instruments
    and residuals alike) does not change the CRV1 meat. *)
Lemma crv1_meat_reorder (s : 'S_N) (cluster_df : N.-tuple cell)
    (Z : 'M[F]_(N, k)) (u : 'cV[F]_N) :
  crv1_meat (factorize_uniques (reorder s cluster_df)) (reorder s cluster_df)
            (row_perm s Z) (row_perm s u)
  = crv1_meat (factorize_uniques cluster_df) cluster_df Z u.
Proof.
rewrite /crv1_meat (perm_big _ (factorize_uniques_reorder s cluster_df)) /=.
apply: eq_bigr => g _.
by rewrite (rowsel_gram_eq _ _ (eq_label_reorder s cluster_df g))
           rowsel_gram_perm.
Qed.

(** Lines 345-356: reordering the observations does not change a jackknife
    coefficient, and the number of passes of the loop is the same. *)
Lemma beta_jack_fast_reorder (s : 'S_N) (group : N.-tuple cell)
    (X : 'M[F]_(N, k)) (Y : 'cV[F]_N) (ixg : nat) :
  beta_jack_fast (row_perm s X) (row_perm s Y) (reorder s group) ixg
  = beta_jack_fast X Y group ixg.
Proof.
rewrite /beta_jack_fast !gram_row_perm.
by rewrite !(rowsel_gram_eq _ _ (np_equal_reorder s group ixg))
           !rowsel_gram_perm.
Qed.

Lemma size_factorize_uniques_reorder (s : 'S_N) (cluster_df : N.-tuple cell) :
  size (factorize_uniques (reorder s cluster_df))
  = size (factorize_uniques cluster_df).
Proof. exact/perm_size/factorize_uniques_reorder. Qed.

End Invariance.


(** ** The jackknife of CRV3 *)

Section Jackknife.

Variable F : realFieldType.
Variables N k : nat.

(** The loop of lines 349-356 leaves out, in pass [ixg], the rows whose
    cluster label is the integer [ixg]. *)
Lemma beta_jack_fast_loo (X : 'M[F]_(N, k)) (Y : 'cV[F]_N)
    (group : N.-tuple cell) (ixg : nat) :
  beta_jack_fast X Y group ixg = loo_coef X Y group (LInt ixg%:Z).
Proof. by []. Qed.

(** When the cluster labels are the integers 0, ..., G-1, in any order, the
    loop leaves out every cluster once, and the covariance is the one of
    the specification. *)
Lemma crv3_sum_spec (ssc : F) (X : 'M[F]_(N, k)) (Y : 'cV[F]_N)
    (group : N.-tuple cell) (beta : 'cV[F]_k) :
  let G := size (factorize_uniques group) in
  perm_eq (factorize_uniques group) [seq LInt ixg%:Z | ixg <- iota 0 G] ->
  ssc *: crv3_sum [seq beta_jack_fast X Y group ixg | ixg <- iota 0 G] beta
    = crv3_spec ssc X Y group beta.
Proof.
move=> G pe; rewrite /crv3_spec /crv3_sum (perm_big _ pe) /= !big_map.
by [].
Qed.

(** The rows of a mask and the rows of its complement. *)
Lemma gram_split m (P : pred 'I_N) (A : 'M[F]_(N, k)) (B : 'M[F]_(N, m)) :
  A^T *m B = (rowsel (predC P) A)^T *m rowsel (predC P) B
             + (rowsel P A)^T *m rowsel P B.
Proof. by rewrite gram_sum !rowsel_gram (bigID P) addrC. Qed.

(** The coefficient [loo_coef X Y group g] solves the normal equations of
    the regression on the observations outside the cluster [g], whether or
    not the reduced X'X is invertible. *)
Lemma loo_coef_normal_eq (X : 'M[F]_(N, k)) (Y : 'cV[F]_N)
    (group : N.-tuple cell) (g : label) :
  let Xr := rowsel (predC (eq_label group g)) X in
  let Yr := rowsel (predC (eq_label group g)) Y in
  Xr^T *m Xr *m loo_coef X Y group g = Xr^T *m Yr.
Proof.
move=> /=; rewrite /loo_coef.
rewrite (gram_split (eq_label group g) X X) (gram_split (eq_label group g) X Y).
rewrite !addrK.
exact: np_linalg_pinv_normal_eq.
Qed.

End Jackknife.

Section JackknifeConcrete.

Local Notation X2 := (const_mx 1 : 'M[rat]_(2, 1)).
Local Notation Y2 := (colv [:: 1; 3] : 'cV[rat]_2).

(** C2 at an input where it fails.  Two observations in two clusters
    labelled 1 and 2.  The full-sample estimate is 2 and the
    leave-one-cluster-out estimates are 3 and 1, so the covariance of the
    claim is (3 - 2)^2 + (1 - 2)^2 = 2 (with ssc = 1).  The loop compares the
    labels with its pass numbers 0 and 1: the first pass leaves out nothing
    (and returns the full-sample estimate), the second leaves out the
    cluster labelled 1, the cluster labelled 2 is never left out, and the
    covariance stored is 1. *)
Theorem crv3_jackknife_compares_pass_number :
  let col : 2.-tuple cell := [tuple Some (LInt 1); Some (LInt 2)] in
  let data := Some (data2 (Some (LInt 1)) (Some (LInt 2))) in
  [/\ get_fit (ols2 data ones2) = (Ok tt, ols2_fitted data ones2) /\
      beta_hat (fit (ols2_fitted data ones2)) = Some 2%:M,
      beta_jack_fast X2 Y2 col 0 = 2%:M /\ beta_jack_fast X2 Y2 col 1 = 3%:M,
      loo_coef X2 Y2 col (LInt 1) = 3%:M /\
      loo_coef X2 Y2 col (LInt 2) = 1%:M,
      crv3_spec 1 X2 Y2 col 2%:M = 2%:M &
      (get_vcov crv3_c (ols2_fitted data ones2)).1 = Ok tt /\
      vcov_of (get_vcov crv3_c (ols2_fitted data ones2)).2 = Val 1%:M].
Proof.
move=> col data; split.
- by rewrite ols2_get_fit.
- by rewrite !beta_jack_fast2; split; congr (_%:M).
- by rewrite !loo_coef2; split; congr (_%:M).
- rewrite /crv3_spec /= scale1r.
  have -> : factorize_uniques col = [:: LInt 1; LInt 2] by [].
  rewrite !big_cons big_nil !loo_coef2 !outer11 addr0 -raddfD /=.
  by congr (_%:M).
- by rewrite ols2_crv3.
Qed.

(** C6 at an input where it fails.  The same two observations, each its own
    cluster, once labelled 0 and 1 and once labelled 1 and 2: the partition
    is the same, the CRV3 covariances are 2 and 1. *)
Theorem crv3_depends_on_labels :
  let m01 := ols2_fitted (Some (data2 (Some (LInt 0)) (Some (LInt 1)))) ones2 in
  let m12 := ols2_fitted (Some (data2 (Some (LInt 1)) (Some (LInt 2)))) ones2 in
  [/\ fit m01 = fit m12,
      vcov_of (get_vcov crv3_c m01).2 = Val 2%:M,
      vcov_of (get_vcov crv3_c m12).2 = Val 1%:M &
      (2%:M : 'M[rat]_1) != 1%:M].
Proof.
split=> //.
- by rewrite ols2_crv3 //=; congr (Val _%:M).
- by rewrite ols2_crv3 //=; congr (Val _%:M).
- by apply/eqP => /matrixP/(_ ord0 ord0); rewrite !mxE.
Qed.

End JackknifeConcrete.

(** ** The F-test *)

Section Ftest.

Variable F : realFieldType.
Variable E : externals F.
Variables N k : nat.

Notation obj := (Feols E N k).

(** The first stage is another object: computing the local [vcov] leaves
    [self] as it is. *)
Lemma Ftest_vcov_state (self : obj) (request : vcov_arg) :
  (Ftest_vcov request self).2 = self.
Proof.
rewrite /Ftest_vcov /bind /get /lift_exc /getattr_opt.
case: (_is_iv (init self)); last by case: (vcov_of self).
case: (Feols_init _ _ _ _) => [fs|e] //=.
case: (call_on fs _) => [fs1|e] //=.
case: (call_on fs1 _) => [fs2|e] //=.
by case: (vcov_of fs2).
Qed.

(** Whenever [get_Ftest] returns, for an IV model as for any other, the
    statistic it stores is computed from [self.vcov]; the object is
    otherwise unchanged. *)
Lemma get_Ftest_self_vcov (self : obj) (request : vcov_arg) :
  (get_Ftest request self).1 = Ok tt ->
  exists beta V,
    [/\ beta_hat (fit self) = Some beta, vcov_of self = Val V,
        (const_mx 1 : 'rV[F]_k) *m V *m (const_mx 1)^T \in unitmx &
        (get_Ftest request self).2
          = Obj (init self) (fit self) (cov self)
                (set_F_stat (Val (F_statistic beta V)) (inf self))].
Proof.
rewrite /get_Ftest /bind /getattr.
case eb: (beta_hat (fit self)) => [b|] //.
have := Ftest_vcov_state self request.
case: (Ftest_vcov request self) => [[v|e] s'] /= -> //.
rewrite /getattr_opt; case ev: (vcov_of self) => [||V] //=.
rewrite /np_linalg_inv; case: ifP => //= uV _.
by exists b, V; split=> //; case: (self).
Qed.

End Ftest.

Section FtestConcrete.

Local Notation w2 :=
  (PyArray (ndarray_of_mx (const_mx 1 : 'M[rat]_(2, 1)))).

Lemma F_statistic11 (b v : rat) :
  F_statistic (b%:M : 'cV[rat]_1) v%:M = b * v^-1 * b.
Proof.
rewrite /F_statistic /=.
have -> : (const_mx 1 : 'rV[rat]_1) = 1%:M.
  by apply/matrixP => i j; rewrite !ord1 !mxE.
by rewrite subr0 tr_scalar_mx !mul1mx mulmx1 invmx_scalar -!scalar_mxM mxE.
Qed.

(** The first-stage regression of [iv2] and its "hetero" covariance. *)
Lemma iv2_first_stage_vcov :
  Ftest_vcov (VcovStr "hetero") iv2 = (Ok (Some (2^-1)%:M), iv2).
Proof.
rewrite /Ftest_vcov /bind /get /lift_exc.
have -> : _is_iv (init iv2) = true by [].
have -> : Feols_init toy (Y (init iv2)) (Z (init iv2))
            (PyArray (ndarray_of_mx (Z (init iv2)))) = Ok (ols2 None w2).
  by [].
rewrite /call_on ols2_get_fit.
rewrite /ols2_fitted.
rewrite (@get_vcov_heteroE _ toy 2 1 _ _ _ _ _ _ _ _ _ _ _ None None _ _
           "hetero" 1) ?scalar_unitmx //=.
rewrite /getattr_opt /vcov_of /= /hc_scores /=.
congr (Ok (Some _), _).
rewrite dot11 sum_ord2 !mxE /= scale1r invmx_scalar -!scalar_mxM.
by congr (_%:M).
Qed.

(** C4 at an input where it fails.  For the IV model [iv2] and the request
    "hetero", the first-stage regression of Y on the instrument is fitted
    and its covariance, [[1/2]], is computed; the statistic that
    [get_Ftest] stores is 1, the value for the model's own stored
    covariance [[4]], not 8, the value for the first-stage covariance. *)
Theorem get_Ftest_iv_ignores_first_stage :
  [/\ _is_iv (init iv2) /\ vcov_of iv2 = Val 4%:M,
      Ftest_vcov (VcovStr "hetero") iv2 = (Ok (Some (2^-1)%:M), iv2),
      get_Ftest (VcovStr "hetero") iv2
        = (Ok tt,
           Obj (init iv2) (fit iv2) (cov iv2)
               (set_F_stat (Val 1) (inf iv2))),
      F_statistic (2%:M : 'cV[rat]_1) 4%:M = 1 &
      F_statistic (2%:M : 'cV[rat]_1) (2^-1)%:M = 8].
Proof.
split=> //; first exact: iv2_first_stage_vcov.
- rewrite /get_Ftest /bind /getattr /= iv2_first_stage_vcov /=.
  rewrite /getattr_opt /vcov_of /= /lift_exc /np_linalg_inv.
  have -> : (const_mx 1 : 'rV[rat]_1) = 1%:M.
    by apply/matrixP => i j; rewrite !ord1 !mxE.
  rewrite subr0 tr_scalar_mx !mul1mx mulmx1 scalar_unitmx /=.
  by rewrite invmx_scalar -!scalar_mxM mxE.
- by rewrite F_statistic11.
- by rewrite F_statistic11.
Qed.

End FtestConcrete.

(** ** HC2 and HC3 *)

Section Leverage.

Variable F : realFieldType.
Variable E : externals F.
Variables N k : nat.

Notation obj := (Feols E N k).

(** The leverage that the code computes from [_tZXinv] is the diagonal of
    the projection matrix when [_tZXinv] is the inverse of X'X. *)
Lemma leverage_hat_diag (X : 'M[F]_(N, k)) (i : 'I_N) :
  leverage X (invmx (X^T *m X)) i 0 = hat_diag X i.
Proof.
rewrite /leverage /hat_diag mxE [RHS]mxE.
by apply: eq_bigr => j _; rewrite mulrC [X^T j i]mxE.
Qed.

(** HC2 and HC3 on an OLS object that [get_fit] has fitted: the transformed
    scores and the covariance, whatever the leverages are. *)
Lemma get_vcov_hc_fit (self : obj) (detail : string) (s : F) :
  let X := X (init self) in
  let bread := invmx (X^T *m X) in
  let beta := bread *m (X^T *m Y (init self)) in
  let u := Y (init self) - X *m beta in
  let sc : 'M[F]_(N, k) := \matrix_(i, j) (X i j * u i 0) in
  let ts := hc_scores E detail X bread sc in
  Z (init self) = X -> _is_iv (init self) = false ->
  _has_fixef (init self) = false -> X^T *m X \in unitmx ->
  get_ssc (_ssc_dict (init self)) N k 1 1 "hetero" = Ok s ->
  detail \in [:: "HC2"; "HC3"] ->
  get_vcov (VcovStr detail) (get_fit self).2
    = (Ok tt,
       Obj (init self) (fit (get_fit self).2)
           (VcovAttrs (Val "hetero") (Val (PAtom (PStr detail))) (Val false)
                      PyNone PyNone (Val s)
                      (Val (s *: bread *m (ts^T *m ts) *m bread)))
           (inf self)).
Proof.
move=> /= zx ni nf ux es dt.
have uzx : (Z (init self))^T *m X (init self) \in unitmx by rewrite zx.
rewrite (get_fit_unit uzx) /= zx.
rewrite (@get_vcov_heteroE _ E N k (init self) (cov self) (inf self)
           _ _ _ _ _ _ _ _ None None ni ux detail s) //.
by move: dt; rewrite !inE => /orP[] ->; rewrite ?orbT.
Qed.

Lemma hc_scores_hat_diag (detail : string) (X sc : 'M[F]_(N, k)) :
  detail \in [:: "HC2"; "HC3"] ->
  hc_scores E detail X (invmx (X^T *m X)) sc
    = if detail == "HC2" then
        \matrix_(i, j) (sc i j / np_sqrt E (1 - hat_diag X i))
      else \matrix_(i, j) (sc i j / (1 - hat_diag X i)).
Proof.
rewrite !inE => /orP[] /eqP->; rewrite /hc_scores /=;
  by apply/matrixP => i j; rewrite [LHS]mxE [RHS]mxE leverage_hat_diag.
Qed.

(** C5, as the code has it.  For a non-IV model without fixed effects that
    [get_fit] has fitted, with h_i the leverage X_i (X'X)^-1 X_i': a request
    for HC2 divides the residuals and the scores by sqrt(1 - h_i), a request
    for HC3 divides the scores by 1 - h_i, and the covariance is
    ssc * bread * (scores' scores) * bread for the rescaled scores.  The
    leverages are not inspected: the request returns, it is not rejected,
    whatever the leverages are.  What is stored is stated for the models
    with no divisor equal to zero (numpy's quotient by zero is infinite or
    NaN, no number of the field). *)
Theorem get_vcov_hc_rescaling (self : obj) (detail : string) (s : F) :
  let X := X (init self) in
  let bread := invmx (X^T *m X) in
  let h := hat_diag X in
  let u := Y (init self) - X *m (bread *m (X^T *m Y (init self))) in
  let sc : 'M[F]_(N, k) := \matrix_(i, j) (X i j * u i 0) in
  let ts : 'M[F]_(N, k) :=
    if detail == "HC2" then \matrix_(i, j) (sc i j / np_sqrt E (1 - h i))
    else \matrix_(i, j) (sc i j / (1 - h i)) in
  Z (init self) = X -> _is_iv (init self) = false ->
  _has_fixef (init self) = false -> X^T *m X \in unitmx ->
  get_ssc (_ssc_dict (init self)) N k 1 1 "hetero" = Ok s ->
  detail \in [:: "HC2"; "HC3"] ->
  [/\ u_hat (fit (get_fit self).2) = Some u /\
      scores (fit (get_fit self).2) = Some sc,
      (get_vcov (VcovStr detail) (get_fit self).2).1 = Ok tt,
      (forall i, np_sqrt E (1 - h i) != 0) ->
      hetero_transform E (PAtom (PStr "HC2")) false X bread u sc
        = Ok (Some (\col_i (u i 0 / np_sqrt E (1 - h i))),
              Some (\matrix_(i, j) (sc i j / np_sqrt E (1 - h i)))),
      (forall i, 1 - h i != 0) ->
      hetero_transform E (PAtom (PStr "HC3")) false X bread u sc
        = Ok (None, Some (\matrix_(i, j) (sc i j / (1 - h i)))) &
      (forall i, (if detail == "HC2" then np_sqrt E (1 - h i)
                  else 1 - h i) != 0) ->
      get_vcov (VcovStr detail) (get_fit self).2
        = (Ok tt,
           Obj (init self) (fit (get_fit self).2)
               (VcovAttrs (Val "hetero") (Val (PAtom (PStr detail)))
                          (Val false) PyNone PyNone (Val s)
                          (Val (s *: bread *m (ts^T *m ts) *m bread)))
               (inf self))].
Proof.
move=> /= zx ni nf ux es dt.
have uzx : (Z (init self))^T *m X (init self) \in unitmx by rewrite zx.
split.
- by rewrite (get_fit_unit uzx) /= zx.
- by rewrite (get_vcov_hc_fit zx ni nf ux es dt).
- move=> _; rewrite /hetero_transform /= /np_linalg_inv ux /=.
  by congr (Ok (Some _, Some _)); apply/matrixP => i j;
     rewrite [LHS]mxE [RHS]mxE leverage_hat_diag.
- move=> _; rewrite /hetero_transform /= /np_linalg_inv ux /=.
  by congr (Ok (None, Some _)); apply/matrixP => i j;
     rewrite [LHS]mxE [RHS]mxE leverage_hat_diag.
- by move=> _; rewrite (get_vcov_hc_fit zx ni nf ux es dt) hc_scores_hat_diag.
Qed.

End Leverage.

Section LeverageConcrete.

Local Notation X2 := (const_mx 1 : 'M[rat]_(2, 1)).

Lemma lev2_gram : (X (init lev2))^T *m X (init lev2) = 1%:M.
Proof. by rewrite /= dot11 sum_ord2 !mxE. Qed.

Lemma lev2_unit : (X (init lev2))^T *m X (init lev2) \in unitmx.
Proof. by rewrite lev2_gram unitmx1. Qed.

Lemma lev2_leverage : hat_diag (X (init lev2)) ord0 = 1.
Proof.
by rewrite /hat_diag lev2_gram invmx1 mulmx1 mxE big_ord1 !mxE.
Qed.

(** C5 as stated fails.  In the model [lev2] the first observation has
    leverage 1; requests for HC2 and for HC3 return, they are not
    rejected. *)
Lemma hc_leverage_one_not_rejected :
  [/\ hat_diag (X (init lev2)) ord0 = 1 /\ is_ok (get_fit lev2).1,
      (get_vcov (VcovStr "HC2") (get_fit lev2).2).1 = Ok tt &
      (get_vcov (VcovStr "HC3") (get_fit lev2).2).1 = Ok tt].
Proof.
split.
- by rewrite lev2_leverage get_fit_unit //; apply: lev2_unit.
- by rewrite (@get_vcov_hc_fit _ toy 2 1 lev2 "HC2" 1) //; apply: lev2_unit.
- by rewrite (@get_vcov_hc_fit _ toy 2 1 lev2 "HC3" 1) //; apply: lev2_unit.
Qed.

Lemma ols2_unit : X2^T *m X2 \in unitmx.
Proof. by rewrite dot11 sum_ord2 !mxE scalar_unitmx. Qed.

(** Both observations of [ols2] have leverage 1/2. *)
Lemma ols2_leverage (i : 'I_2) : hat_diag X2 i = 2^-1.
Proof.
rewrite /hat_diag dot11 sum_ord2 !mxE invmx_scalar.
by rewrite big_ord1 !mxE big_ord1 !mxE.
Qed.

Lemma ols2_hc3_divisors (i : 'I_2) :
  (if "HC3" == "HC2" then np_sqrt toy (1 - hat_diag X2 i)
   else 1 - hat_diag X2 i) != 0.
Proof. by rewrite /= ols2_leverage. Qed.

Lemma get_vcov_hc_rescaling_witness :
  let bread := invmx (X2^T *m X2) in
  let u := colv [:: 1; 3] - X2 *m (bread *m (X2^T *m colv [:: 1; 3])) in
  let sc : 'M[rat]_(2, 1) := \matrix_(i, j) (X2 i j * u i 0) in
  let ts : 'M[rat]_(2, 1) :=
    \matrix_(i, j) (sc i j / (1 - hat_diag X2 i)) in
  vcov_of (get_vcov (VcovStr "HC3") (get_fit (ols2 None ones2)).2).2
  = Val (1 *: bread *m (ts^T *m ts) *m bread).
Proof.
have [_ _ _ _ res] :=
  @get_vcov_hc_rescaling _ toy 2 1 (ols2 None ones2) "HC3" 1 (erefl _)
    (erefl _) (erefl _) ols2_unit (erefl _) (erefl _).
by rewrite (res ols2_hc3_divisors).
Defined.

End LeverageConcrete.

(** ** The weights *)

Section Weights.

Variable F : realFieldType.
Variable E : externals F.
Variables N k : nat.
Variable w : pyobj F.

Notation obj := (Feols E N k).
Notation g := (with_weights w).

Notation sim := (@sim F E N k w).

Lemma sim_bind A B (c1 c2 : M obj A) (f1 f2 : A -> M obj B) :
  sim c1 c2 -> (forall a, sim (f1 a) (f2 a)) -> sim (bind c1 f1) (bind c2 f2).
Proof.
move=> hc hf s; rewrite /bind hc.
by case: (c2 s) => [[a|e] s'] //=; apply: hf.
Qed.

Lemma sim_bind_get B (f1 f2 : obj -> M obj B) :
  (forall s0, sim (f1 (g s0)) (f2 s0)) -> sim (bind get f1) (bind get f2).
Proof. by move=> hf s; rewrite /bind /=; apply: hf. Qed.

Lemma sim_ret A (a : A) : sim (ret a) (ret a).
Proof. by []. Qed.

Lemma sim_raise A (e : exn) : sim (raise e : M obj A) (raise e).
Proof. by []. Qed.

Lemma sim_lift A (r : exc A) : sim (lift_exc r) (lift_exc r).
Proof. by []. Qed.

Lemma sim_assign_fit f : sim (assign_fit f : M obj unit) (assign_fit f).
Proof. by []. Qed.

Lemma sim_assign_cov f : sim (assign_cov f : M obj unit) (assign_cov f).
Proof. by []. Qed.

Lemma sim_assign_inf f : sim (assign_inf f : M obj unit) (assign_inf f).
Proof. by []. Qed.

Lemma sim_getattr T (a : obj -> option T) :
  (forall s, a (g s) = a s) -> sim (getattr a) (getattr a).
Proof. by move=> ha s; rewrite /getattr ha; case: (a s). Qed.

Lemma sim_getattr_opt T (a : obj -> attr T) :
  (forall s, a (g s) = a s) -> sim (getattr_opt a) (getattr_opt a).
Proof. by move=> ha s; rewrite /getattr_opt ha; case: (a s). Qed.

Ltac sim_step :=
  first
    [ exact: sim_ret
    | exact: sim_raise
    | exact: sim_lift
    | exact: sim_assign_fit
    | exact: sim_assign_cov
    | exact: sim_assign_inf
    | exact: sim_getattr
    | exact: sim_getattr_opt
    | apply: sim_bind_get => ? /=
    | apply: sim_bind => [|?] /=
    | case: ifP => _ ].

Lemma sim_get_fit : sim (@get_fit F E N k) (@get_fit F E N k).
Proof. by rewrite /get_fit; do !sim_step. Qed.

Lemma sim_get_inference alpha : sim (get_inference alpha) (get_inference alpha).
Proof. by rewrite /get_inference; do !sim_step. Qed.

Lemma sim_vcov_iid bread u : sim (vcov_iid bread u) (vcov_iid bread u).
Proof. by rewrite /vcov_iid; do !sim_step. Qed.

Lemma sim_vcov_hetero d bread xz zzi zx zxi u sc :
  sim (vcov_hetero d bread xz zzi zx zxi u sc)
      (vcov_hetero d bread xz zzi zx zxi u sc).
Proof. by rewrite /vcov_hetero; do !sim_step. Qed.

Lemma sim_vcov_CRV d bread xz zzi u :
  ~~ pyval_eq d "CRV1" ->
  sim (vcov_CRV d bread xz zzi u) (vcov_CRV d bread xz zzi u).
Proof.
move=> /negbTE nd; rewrite /vcov_CRV.
apply: sim_bind_get => s0 /=; rewrite nd.
by do !sim_step.
Qed.

Lemma sim_bind_lift A B (r : exc A) (f1 f2 : A -> M obj B) :
  (forall a, r = Ok a -> sim (f1 a) (f2 a)) ->
  sim (bind (lift_exc r) f1) (bind (lift_exc r) f2).
Proof. by rewrite /bind /lift_exc; case: r => [a|e] hf s //=; apply: hf. Qed.

(** The detail that a request resolves to is the string itself or the
    first key of the dict. *)
Lemma deparse_detail (request : vcov_arg) has_fixef is_iv vt d ic cv :
  _deparse_vcov_input request has_fixef is_iv = Ok (vt, d, ic, cv) ->
  match request with
  | VcovStr s => d = PAtom (PStr s)
  | VcovDict ((key, _) :: _) => d = PAtom key
  | _ => False
  end.
Proof.
rewrite /_deparse_vcov_input.
case: request => [s|[|[key v0] items]|l|] //=;
  case: (X in exc_bind X _) => [[[vt0 ic0]|]|e] //=;
  by case: ic0 => //=; case=> _ <-.
Qed.

(** Only a dict whose first key is "CRV1" resolves to the detail "CRV1". *)
Lemma deparse_crv1 (request : vcov_arg) has_fixef is_iv vt d ic cv :
  _deparse_vcov_input request has_fixef is_iv = Ok (vt, d, ic, cv) ->
  pyval_eq d "CRV1" -> crv1_request request.
Proof.
move=> dep; have := deparse_detail dep.
case: request dep => [s|[|[key v0] items]|l|] //= dep ->.
- by move=> /eqP es; move: dep; rewrite es.
- by case: key dep.
Qed.

Lemma sim_get_vcov (request : vcov_arg) :
  ~~ crv1_request request -> sim (get_vcov request) (get_vcov request).
Proof.
move=> nr; rewrite /get_vcov.
apply: sim_bind_get => s0 /=.
do 16!(apply: sim_bind => [|?] /=; first by do !sim_step).
apply: sim_bind_lift => [[[[vt d] ic] cv]] dep /=.
do 6!(apply: sim_bind => [|?] /=; first by do !sim_step).
have nd : ~~ pyval_eq d "CRV1".
  by apply: contra nr; apply: deparse_crv1 dep.
do !case: ifP => _; first exact: sim_vcov_iid.
- exact: sim_vcov_hetero.
- exact: sim_vcov_CRV.
- exact: sim_ret.
Qed.

End Weights.

Section WeightsClaim.

Variable F : realFieldType.
Variable E : externals F.
Variables N k : nat.

Notation obj := (Feols E N k).

(** What [_feols_input_checks] accepts: three arrays of two dimensions, of
    any shape. *)
Lemma feols_input_checks_ok (Y X weights : pyobj F) :
  is_ok (_feols_input_checks Y X weights)
  = [&& is_ndarray Y, is_ndarray X, is_ndarray weights,
        obj_ndim Y == 2%N, obj_ndim X == 2%N & obj_ndim weights == 2%N].
Proof.
rewrite /_feols_input_checks.
case: (is_ndarray Y) => //=; case: (is_ndarray X) => //=.
case: (is_ndarray weights) => //=.
by case: eqP => //= _; case: eqP => //= _; case: eqP.
Qed.

(** [weights.flatten() * u_hat] for an array of [N] weights. *)
Lemma weighted_uhat_array (a : ndarray F) (u : 'cV[F]_N) :
  size (flatten a) = N ->
  weighted_uhat (PyArray a) u = Ok (\col_i (nth 0 (flatten a) i * u i 0)).
Proof. by rewrite /weighted_uhat /broadcast_mul => ->; rewrite eqxx. Qed.

(** CRV1 on an OLS object that [get_fit] has fitted: the meat is built from
    the residuals multiplied by the weights. *)
Lemma get_vcov_CRV1_weights (self : obj) (a : ndarray F) (name : string)
    (rest : seq (pyatom * pyatom)) (df : DataFrame N) (col : N.-tuple cell)
    (s : F) :
  let X := X (init self) in
  let Z := Z (init self) in
  let bread := invmx (Z^T *m Z) in
  let u := Y (init self) - X *m (invmx (Z^T *m X) *m (Z^T *m Y (init self))) in
  let wu : 'cV[F]_N := \col_i (nth 0 (flatten a) i * u i 0) in
  let clustid := factorize_uniques col in
  weights (init self) = PyArray a -> size (flatten a) = N ->
  _is_iv (init self) = false ->
  Z^T *m X \in unitmx -> Z^T *m Z \in unitmx ->
  _data (init self) = Some df -> getitem df name = Ok col ->
  ~~ isna_any col ->
  get_ssc (_ssc_dict (init self)) N k (size clustid) 1 "CRV" = Ok s ->
  get_vcov (VcovDict ((PStr "CRV1", PStr name) :: rest)) (get_fit self).2
    = (Ok tt,
       Obj (init self) (fit (get_fit self).2)
           (VcovAttrs (Val "CRV") (Val (PAtom (PStr "CRV1"))) (Val true)
                      (Val (PStr name)) (Val (size clustid)) (Val s)
                      (Val (s *: bread *m crv1_meat clustid col Z wu
                            *m bread)))
           (inf self)).
Proof.
move=> /= ew sz ni uzx uzz dt gi nn es.
rewrite (get_fit_unit uzx) /=.
rewrite (@get_vcov_CRV1E _ E N k (init self) (cov self) (inf self)
           _ _ _ _ _ _ _ _ None None ni uzz df name col s rest dt gi nn es
           (\col_i (nth 0 (flatten a) i
                    * (Y (init self) - X (init self)
                         *m (invmx ((Z (init self))^T *m X (init self))
                         *m ((Z (init self))^T *m Y (init self)))) i 0))) //.
by rewrite ew weighted_uhat_array.
Qed.

(** C7, as the code has it.  [weights] is validated to be a numpy array of
    two dimensions, and nothing more (its number of rows is not compared
    with N).  For two fitted models that differ in their weights only,
    [get_fit], [get_inference] and [get_vcov] for every request but CRV1
    (iid, hetero, HC1, HC2, HC3, CRV3) have the same outcome and leave the
    same object up to the weights: the coefficients, the residuals and these
    covariance matrices are equal.  The CRV1 covariance is computed from the
    weights: its meat sums, over the clusters, the outer products of
    Z_g' (w * u)_g. *)
Theorem weights_only_in_CRV1 (self : obj) (w : pyobj F)
    (request : vcov_arg) (alpha : F) :
  [/\ forall Y X weights : pyobj F,
        is_ok (_feols_input_checks Y X weights)
        = [&& is_ndarray Y, is_ndarray X, is_ndarray weights,
              obj_ndim Y == 2%N, obj_ndim X == 2%N & obj_ndim weights == 2%N],
      get_fit (with_weights w self)
        = ((get_fit self).1, with_weights w (get_fit self).2) /\
      get_inference alpha (with_weights w self)
        = ((get_inference alpha self).1,
           with_weights w (get_inference alpha self).2),
      ~~ crv1_request request ->
      get_vcov request (with_weights w self)
        = ((get_vcov request self).1,
           with_weights w (get_vcov request self).2) &
      forall (a : ndarray F) name rest (df : DataFrame N) col s,
        let X := X (init self) in
        let Z := Z (init self) in
        let bread := invmx (Z^T *m Z) in
        let u :=
          Y (init self) - X *m (invmx (Z^T *m X) *m (Z^T *m Y (init self))) in
        let wu : 'cV[F]_N := \col_i (nth 0 (flatten a) i * u i 0) in
        let clustid := factorize_uniques col in
        weights (init self) = PyArray a -> size (flatten a) = N ->
        _is_iv (init self) = false ->
        Z^T *m X \in unitmx -> Z^T *m Z \in unitmx ->
        _data (init self) = Some df -> getitem df name = Ok col ->
        ~~ isna_any col ->
        get_ssc (_ssc_dict (init self)) N k (size clustid) 1 "CRV" = Ok s ->
        vcov_of (get_vcov (VcovDict ((PStr "CRV1", PStr name) :: rest))
                          (get_fit self).2).2
          = Val (s *: bread *m crv1_meat clustid col Z wu *m bread)].
Proof.
split.
- exact: feols_input_checks_ok.
- by split; [apply: sim_get_fit | apply: sim_get_inference].
- by move=> nr; apply: (sim_get_vcov w nr).
- move=> a name rest df col s /= ew sz ni uzx uzz dt gi nn es.
  by rewrite (get_vcov_CRV1_weights rest ew sz ni uzx uzz dt gi nn es).
Qed.

End WeightsClaim.

Section WeightsConcrete.

Local Notation d01 := (Some (data2 (Some (LInt 0)) (Some (LInt 1)))).

(** The CRV1 covariance of the two-observation model with the weights
    [[w0], [w1]]: (w0^2 + w1^2) / 4. *)
Lemma ols2_crv1 (w0 w1 : rat) :
  vcov_of (get_vcov crv1_c
             (get_fit (ols2 d01 (PyArray (Ndarray [:: 2%N; 1%N]
                                                  [:: w0; w1])))).2).2
  = Val ((2^-1 * (w0 ^+ 2 + w1 ^+ 2) * 2^-1)%:M).
Proof.
rewrite ols2_get_fit /ols2_fitted.
pose col : 2.-tuple cell := [tuple Some (LInt 0); Some (LInt 1)].
rewrite (@get_vcov_CRV1E _ toy 2 1 _ _ _ _ _ _ _ _ _ _ _ None None _ _
           (data2 (Some (LInt 0)) (Some (LInt 1))) "c" col 1 [::] _ _ _ _
           (\col_i (nth 0 [:: w0; w1] i * colv [:: -1; 1] i 0)))
        ?scalar_unitmx //=.
rewrite /vcov_of /=; congr Val.
rewrite /crv1_meat !big_cons big_nil !rowsel_dot11 !sum_ord2_cond.
have -> : eq_label col (LInt 0) ord0 = true by [].
have -> : eq_label col (LInt 0) (lift ord0 ord0) = false by [].
have -> : eq_label col (LInt 1) ord0 = false by [].
have -> : eq_label col (LInt 1) (lift ord0 ord0) = true by [].
rewrite !mxE /= !tr_scalar_mx scale1r invmx_scalar -!scalar_mxM !addr0.
rewrite -raddfD /= -!scalar_mxM; congr (_%:M).
by rewrite !add0r !mul1r !mulr1 mulrN1 mulrNN -!expr2.
Qed.

(** C7 as stated fails.  Two models that differ in their weights only,
    [[1], [1]] and [[1], [2]], have the CRV1 covariances [[1/2]] and
    [[5/4]]; and the constructor accepts three rows of weights for two
    observations. *)
Lemma crv1_depends_on_weights :
  let w1 := PyArray (Ndarray [:: 2%N; 1%N] [:: 1; 1 : rat]) in
  let w2 := PyArray (Ndarray [:: 2%N; 1%N] [:: 1; 2 : rat]) in
  let w3 := PyArray (Ndarray [:: 3%N; 1%N] [:: 1; 1; 1 : rat]) in
  [/\ ols2 d01 w2 = with_weights w2 (ols2 d01 w1),
      vcov_of (get_vcov crv1_c (get_fit (ols2 d01 w1)).2).2 = Val (2^-1)%:M,
      vcov_of (get_vcov crv1_c (get_fit (ols2 d01 w2)).2).2 = Val (5%:R / 4%:R)%:M,
      (2^-1)%:M != (5%:R / 4%:R)%:M :> 'M[rat]_1 &
      Feols_init toy (colv [:: 1; 3]) (const_mx 1) w3 = Ok (ols2 None w3)].
Proof.
split=> //.
- by rewrite ols2_crv1; congr (Val _%:M).
- by rewrite ols2_crv1; congr (Val _%:M).
- apply/eqP => /matrixP/(_ ord0 ord0); rewrite !mxE /= => /eqP.
  by rewrite !mulr1n.
Qed.

End WeightsConcrete.

(** ** The inference summary *)

Section Inference.

Variable F : realFieldType.
Variable E : externals F.
Variables N k : nat.

Notation obj := (Feols E N k).


End Inference.
(** * Further properties of the estimator *)

(** ** [get_fit] *)

Section PointEstimator.

Variable F : realFieldType.
Variable E : externals F.
Variables N k : nat.

Notation obj := (Feols E N k).

(** X1.  [get_fit] fails in one way only: whenever it raises, the
    exception is LinAlgError (from [np.linalg.inv], line 113), and it has by
    then assigned [tZX] and [tZy] and nothing else: these two attributes
    hold the cross-moments and every other attribute is as it was, so
    [beta_hat] is still unassigned on a new object. *)
Theorem get_fit_failure_state (self : obj) (e : exn) :
  (get_fit self).1 = Raise e ->
  e = LinAlgError /\
  (get_fit self).2
  = Obj (init self)
        (set_tZy (Some ((Z (init self))^T *m Y (init self)))
                 (set_tZX (Some ((Z (init self))^T *m X (init self)))
                          (fit self)))
        (cov self) (inf self).
Proof.
case: (boolP ((Z (init self))^T *m X (init self) \in unitmx)) => [u|nu].
- by rewrite (get_fit_unit u).
- by rewrite (get_fit_singular nu) /= => -[<-].
Qed.

(** What [get_fit] stores when Y = X b. *)
Lemma get_fit_exact (self : obj) (b : 'cV[F]_k) :
  let X := X (init self) in
  let Y := Y (init self) in
  Z (init self) = X -> \rank X = k -> Y = X *m b ->
  get_fit self =
    (Ok tt,
     Obj (init self)
         (FitAttrs (Some (X^T *m X)) (Some (X^T *m Y))
                   (Some (invmx (X^T *m X))) (Some b) (Some Y) (Some 0)
                   (Some 0) (Some (X^T *m X)) PyNone PyNone)
         (cov self) (inf self)).
Proof.
move=> /= ZX rk eY.
have u := gram_unitmx rk.
have uz : (Z (init self))^T *m X (init self) \in unitmx by rewrite ZX.
rewrite (get_fit_unit uz) /= ZX.
have eb : invmx ((X (init self))^T *m X (init self))
          *m ((X (init self))^T *m Y (init self)) = b.
  by rewrite eY [X in invmx _ *m X]mulmxA mulKmx.
rewrite eb -eY subrr; congr (_, Obj _ _ _ _); congr FitAttrs.
by congr Some; apply/matrixP => i j; rewrite !mxE mulr0.
Qed.

(** X2.  An exact linear relation is recovered: when Y = X b for a matrix X
    of full column rank (and Z = X), [get_fit] stores the coefficient [b],
    the fitted values Y, and residuals and scores that are zero. *)
Theorem get_fit_recovers_exact_fit (self : obj) (b : 'cV[F]_k) :
  let X := X (init self) in
  let Y := Y (init self) in
  Z (init self) = X -> \rank X = k -> Y = X *m b ->
  let self' := (get_fit self).2 in
  [/\ (get_fit self).1 = Ok tt,
      beta_hat (fit self') = Some b,
      Y_hat_link (fit self') = Some Y,
      u_hat (fit self') = Some 0 &
      scores (fit self') = Some 0].
Proof. by move=> /= ZX rk eY; rewrite (get_fit_exact ZX rk eY). Qed.

(** X3.  [get_fit] reads the attributes of [__init__] only and writes the
    attributes of the fit only: whatever its outcome, the attributes of
    [__init__], of [get_vcov] and of [get_inference] are as they were (a
    covariance computed before a refit is not cleared), and running it a
    second time changes nothing. *)
Theorem get_fit_frame (self : obj) :
  let r := get_fit self in
  [/\ init r.2 = init self, cov r.2 = cov self, inf r.2 = inf self &
      get_fit r.2 = r].
Proof.
case: (boolP ((Z (init self))^T *m X (init self) \in unitmx)) => [u|nu] /=.
- by rewrite (get_fit_unit u) /=; split=> //; rewrite get_fit_unit.
- by rewrite (get_fit_singular nu) /=; split=> //; rewrite get_fit_singular.
Qed.

End PointEstimator.

(** ** [get_vcov]: requests and failures *)

Section Requests.

Variable F : realFieldType.
Variable E : externals F.
Variables N k : nat.

Notation obj := (Feols E N k).

Lemma get_vcov_unfitted (self : obj) (request : vcov_arg) :
  ~~ fitted self -> get_vcov request self = (Raise AttributeError, self).
Proof.
case: self => i [zx zy zxi b yh u sc h xz zzi] c n.
rewrite /fitted /get_vcov /bind /getattr /getattr_opt /=.
case: b => [b|] //=; case: xz => [||xz] //=; case: zzi => [||zzi] //=;
  case: zx => [zx|] //=; case: zxi => [zxi|] //=; case: h => [h|] //=;
  case: sc => [sc|] //=; by case: u => [u|].
Qed.

(** X4.  On an object that is not fitted, [get_vcov] raises AttributeError
    while it reads the attributes of the fit (lines 155-171), before the
    assignments of [None]: the object is left exactly as it was, whatever
    the request, and whatever covariance it held. *)
Theorem get_vcov_unfitted_unchanged (self : obj) (request : vcov_arg) :
  ~~ fitted self -> get_vcov request self = (Raise AttributeError, self).
Proof. exact: get_vcov_unfitted. Qed.

(** X5.  Of a dict-valued request only the first item is looked at: the
    items after it change nothing (they are not validated either).  An
    empty dict is answered with IndexError, raised by
    [list(vcov.keys())[0]] in [_check_vcov_input], with the seven attributes
    of [get_vcov] reset. *)
Theorem get_vcov_dict_first_item (self : obj) (item : pyatom * pyatom)
    (rest : seq (pyatom * pyatom)) :
  get_vcov (VcovDict (item :: rest)) self = get_vcov (VcovDict [:: item]) self
  /\ (fitted self ->
      get_vcov (VcovDict [::]) self = (Raise IndexError, reset_vcov self)).
Proof.
split; first by [].
by move=> fs; apply: get_vcov_check_raise.
Qed.

(** X6.  "hetero" and "HC1" name the same estimator: on every object the
    two requests have the same outcome and leave the same attributes, the
    covariance matrix and [ssc] included, except for the name recorded in
    [vcov_type_detail]. *)
Theorem get_vcov_HC1_is_hetero (self : obj) :
  let r1 := get_vcov (VcovStr "hetero") self in
  let r2 := get_vcov (VcovStr "HC1") self in
  [/\ r1.1 = r2.1, init r1.2 = init r2.2, fit r1.2 = fit r2.2,
      inf r1.2 = inf r2.2 &
      set_vcov_type_detail Unset (cov r1.2)
      = set_vcov_type_detail Unset (cov r2.2)].
Proof.
case: (boolP (fitted self)) => [fs|nf] /=; last first.
  by rewrite !get_vcov_unfitted.
case/fitted_inv: fs => zx [zy] [zxi] [b] [yh] [u] [sc] [h] [xz] [zzi].
case: self => i ft c inf0 /= ->.
rewrite /get_vcov /bind /=.
case: xz => [xz|]; case: zzi => [zzi|] /=.
all: case ei: (_is_iv i) => /=; rewrite /iv_bread /=.
all: try (case: (np_linalg_inv _) => [a|e] //=).
all: rewrite /vcov_hetero /bind /= ?ei /=.
all: try (case: (get_ssc _ _ _ _ _ _) => [s|e'] //=; rewrite ?ei //=).
all: by split.
Qed.

(** X7.  Validation is sufficient for strings and dicts: a request that
    [_check_vcov_input] accepts and that is not a list is resolved by
    [_deparse_vcov_input] without AssertionError, IndexError or
    UnboundLocalError.  A string resolves to "iid" or "hetero", not
    clustered, with no cluster variable, unless it is "HC2" or "HC3" and the
    model has fixed effects or is an IV model (VcovTypeNotSupportedError);
    a dict resolves to "CRV", clustered, with its first key as the detail
    and its first value, a column of the data, as the cluster variable. *)
Theorem check_then_deparse (request : vcov_arg) (data : option (DataFrame N))
    (has_fixef is_iv : bool) :
  _check_vcov_input request data = Ok tt ->
  match request with
  | VcovStr s =>
      _deparse_vcov_input request has_fixef is_iv
      = if (s \in [:: "HC2"; "HC3"]) && (has_fixef || is_iv)
        then Raise VcovTypeNotSupportedError
        else Ok (if s == "iid" then "iid" else "hetero", PAtom (PStr s),
                 false, None)
  | VcovDict items =>
      exists key name rest df,
        [/\ items = (PStr key, PStr name) :: rest,
            key \in [:: "CRV1"; "CRV3"],
            data = Some df /\ name \in columns df &
            _deparse_vcov_input request has_fixef is_iv
            = Ok ("CRV", PAtom (PStr key), true, Some (PStr name))]
  | VcovList _ => True
  | VcovOther => False
  end.
Proof.
case: request => [s|items|l|] //=.
- rewrite /_check_vcov_input /assert /=.
  case es: (s \in [:: "iid"; "hetero"; "HC1"; "HC2"; "HC3"]) => // _.
  move: es; rewrite !inE => /or4P[/eqP->|/eqP->|/eqP->|/orP[] /eqP->] //=;
    by rewrite /_deparse_vcov_input /=; case: has_fixef; case: is_iv.
- rewrite /_check_vcov_input /assert /=.
  case: items => [|[[key|] [name|]] rest] //=.
  + case ik: (key \in _) => //=.
    case: data => [df|] //=; case inc: (name \in columns df) => //= _.
    exists key, name, rest, df; split=> //.
    by move: ik; rewrite !inE => /orP[] /eqP->.
  + by case: (key \in _).
Qed.

End Requests.

(** ** [get_vcov] on a fitted object, step by step *)

Section Dispatch.

Variable F : realFieldType.
Variable E : externals F.
Variables N k : nat.

Notation obj := (Feols E N k).

(** The estimator that a resolved request selects (lines 202, 220, 261). *)
Lemma get_vcov_resolved (self : obj) (request : vcov_arg) vt d ic cv
    (h : 'M[F]_k) :
  fitted self -> _is_iv (init self) = false -> hessian (fit self) = Some h ->
  _check_vcov_input request (_data (init self)) = Ok tt ->
  _deparse_vcov_input request (_has_fixef (init self)) false
    = Ok (vt, d, ic, cv) ->
  exists u sc zx zxi xz zzi,
    [/\ u_hat (fit self) = Some u, scores (fit self) = Some sc,
        tZXinv (fit self) = Some zxi &
        get_vcov request self =
        match np_linalg_inv h with
        | Ok bread =>
            (if vt == "iid" then vcov_iid bread u
             else if vt == "hetero" then
               vcov_hetero d bread xz zzi zx zxi u sc
             else if vt == "CRV" then vcov_CRV d bread xz zzi u
             else ret tt) (resolved self (vt, d, ic, cv))
        | Raise e => (Raise e, resolved self (vt, d, ic, cv))
        end].
Proof.
case/fitted_inv=> zx [zy] [zxi] [b] [yh] [u] [sc] [h0] [xz] [zzi].
case: self => i ft c inf0 /= -> /= ni [<-] chk dep.
exists u, sc, zx, zxi, xz, zzi; split=> //.
rewrite /get_vcov /bind /=; case: (xz) => [?|]; case: (zzi) => [?|];
  by rewrite /= chk /= ni dep /=; case: (np_linalg_inv h0).
Qed.

(** A clustered request resolves to the detail "CRV1" or "CRV3". *)
Lemma deparse_crv_detail (request : vcov_arg) has_fixef is_iv vt d ic cv :
  _deparse_vcov_input request has_fixef is_iv = Ok (vt, d, ic, cv) ->
  [\/ vt = "iid", vt = "hetero" |
      vt = "CRV" /\ (pyval_eq d "CRV1" || pyval_eq d "CRV3")].
Proof.
rewrite /_deparse_vcov_input.
case: (match request with VcovStr _ => _ | _ => _ end) => //= d0.
case: ifP => _ /=; first by case=> <-; constructor 1.
case: ifP => _ /=.
  by case: ifP => _ /=; [case: has_fixef => //=; case: is_iv => //= |];
     case=> <-; constructor 2.
case: ifP => [hd|] //=.
case: (vcov_values0 request) => //= v [<- <- _ _]; constructor 3.
by split=> //; move: hd; rewrite /pyval_in /= orbF.
Qed.

End Dispatch.

(** ** The form of the covariance matrices *)

Section Gramian.

Variable F : realFieldType.

(** A matrix is [gramian] when it is symmetric and positive semi-definite,
    as S'S is, and as the meat matrices are. *)
Local Notation gramian M := (M^T = M /\ psd M).

Lemma quad11 n (x : 'rV[F]_n) (S : 'M[F]_(n, 1)) :
  (x *m (S *m S^T) *m x^T) 0 0 = ((x *m S) 0 0) ^+ 2.
Proof.
rewrite mulmxA -mulmxA -trmx_mul mxE big_ord1 expr2.
by congr (_ * _); rewrite mxE.
Qed.

Lemma gramian_outer n (v : 'cV[F]_n) : gramian (v *m v^T).
Proof.
split; first by rewrite trmx_mul trmxK.
by move=> x; rewrite quad11 sqr_ge0.
Qed.

Lemma gramian_gram m n (S : 'M[F]_(m, n)) : gramian (S^T *m S).
Proof.
split; first by rewrite trmx_mul trmxK.
move=> x; rewrite mulmxA -mulmxA -[S *m x^T]trmxK trmx_mul trmxK.
rewrite mxE; apply: sumr_ge0 => j _.
by rewrite [X in _ * X]mxE -expr2 sqr_ge0.
Qed.

Lemma gramian0 n : gramian (0 : 'M[F]_n).
Proof. by split=> [|x]; rewrite ?trmx0 // mulmx0 mul0mx mxE. Qed.

Lemma gramianD n (A B : 'M[F]_n) :
  gramian A -> gramian B -> gramian (A + B).
Proof.
move=> [sA pA] [sB pB]; split; first by rewrite linearD /= sA sB.
by move=> x; rewrite mulmxDr mulmxDl mxE addr_ge0.
Qed.

Lemma gramian_sum n (I : Type) (r : seq I) (f : I -> 'M[F]_n) :
  (forall i, gramian (f i)) -> gramian (\sum_(i <- r) f i).
Proof.
move=> gf; elim: r => [|i r IH]; first by rewrite big_nil; apply: gramian0.
by rewrite big_cons; apply: gramianD.
Qed.

(** A symmetric bread around a gramian meat. *)
Lemma gramian_sandwich n (B M : 'M[F]_n) :
  B^T = B -> gramian M -> gramian (B *m M *m B).
Proof.
move=> sB [sM pM]; split; first by rewrite !trmx_mul sB sM mulmxA.
move=> x; rewrite !mulmxA -[x *m B *m M *m B *m x^T]mulmxA.
by rewrite -{2}sB -trmx_mul pM.
Qed.

Lemma gramian_scale n (c : F) (M : 'M[F]_n) :
  0 <= c -> gramian M -> gramian (c *: M).
Proof.
move=> c0 [sM pM]; split; first by rewrite linearZ /= sM.
by move=> x; rewrite -scalemxAr -scalemxAl mxE mulr_ge0.
Qed.

(** The inverse of an invertible Z'Z is gramian. *)
Lemma gramian_inv_gram m n (Z : 'M[F]_(m, n)) :
  Z^T *m Z \in unitmx -> gramian (invmx (Z^T *m Z)).
Proof.
move=> u.
have sB : (invmx (Z^T *m Z))^T = invmx (Z^T *m Z).
  by rewrite trmx_inv trmx_mul trmxK.
have -> : invmx (Z^T *m Z)
          = invmx (Z^T *m Z) *m (Z^T *m Z) *m invmx (Z^T *m Z).
  by rewrite mulVmx // mul1mx.
by apply: gramian_sandwich => //; apply: gramian_gram.
Qed.

End Gramian.

Section VcovForm.

Variable F : realFieldType.
Variable E : externals F.
Variables N k : nat.

Notation obj := (Feols E N k).

Local Notation gramian M := (M^T = M /\ psd M).

(** A property [P] of matrices that the three forms of a covariance matrix
    have, for the bread [B] and the corrections [get_ssc] returns. *)
Variable P : 'M[F]_k -> Prop.
Variable okssc : F -> Prop.
Variable B : 'M[F]_k.

Hypothesis P_iid : forall c s : F, 0 <= c -> okssc s -> P (c *: (s *: B)).
Hypothesis P_sandwich : forall (s : F) (M : 'M[F]_k),
  okssc s -> gramian M -> P (s *: B *m M *m B).
Hypothesis P_scale : forall (s : F) (M : 'M[F]_k),
  okssc s -> gramian M -> P (s *: M).
Hypothesis get_ssc_ok : forall d n p g v t s,
  get_ssc (e := E) d n p g v t = Ok s -> okssc s.

Local Notation good s := (exists V, vcov_of s = Val V /\ P V).

Lemma sigma2_ge0 (u : 'cV[F]_N) : 0 <= (\sum_i u i 0 ^+ 2) / (N%:R - 1).
Proof.
case: N u => [|n] u; first by rewrite big_ord0 mul0r.
apply: divr_ge0; first by apply: sumr_ge0 => i _; rewrite sqr_ge0.
by rewrite subr_ge0 ler1n.
Qed.

Lemma form_vcov_iid (u : 'cV[F]_N) (s : obj) :
  match vcov_iid B u s with
  | (Ok _, s') => good s'
  | (Raise _, _) => True
  end.
Proof.
rewrite /vcov_iid /bind /=; case: ifP => //= _.
case es: (get_ssc _ _ _ _ _ _) => [x|] //=.
eexists; split; first by rewrite /vcov_of /=.
by apply: P_iid; [apply: sigma2_ge0 | apply: get_ssc_ok es].
Qed.

Lemma form_vcov_hetero d xz zzi zx zxi (u : 'cV[F]_N) sc (s : obj) :
  _is_iv (init s) = false ->
  match vcov_hetero d B xz zzi zx zxi u sc s with
  | (Ok _, s') => good s'
  | (Raise _, _) => True
  end.
Proof.
move=> ni; rewrite /vcov_hetero /bind /= ni /=.
case es: (get_ssc _ _ _ _ _ _) => [x|] //=.
case: (hetero_transform _ _ _ _ _ _) => [[u' [S|]]|] //=.
eexists; split; first by rewrite /vcov_of /=.
by apply: P_sandwich; [apply: get_ssc_ok es | apply: gramian_gram].
Qed.

Lemma gramian_crv1_meat clustid (col : N.-tuple cell) (Z : 'M[F]_(N, k))
    (wu : 'cV[F]_N) :
  gramian (crv1_meat clustid col Z wu).
Proof. by apply: gramian_sum => g; apply: gramian_outer. Qed.

Lemma gramian_crv3_sum (bj : seq 'cV[F]_k) (beta : 'cV[F]_k) :
  gramian (crv3_sum bj beta).
Proof. by apply: gramian_sum => g; apply: gramian_outer. Qed.

Lemma form_vcov_CRV d xz zzi (u : 'cV[F]_N) (s : obj) :
  _is_iv (init s) = false -> pyval_eq d "CRV1" || pyval_eq d "CRV3" ->
  match vcov_CRV d B xz zzi u s with
  | (Ok _, s') => good s'
  | (Raise _, _) => True
  end.
Proof.
move=> ni hd; rewrite /vcov_CRV /bind /= /getattr_opt.
case: (clustervar (cov s)) => [||cv] //=.
- by case: (_data (init s)).
- case: (match _data (init s) with Some _ => _ | None => _ end)
    => [col|] //=.
  case: ifP => //= _.
  case es: (get_ssc _ _ _ _ _ _) => [x|] //=.
  case: ifP hd => [_ _|_ /= ->] /=.
  + case: (weighted_uhat _ _) => [wu|] //=; rewrite ni /=.
    eexists; split; first by rewrite /vcov_of /=.
    by apply: P_sandwich;
      [apply: get_ssc_ok es | apply: gramian_crv1_meat].
  + rewrite ni /=; case: ifP => //= _.
    rewrite /getattr /=; case: (beta_hat (fit s)) => [b|] //=.
    case: (if _has_fixef (init s) == false then _ else _) => [bj|] //=.
    eexists; split; first by rewrite /vcov_of /=.
    by apply: P_scale; [apply: get_ssc_ok es | apply: gramian_crv3_sum].
Qed.

(** Whatever a non-IV object stores as its covariance has the property. *)
Lemma form_get_vcov (self : obj) (request : vcov_arg) (h : 'M[F]_k) :
  fitted self -> _is_iv (init self) = false ->
  hessian (fit self) = Some h -> B = invmx h ->
  (get_vcov request self).1 = Ok tt ->
  good (get_vcov request self).2.
Proof.
move=> fs ni eh eB.
case chk: (_check_vcov_input request (_data (init self))) => [[]|e];
  last by rewrite (get_vcov_check_raise fs chk).
case dep: (_deparse_vcov_input request (_has_fixef (init self)) false)
  => [[[[vt d] ic] cv]|e]; last first.
  by rewrite (@get_vcov_deparse_raise _ _ _ _ _ _ e) // ni.
have [u [sc [zx [zxi [xz [zzi [_ _ _ ->]]]]]]] :=
  get_vcov_resolved fs ni eh chk dep.
rewrite /np_linalg_inv; case: ifP => // _; rewrite -eB.
have nr : _is_iv (init (resolved self (vt, d, ic, cv))) = false.
  by case: (self) ni.
move: (resolved self (vt, d, ic, cv)) nr => s1 nr.
case: (deparse_crv_detail dep) => [->|->|[-> hd]] /=.
- have := form_vcov_iid u s1.
  by case: (vcov_iid _ _ _) => [[[]|e] s'].
- have := form_vcov_hetero d xz zzi zx zxi u sc nr.
  by case: (vcov_hetero _ _ _ _ _ _ _ _ _) => [[[]|e] s'].
- have := form_vcov_CRV xz zzi u nr hd.
  by case: (vcov_CRV _ _ _ _ _ _) => [[[]|e] s'].
Qed.

End VcovForm.

Section VcovSymmetric.

Variable F : realFieldType.
Variable E : externals F.
Variables N k : nat.

Notation obj := (Feols E N k).

(** X8.  The covariance matrix is symmetric.  On a fitted object of a model
    that is not an IV model, whose [hessian] is Z'Z as [get_fit] assigns it,
    whenever [get_vcov] returns (iid, hetero, HC1, HC2, HC3, CRV1 or CRV3)
    on a request that it answers without dividing by zero, [self.vcov]
    holds a symmetric matrix. *)
Theorem get_vcov_symmetric (self : obj) (request : vcov_arg) :
  fitted self -> _is_iv (init self) = false ->
  hessian (fit self) = Some ((Z (init self))^T *m Z (init self)) ->
  divisors_nonzero self request ->
  (get_vcov request self).1 = Ok tt ->
  exists V, vcov_of (get_vcov request self).2 = Val V /\ V^T = V.
Proof.
move=> fs ni eh _.
set B := invmx ((Z (init self))^T *m Z (init self)).
have sB : B^T = B by rewrite /B trmx_inv trmx_mul trmxK.
apply: (@form_get_vcov F E N k (fun V => V^T = V) (fun _ => True) B
          _ _ _ _ self request _ fs ni eh (erefl _)) => //.
- move=> c s _ _.
  by rewrite [(_ *: _)^T]linearZ /= [(_ *: _)^T]linearZ /= sB.
- move=> s M _ [sM _]; rewrite -scalemxAl -scalemxAl.
  by rewrite [(_ *: _)^T]linearZ /= !trmx_mul sB sM mulmxA.
- by move=> s M _ [sM _]; rewrite [(_ *: _)^T]linearZ /= sM.
Qed.

(** X9.  The covariance matrix is positive semi-definite, so the variances
    on its diagonal, of which [get_inference] takes the square roots, are
    not negative.  This holds under the conditions of X8 (a request
    answered without dividing by zero among them) when the small-sample
    correction that [get_ssc] returns is never negative. *)
Theorem get_vcov_psd (self : obj) (request : vcov_arg) :
  (forall d n p g v t s, get_ssc (e := E) d n p g v t = Ok s -> 0 <= s) ->
  fitted self -> _is_iv (init self) = false ->
  hessian (fit self) = Some ((Z (init self))^T *m Z (init self)) ->
  divisors_nonzero self request ->
  (get_vcov request self).1 = Ok tt ->
  exists V, [/\ vcov_of (get_vcov request self).2 = Val V, psd V &
                forall i, 0 <= V i i].
Proof.
move=> ssc0 fs ni eh _ ok.
set h := (Z (init self))^T *m Z (init self) in eh *.
have gB : (invmx h)^T = invmx h /\ psd (invmx h).
  case: (boolP (h \in unitmx)) => [u|nu]; first exact: gramian_inv_gram.
  by rewrite /invmx (negbTE nu); apply: gramian_gram.
have [V [eV pV]] :
  exists V, vcov_of (get_vcov request self).2 = Val V /\ psd V.
  apply: (@form_get_vcov F E N k (@psd F k) (fun s => 0 <= s) (invmx h)
            _ _ _ _ self request _ fs ni eh (erefl _)) => //.
  - move=> c s c0 s0.
    exact: (gramian_scale c0 (gramian_scale s0 gB)).2.
  - move=> s M s0 gM; rewrite -scalemxAl -scalemxAl.
    exact: (gramian_scale s0 (gramian_sandwich gB.1 gM)).2.
  - by move=> s M s0 gM; exact: (gramian_scale s0 gM).2.
exists V; split=> // i.
have := pV (delta_mx 0 i); rewrite -rowE -[_ *m _^T]trmxK trmx_mul trmxK.
by rewrite -rowE !mxE.
Qed.

End VcovSymmetric.

(** ** Degenerate inputs of [get_vcov] *)

Section ExactFit.

Variable F : realFieldType.
Variable E : externals F.
Variables N k : nat.

Notation obj := (Feols E N k).

(** With residuals and scores that are zero, the string requests store the
    zero matrix. *)
Lemma get_vcov_zero_residuals (self : obj) (s : string) :
  fitted self -> _is_iv (init self) = false ->
  u_hat (fit self) = Some 0 -> scores (fit self) = Some 0 ->
  (get_vcov (VcovStr s) self).1 = Ok tt ->
  vcov_of (get_vcov (VcovStr s) self).2 = Val 0.
Proof.
move=> fs ni eu esc.
have [[_ _ _ sh] _] := fittedP fs.
case eh: (hessian (fit self)) sh => [h|] // _.
case chk: (_check_vcov_input (VcovStr s) (_data (init self))) => [[]|e];
  last by rewrite (get_vcov_check_raise fs chk).
case dep: (_deparse_vcov_input (VcovStr s) (_has_fixef (init self)) false)
  => [[[[vt d] ic] cv]|e]; last first.
  by rewrite (@get_vcov_deparse_raise _ _ _ _ _ _ e) // ni.
have [u [sc [zx [zxi [xz [zzi [eu' esc' _ ->]]]]]]] :=
  get_vcov_resolved fs ni eh chk dep.
move: eu' esc'; rewrite eu esc => -[<-] [<-].
rewrite /np_linalg_inv; case: ifP => // _.
have nr : _is_iv (init (resolved self (vt, d, ic, cv))) = false.
  by case: (self) ni.
move: (resolved self (vt, d, ic, cv)) nr => s1 nr.
case: (deparse_crv_detail dep) => [->|->|[evt _]] /=.
- rewrite /vcov_iid /bind /=; case: ifP => //= _.
  case: (get_ssc _ _ _ _ _ _) => [x|] //= _.
  rewrite /vcov_of /=; congr Val.
  rewrite big1 ?mul0r ?scale0r // => i _.
  by rewrite mxE expr0n.
- rewrite /vcov_hetero /bind /= nr /=.
  case: (get_ssc _ _ _ _ _ _) => [x|] //=.
  rewrite /hetero_transform.
  have z1 a : (\matrix_(i, j) ((0 : 'M[F]_(N, k)) i j / a i) : 'M[F]_(N, k))
              = 0.
    by apply/matrixP => i j; rewrite !mxE mul0r.
  case: ifP => _ /=.
    by move=> _; rewrite /vcov_of /=; congr Val; rewrite mulmx0 mulmx0 mul0mx.
  case: ifP => _ //=; case: (np_linalg_inv _) => [t|] //=.
  case: ifP => _ /= _; rewrite /vcov_of /=; congr Val.
  + by rewrite (z1 (fun i => np_sqrt E (1 - leverage (X (init s1)) zxi i 0)))
               mulmx0 mulmx0 mul0mx.
  + by rewrite (z1 (fun i => 1 - leverage (X (init s1)) zxi i 0))
               mulmx0 mulmx0 mul0mx.
- have := deparse_detail dep; move=> ed.
  by move: dep; rewrite /_deparse_vcov_input /=; do !case: ifP => _ //=;
     case=> e1; move: evt; rewrite -e1.
Qed.

(** X10.  An exact fit has zero covariance: when Y = X b for a matrix X of
    full column rank, in a model that is not an IV model, then after
    [get_fit] every string request ("iid", "hetero", "HC1", "HC2", "HC3")
    that [get_vcov] answers without dividing by zero (more than one
    observation for "iid", no leverage equal to 1 for "HC2" and "HC3")
    stores the zero matrix. *)
Theorem exact_fit_zero_vcov (self : obj) (b : 'cV[F]_k) (s : string) :
  let X := X (init self) in
  Z (init self) = X -> _is_iv (init self) = false -> \rank X = k ->
  Y (init self) = X *m b ->
  let fitted_self := (get_fit self).2 in
  divisors_nonzero fitted_self (VcovStr s) ->
  (get_vcov (VcovStr s) fitted_self).1 = Ok tt ->
  vcov_of (get_vcov (VcovStr s) fitted_self).2 = Val 0.
Proof.
move=> /= ZX ni rk eY _.
by rewrite (get_fit_exact ZX rk eY); apply: get_vcov_zero_residuals.
Qed.

End ExactFit.

(** ** Failures of [get_vcov] and what follows them *)

Section Failures.

Variable F : realFieldType.
Variable E : externals F.
Variables N k : nat.

Notation obj := (Feols E N k).

(** The estimator that a resolved request selects, for any fitted object:
    the guard of lines 190-194 never fires. *)
Lemma get_vcov_dispatch (self : obj) (request : vcov_arg) vt d ic cv :
  fitted self ->
  _check_vcov_input request (_data (init self)) = Ok tt ->
  _deparse_vcov_input request (_has_fixef (init self)) (_is_iv (init self))
    = Ok (vt, d, ic, cv) ->
  exists zx zy zxi b yh u sc h xz zzi,
    fit self = FitAttrs (Some zx) zy (Some zxi) (Some b) yh (Some u)
                        (Some sc) (Some h) (attr_of_option xz)
                        (attr_of_option zzi) /\
    get_vcov request self =
    match (if _is_iv (init self) then iv_bread xz zzi zx
           else np_linalg_inv h) with
    | Ok bread =>
        (if vt == "iid" then vcov_iid bread u
         else if vt == "hetero" then
           vcov_hetero d bread xz zzi zx zxi u sc
         else if vt == "CRV" then vcov_CRV d bread xz zzi u
         else ret tt) (resolved self (vt, d, ic, cv))
    | Raise e => (Raise e, resolved self (vt, d, ic, cv))
    end.
Proof.
case/fitted_inv=> zx [zy] [zxi] [b] [yh] [u] [sc] [h] [xz] [zzi].
case: self => i ft c inf0 /= -> /= chk dep.
exists zx, zy, zxi, b, yh, u, sc, h, xz, zzi; split=> //.
have /andP[_ /negbTE n3] := deparse_vcov_type dep.
rewrite /get_vcov /bind /=; case: (xz) => [?|]; case: (zzi) => [?|];
  by rewrite /= chk /= dep /= n3 andbF /=;
     case: (if _is_iv i then _ else _).
Qed.

(** What an estimator leaves when it raises: the attributes of
    [__init__], of the fit and of [get_inference], [vcov_type] and
    [self.vcov] are as they were, and [G] is still assigned. *)
Local Notation kept s s' :=
  [/\ init s' = init s, fit s' = fit s, inf s' = inf s,
      vcov_of s' = vcov_of s &
      vcov_type (cov s') = vcov_type (cov s) /\
      (is_set (G (cov s)) -> is_set (G (cov s')))].

Lemma vcov_iid_raise B (u : 'cV[F]_N) (s : obj) e :
  (vcov_iid B u s).1 = Raise e -> kept s (vcov_iid B u s).2.
Proof.
rewrite /vcov_iid /bind /=; case: ifP => //= _.
by case: (get_ssc _ _ _ _ _ _) => [x|].
Qed.

Lemma vcov_hetero_raise d B xz zzi zx zxi (u : 'cV[F]_N) sc (s : obj) e :
  (vcov_hetero d B xz zzi zx zxi u sc s).1 = Raise e ->
  kept s (vcov_hetero d B xz zzi zx zxi u sc s).2.
Proof.
rewrite /vcov_hetero /bind /=.
case: (get_ssc _ _ _ _ _ _) => [x|] //=.
case: (hetero_transform _ _ _ _ _ _) => [[u' S]|] //=.
case: ifP => _ /=; first by case: S.
case: u' => [u'|] //=; case: S => [S|] //=.
by case: (iv_meat _ _ _ _).
Qed.

Lemma vcov_CRV_raise d B xz zzi (u : 'cV[F]_N) (s : obj) e :
  (vcov_CRV d B xz zzi u s).1 = Raise e ->
  kept s (vcov_CRV d B xz zzi u s).2.
Proof.
rewrite /vcov_CRV /bind /= /getattr_opt.
case: (clustervar (cov s)) => [||cv] //=.
- by case: (_data (init s)).
- case: (match _data (init s) with Some _ => _ | None => _ end)
    => [col|] //=.
  case: ifP => //= _.
  case: (get_ssc _ _ _ _ _ _) => [x|] //=.
  case: ifP => _ /=.
    case: (weighted_uhat _ _) => [wu|] //=; case: ifP => _ //=.
    rewrite /getattr /=; case: (tZX (fit s)) => [zx|] //=.
    by case: (iv_meat _ _ _ _).
  case: ifP => _ //=; case: ifP => _ //=; case: ifP => _ //=.
  rewrite /getattr /=; case: (beta_hat (fit s)) => [b|] //=.
  by case: (if _has_fixef (init s) == false then _ else _).
Qed.

(** The object after a failed [get_vcov]. *)
Lemma get_vcov_raise_state (self : obj) (request : vcov_arg) (e : exn) :
  fitted self -> (get_vcov request self).1 = Raise e ->
  let s' := (get_vcov request self).2 in
  [/\ init s' = init self, fit s' = fit self, inf s' = inf self,
      vcov_of s' = PyNone &
      is_set (vcov_type (cov s')) /\ is_set (G (cov s'))].
Proof.
move=> fs.
case chk: (_check_vcov_input request (_data (init self))) => [[]|e'];
  last by rewrite (get_vcov_check_raise fs chk).
case dep: (_deparse_vcov_input request (_has_fixef (init self))
             (_is_iv (init self))) => [[[[vt d] ic] cv]|e']; last first.
  by rewrite (get_vcov_deparse_raise fs chk dep).
have [zx [zy] [zxi] [b] [yh] [u] [sc] [h] [xz] [zzi] [_ ->]] :=
  get_vcov_dispatch fs chk dep.
have: [/\ init (resolved self (vt, d, ic, cv)) = init self,
          fit (resolved self (vt, d, ic, cv)) = fit self,
          inf (resolved self (vt, d, ic, cv)) = inf self,
          vcov_of (resolved self (vt, d, ic, cv)) = PyNone &
          is_set (vcov_type (cov (resolved self (vt, d, ic, cv)))) /\
          is_set (G (cov (resolved self (vt, d, ic, cv))))] by [].
move: (resolved self (vt, d, ic, cv)) => s1 [<- <- <- ev [st sG]].
case: (if _is_iv (init s1) then _ else _) => [B|e'] //.
case: (deparse_crv_detail dep) => [->|->|[-> _]] /=.
- by move/vcov_iid_raise=> [-> -> -> -> [-> /(_ sG)]].
- by move/vcov_hetero_raise=> [-> -> -> -> [-> /(_ sG)]].
- by move/vcov_CRV_raise=> [-> -> -> -> [-> /(_ sG)]].
Qed.

(** X11.  A failure of [get_vcov] propagates to [get_inference]: called
    after a [get_vcov] that raised on a fitted object, [get_inference]
    raises ValueError (from [np.diagonal] of [None]), and it has by then
    assigned [None] to [_se], [_tstat], [_pvalue] and [conf_int], so an
    inference summary computed earlier is erased as well. *)
Theorem get_inference_after_failed_get_vcov (self : obj)
    (request : vcov_arg) (alpha : F) (e : exn) :
  fitted self -> (get_vcov request self).1 = Raise e ->
  let s' := (get_vcov request self).2 in
  get_inference alpha s'
  = (Raise ValueError,
     Obj (init s') (fit s') (cov s')
         (InferenceAttrs PyNone PyNone PyNone PyNone (F_stat (inf s')))).
Proof.
move=> fs re.
have [_ ef _ ev [st sG]] := get_vcov_raise_state fs re.
have [[sb _ _ _] _] := fittedP fs.
move: ef ev st sG; case: (get_vcov request self).2 => i ft c n /= ef.
rewrite /vcov_of /= => ev st sG.
rewrite /get_inference /bind /getattr /getattr_opt /= ev ef.
case: (beta_hat (fit self)) sb => [b|] //= _.
case: (vcov_type c) st => [||vt] //= _; by case: (G c) sG => [||g].
Qed.

End Failures.

(** ** Clustered covariances *)

Section Clusters.

Variable F : realFieldType.
Variable E : externals F.
Variables N k : nat.

Notation obj := (Feols E N k).

Lemma deparse_dict (key : string) (v : pyatom)
    (rest : seq (pyatom * pyatom)) (has_fixef is_iv : bool) :
  key \in [:: "CRV1"; "CRV3"] ->
  _deparse_vcov_input (VcovDict ((PStr key, v) :: rest)) has_fixef is_iv
  = Ok ("CRV", PAtom (PStr key), true, Some v).
Proof. by rewrite !inE => /orP[] /eqP->. Qed.

(** X12.  A missing value in the cluster column is answered with
    NanInClusterVarError, for CRV1 and for CRV3, for IV models and others
    alike, as soon as the bread can be computed: the request is resolved
    and recorded, but [G], [ssc] and [vcov] hold [None]. *)
Theorem get_vcov_cluster_nan (self : obj) (key name : string)
    (rest : seq (pyatom * pyatom)) (df : DataFrame N) (col : N.-tuple cell)
    (zx h : 'M[F]_k) (xz zzi : option 'M[F]_k) :
  fitted self ->
  tZX (fit self) = Some zx -> hessian (fit self) = Some h ->
  tXZ (fit self) = attr_of_option xz ->
  tZZinv (fit self) = attr_of_option zzi ->
  is_ok (if _is_iv (init self) then iv_bread xz zzi zx
         else np_linalg_inv h) ->
  key \in [:: "CRV1"; "CRV3"] ->
  _data (init self) = Some df -> getitem df name = Ok col ->
  isna_any col ->
  get_vcov (VcovDict ((PStr key, PStr name) :: rest)) self
  = (Raise NanInClusterVarError,
     resolved self ("CRV", PAtom (PStr key), true, Some (PStr name))).
Proof.
move=> fs ezx eh exz ezzi okb ik dt gi na.
have chk : _check_vcov_input (VcovDict ((PStr key, PStr name) :: rest))
             (_data (init self)) = Ok tt.
  by rewrite dt; apply: check_dict_ok => //; apply: getitem_columns gi.
have dep := deparse_dict (PStr name) rest (_has_fixef (init self))
              (_is_iv (init self)) ik.
have [zx' [zy] [zxi] [b] [yh] [u] [sc] [h'] [xz'] [zzi'] [ef ->]] :=
  get_vcov_dispatch fs chk dep.
move: ezx eh exz ezzi; rewrite ef /= => -[->] [->] exz ezzi.
have -> : xz' = xz by case: (xz') (xz) exz => [?|] [?|] //= [->].
have -> : zzi' = zzi by case: (zzi') (zzi) ezzi => [?|] [?|] //= [->].
case: (if _is_iv (init self) then _ else _) okb => [B|] //= _.
rewrite /vcov_CRV /bind /= /getattr_opt.
by case: (self) dt => i ft c n /= ->; rewrite /= gi /= na.
Qed.

(** X13.  The fast path of the CRV3 loop (lines 349-356): the coefficient
    of pass [ixg] solves the normal equations of the regression on the
    rows that the mask [np.equal(ixg, group)] does not select, whether or
    not their cross-product is invertible; when it is invertible, the
    coefficient is the least-squares coefficient of these rows. *)
Theorem beta_jack_fast_normal_equations (X : 'M[F]_(N, k)) (Y : 'cV[F]_N)
    (group : N.-tuple cell) (ixg : nat) :
  let Xr := rowsel (predC (np_equal ixg group)) X in
  let Yr := rowsel (predC (np_equal ixg group)) Y in
  Xr^T *m Xr *m beta_jack_fast X Y group ixg = Xr^T *m Yr /\
  (Xr^T *m Xr \in unitmx ->
   beta_jack_fast X Y group ixg = invmx (Xr^T *m Xr) *m (Xr^T *m Yr)).
Proof.
have e := loo_coef_normal_eq X Y group (LInt ixg%:Z).
split; first exact: e.
by move=> u; rewrite -[LHS](mulKmx u); congr (_ *m _); apply: e.
Qed.

(** A pass of the loop whose number is no label of the column leaves out
    nothing, and returns the full-sample coefficient. *)
Lemma beta_jack_fast_no_label (X : 'M[F]_(N, k)) (Y : 'cV[F]_N)
    (group : N.-tuple cell) (ixg : nat) :
  Some (LInt ixg%:Z) \notin group -> X^T *m X \in unitmx ->
  beta_jack_fast X Y group ixg = invmx (X^T *m X) *m (X^T *m Y).
Proof.
move=> ng u; rewrite /beta_jack_fast /= !rowsel_gram.
have p0 : np_equal ixg group =1 pred0.
  move=> i; rewrite /np_equal; apply/negbTE; apply: contra ng => /eqP <-.
  exact: mem_tnth.
by rewrite !(eq_bigl _ _ p0) !big_pred0_eq !subr0 np_linalg_pinv_unit.
Qed.

(** X14.  CRV3 on cluster labels that are not pass numbers.  When no label
    of the cluster column is one of the integers 0, ..., G-1 (string
    labels, or integer labels such as years), in a model without fixed
    effects fitted by [get_fit] on regressors of full column rank, every
    pass of the loop leaves out nothing, every jackknife coefficient is the
    full-sample coefficient, and the CRV3 covariance stored is the zero
    matrix. *)
Theorem get_vcov_CRV3_foreign_labels (self : obj) (name : string)
    (rest : seq (pyatom * pyatom)) (df : DataFrame N) (col : N.-tuple cell)
    (s : F) :
  let n_groups := size (factorize_uniques col) in
  let r := get_vcov (VcovDict ((PStr "CRV3", PStr name) :: rest))
                    (get_fit self).2 in
  Z (init self) = X (init self) -> \rank (X (init self)) = k ->
  _is_iv (init self) = false -> _has_fixef (init self) = false ->
  _support_crv3_inference (init self) ->
  _data (init self) = Some df -> getitem df name = Ok col ->
  ~~ isna_any col ->
  (forall ixg, (ixg < n_groups)%N -> Some (LInt ixg%:Z) \notin col) ->
  get_ssc (_ssc_dict (init self)) N k n_groups 1 "CRV" = Ok s ->
  [/\ r.1 = Ok tt, G (cov r.2) = Val n_groups & vcov_of r.2 = Val 0].
Proof.
move=> /= ZX rk ni nf sup dt gi nn foreign es.
have u := gram_unitmx rk.
have uz : (Z (init self))^T *m X (init self) \in unitmx by rewrite ZX.
have uzz : (Z (init self))^T *m Z (init self) \in unitmx by rewrite ZX.
rewrite (get_fit_unit uz) /=.
rewrite (get_vcov_CRV3E (cov self) (inf self) _ _ _ _ _ _ _ None None ni uzz
           rest dt gi nn es sup nf) /=.
split=> //; rewrite /vcov_of /=; congr Val.
rewrite /crv3_sum big_map big_seq big1 ?scaler0 // => ixg.
rewrite mem_iota /= add0n => lt.
by rewrite beta_jack_fast_no_label ?foreign // ZX subrr /np_outer mul0mx.
Qed.

End Clusters.

Section UniquesOfUniq.

Variable T : eqType.

Lemma uniques_acc_id (acc s : seq T) :
  uniq (acc ++ s) ->
  foldl (fun acc x => if x \in acc then acc else rcons acc x) acc s
  = acc ++ s.
Proof.
elim: s acc => [|x s IH] acc /=; first by rewrite cats0.
rewrite -cat_rcons => u; rewrite -IH //.
move: u; rewrite cat_uniq rcons_uniq => /and3P[/andP[/negbTE -> _] _ _].
by [].
Qed.

Lemma uniques_id (s : seq T) : uniq s -> uniques s = s.
Proof. by move=> u; rewrite /uniques uniques_acc_id. Qed.

End UniquesOfUniq.

Section Singletons.

Variable F : realFieldType.
Variables N k : nat.

(** X15.  CRV1 with every observation its own cluster is the
    heteroskedastic sandwich: when the cluster column has no missing value
    and no repeated label, the meat of lines 298-305 is S'S, where row i of
    S is Z_i times the (weighted) residual of observation i, the meat of
    the "hetero" branch for these scores. *)
Theorem crv1_meat_singleton_clusters (col : N.-tuple cell)
    (Z : 'M[F]_(N, k)) (wu : 'cV[F]_N) :
  let S : 'M[F]_(N, k) := \matrix_(i, j) (Z i j * wu i 0) in
  ~~ isna_any col -> uniq col ->
  crv1_meat (factorize_uniques col) col Z wu = S^T *m S.
Proof.
move=> S nn uc.
pose lab (i : 'I_N) := odflt (LInt 0) (tnth col i).
have ecol i : tnth col i = Some (lab i).
  rewrite /lab; move/hasPn: nn => /(_ _ (mem_tnth i col)).
  by rewrite negbK; case: (tnth col i).
have inj : injective lab.
  move=> i j e; apply: (tuple_uniqP _ uc).
  by rewrite !ecol e.
have els : pmap id col = [seq lab i | i <- enum 'I_N].
  rewrite -{1}(map_tnth_enum col) (eq_map ecol) (map_comp Some lab).
  exact: (@map_pK _ _ id Some).
have ul : uniq (pmap id col) by rewrite els (map_inj_uniq inj) enum_uniq.
rewrite /crv1_meat /factorize_uniques (uniques_id ul).
rewrite els big_map big_enum /= (gram_sum S S).
apply: eq_bigr => i _; rewrite !rowsel_gram.
have p1 : eq_label col (lab i) =1 pred1 i.
  by move=> j; rewrite /eq_label ecol /= (inj_eq Some_inj) (inj_eq inj).
rewrite !(eq_bigl _ _ p1) !big_pred1_eq.
apply/matrixP => a c; rewrite !mxE !big_ord1 !mxE !big_ord1 !mxE.
by [].
Qed.

End Singletons.

Section OneCluster.

Variable F : realFieldType.
Variable E : externals F.
Variables N k : nat.

Notation obj := (Feols E N k).

Lemma uniques_nseq (T : eqType) (n : nat) (x : T) :
  uniques (nseq n.+1 x) = [:: x].
Proof.
rewrite /uniques /=.
by elim: n => //= n IH; rewrite mem_head.
Qed.

(** The residuals of a least-squares fit are orthogonal to the
    regressors. *)
Lemma ols_orthogonal (X : 'M[F]_(N, k)) (Y : 'cV[F]_N) :
  X^T *m X \in unitmx ->
  X^T *m (Y - X *m (invmx (X^T *m X) *m (X^T *m Y))) = 0.
Proof. by move=> u; rewrite mulmxBr !mulmxA mulmxV // mul1mx subrr. Qed.

(** X16.  One cluster, no variance.  When all observations carry the same
    cluster label and the weights are constant, the CRV1 covariance of a
    least-squares fit (Z = X of full column rank) is the zero matrix, with
    [G] = 1: the score of the only cluster is X'u = 0. *)
Theorem get_vcov_CRV1_single_cluster (self : obj) (name : string)
    (rest : seq (pyatom * pyatom)) (df : DataFrame N) (col : N.-tuple cell)
    (g : label) (a : ndarray F) (c s : F) :
  let r := get_vcov (VcovDict ((PStr "CRV1", PStr name) :: rest))
                    (get_fit self).2 in
  Z (init self) = X (init self) -> \rank (X (init self)) = k ->
  _is_iv (init self) = false -> (0 < N)%N ->
  _data (init self) = Some df -> getitem df name = Ok col ->
  (forall i, tnth col i = Some g) ->
  weights (init self) = PyArray a -> flatten a = nseq N c ->
  get_ssc (_ssc_dict (init self)) N k 1 1 "CRV" = Ok s ->
  [/\ r.1 = Ok tt, G (cov r.2) = Val 1%N & vcov_of r.2 = Val 0].
Proof.
move=> /= ZX rk ni N0 dt gi allg ew ea es.
have u := gram_unitmx rk.
have uz : (Z (init self))^T *m X (init self) \in unitmx by rewrite ZX.
have uzz : (Z (init self))^T *m Z (init self) \in unitmx by rewrite ZX.
have ecol : tval col = nseq N (Some g).
  apply: (@eq_from_nth _ None); rewrite size_tuple ?size_nseq // => i lt.
  by rewrite nth_nseq lt -(allg (Ordinal lt)) (tnth_nth None).
have nn : ~~ isna_any col.
  by apply/hasPn => x; rewrite ecol mem_nseq => /andP[_ /eqP->].
have eg : factorize_uniques col = [:: g].
  rewrite /factorize_uniques ecol.
  have -> : pmap id (nseq N (Some g)) = nseq N g.
    by elim: (N) => //= n ->.
  by case: (N) N0 => // n _; rewrite uniques_nseq.
have sz : size (flatten a) = N by rewrite ea size_nseq.
have es' : get_ssc (_ssc_dict (init self)) N k
             (size (factorize_uniques col)) 1 "CRV" = Ok s by rewrite eg.
rewrite (get_vcov_CRV1_weights rest ew sz ni uz uzz dt gi nn es') /= eg /=.
split=> //; rewrite /vcov_of /=; congr Val.
rewrite /crv1_meat big_seq1 /= rowsel_gram.
have pT : eq_label col g =1 predT.
  by move=> i; rewrite /eq_label allg eqxx.
rewrite (eq_bigl _ _ pT) -gram_sum.
set wu := (\col_i _ : 'cV[F]_N).
have -> : wu = c *: (Y (init self) - X (init self)
                 *m (invmx ((Z (init self))^T *m X (init self))
                     *m ((Z (init self))^T *m Y (init self)))).
  by apply/matrixP => i j; rewrite !mxE ea nth_nseq ltn_ord !ord1.
by rewrite ZX -scalemxAr ols_orthogonal // scaler0 mul0mx mulmx0 mul0mx.
Qed.

(** X17.  The length of the weights is checked by no one but numpy, and
    only in CRV1: when [weights] has neither N elements nor one, a CRV1
    request raises ValueError (from the product with the residuals, lines
    292-294) after [G] and [ssc] have been assigned; [vcov] holds
    [None]. *)
Theorem get_vcov_CRV1_weights_length (self : obj) (name : string)
    (rest : seq (pyatom * pyatom)) (df : DataFrame N) (col : N.-tuple cell)
    (a : ndarray F) (h : 'M[F]_k) (s : F) :
  let n_groups := size (factorize_uniques col) in
  let r := get_vcov (VcovDict ((PStr "CRV1", PStr name) :: rest)) self in
  fitted self -> _is_iv (init self) = false ->
  hessian (fit self) = Some h -> h \in unitmx ->
  _data (init self) = Some df -> getitem df name = Ok col ->
  ~~ isna_any col ->
  get_ssc (_ssc_dict (init self)) N k n_groups 1 "CRV" = Ok s ->
  weights (init self) = PyArray a ->
  size (flatten a) != N -> size (flatten a) != 1%N ->
  [/\ r.1 = Raise ValueError, G (cov r.2) = Val n_groups,
      ssc (cov r.2) = Val s & vcov_of r.2 = PyNone].
Proof.
move=> /= fs ni eh uh dt gi nn es ew /negbTE szN /negbTE sz1.
have chk : _check_vcov_input (VcovDict ((PStr "CRV1", PStr name) :: rest))
             (_data (init self)) = Ok tt.
  by rewrite dt; apply: check_dict_ok => //; apply: getitem_columns gi.
have dep : _deparse_vcov_input (VcovDict ((PStr "CRV1", PStr name) :: rest))
             (_has_fixef (init self)) (_is_iv (init self))
           = Ok ("CRV", PAtom (PStr "CRV1"), true, Some (PStr name)) by [].
have [zx' [zy] [zxi] [b] [yh] [u] [sc] [h'] [xz'] [zzi'] [ef ->]] :=
  get_vcov_dispatch fs chk dep.
move: eh; rewrite ef ni /= => -[->]; rewrite /np_linalg_inv uh /=.
rewrite /vcov_CRV /bind /= /getattr_opt.
case: (self) dt es ew => i ft c0 n /= -> es ->.
by rewrite /= gi /= (negbTE nn) /= es /= /broadcast_mul szN sz1.
Qed.

End OneCluster.

Section Invariance.

Variable F : realFieldType.
Variables N k : nat.

(** X30.  The CRV1 meat depends on the clustering only: it is the same
    when the cluster labels are renamed one-to-one and the observations
    (cluster column, instruments and weighted residuals together) are put
    in another order. *)
Theorem crv1_meat_invariant (f : label -> label) (s : 'S_N)
    (col : N.-tuple cell) (Z : 'M[F]_(N, k)) (wu : 'cV[F]_N) :
  injective f ->
  let col' := relabel f (reorder s col) in
  crv1_meat (factorize_uniques col') col' (row_perm s Z) (row_perm s wu)
  = crv1_meat (factorize_uniques col) col Z wu.
Proof. by move=> inj /=; rewrite crv1_meat_relabel // crv1_meat_reorder. Qed.

End Invariance.

(** ** [get_inference] and [get_Ftest] *)

Section Summary.

Variable F : realFieldType.
Variable E : externals F.
Variables N k : nat.

Notation obj := (Feols E N k).

(** X18.  The confidence interval brackets the estimate.  Whenever
    [get_inference] returns, and [np.sqrt] returns no negative number, the
    stored standard errors are not negative and, for every coefficient, the
    lower bound of [conf_int] is at most the estimate, the upper bound is at
    least the estimate, and the estimate is the midpoint of the two. *)
Theorem conf_int_brackets (self : obj) (alpha : F) :
  (forall x, 0 <= np_sqrt E x) ->
  (get_inference alpha self).1 = Ok tt ->
  let self' := (get_inference alpha self).2 in
  exists beta se ci,
    [/\ beta_hat (fit self') = Some beta, _se (inf self') = Val se,
        conf_int (inf self') = Val ci &
        forall j, [/\ 0 <= se j 0, ci 0 j <= beta j 0 <= ci 1 j &
                      ci 0 j + ci 1 j = 2 * beta j 0]].
Proof.
move=> sq0; case: self => i ft c n.
rewrite /get_inference /bind /getattr /getattr_opt /=.
case: (vcov c) => [||V] //=; case eb: (beta_hat ft) => [b|] //=;
  case: (vcov_type c) => [||vt] //=; case: (G c) => [||g] //=.
all: try (case: (vt \in _) => //=).
all: move=> _; exists b; eexists; eexists; split; [by []|reflexivity..|] => j.
all: rewrite !mxE /=; case: ifP => _ /=.
all: have z0 := mulr_ge0 (normr_ge0 _) (sq0 (V j j)).
all: split=> //; first by rewrite lerBlDr !lerDl z0.
all: by rewrite addrACA addNr addr0 -mulr2n -mulr_natl.
Qed.

Lemma ones_quadratic (V : 'M[F]_k) :
  (const_mx 1 : 'rV[F]_k) *m V *m (const_mx 1 : 'rV[F]_k)^T
  = (\sum_i \sum_j V i j)%:M.
Proof.
apply/matrixP => a c; rewrite !ord1 !mxE eqxx mulr1n exchange_big /=.
apply: eq_bigr => j _; rewrite !mxE mulr1.
by apply: eq_bigr => i _; rewrite !mxE mul1r.
Qed.

Lemma ones_sum (beta : 'cV[F]_k) :
  (const_mx 1 : 'rV[F]_k) *m beta - 0 = (\sum_i beta i 0)%:M.
Proof.
rewrite subr0; apply/matrixP => a c; rewrite !ord1 !mxE eqxx mulr1n.
by apply: eq_bigr => i _; rewrite !mxE mul1r.
Qed.

(** X19.  The F statistic of a model that is not an IV model tests that the
    coefficients sum to zero: it is the square of the sum of the
    coefficients divided by the sum of all entries of [self.vcov].  The
    argument [vcov] is not used, and when the entries of [self.vcov] sum to
    zero [get_Ftest] raises LinAlgError and assigns nothing. *)
Theorem get_Ftest_sum_of_coefficients (self : obj) (request : vcov_arg)
    (V : 'M[F]_k) (beta : 'cV[F]_k) :
  let total := \sum_i \sum_j V i j in
  _is_iv (init self) = false ->
  vcov_of self = Val V -> beta_hat (fit self) = Some beta ->
  get_Ftest request self
  = if total == 0 then (Raise LinAlgError, self)
    else (Ok tt,
          Obj (init self) (fit self) (cov self)
              (set_F_stat (Val ((\sum_i beta i 0) ^+ 2 / total))
                          (inf self))).
Proof.
case: self => i ft c n /=; rewrite /vcov_of /= => ni eV eb.
rewrite /get_Ftest /Ftest_vcov /bind /getattr /getattr_opt /vcov_of /=.
rewrite eb ni /= eV /= eV /= ones_quadratic /np_linalg_inv scalar_unitmx.
case: eqP => //= _.
rewrite ones_sum invmx_scalar -!scalar_mxM /assign_inf /modify /=.
congr (_, Obj _ _ _ _).
by rewrite /set_F_stat /= !mxE eqxx mulr1n expr2 mulrAC.
Qed.

(** Without a data frame only a string request can be answered. *)
Lemma get_vcov_no_data (self : obj) (request : vcov_arg) :
  fitted self -> _data (init self) = None ->
  is_ok (get_vcov request self).1 ->
  exists2 s, request = VcovStr s
           & s \in [:: "iid"; "hetero"; "HC1"; "HC2"; "HC3"].
Proof.
move=> fs dn.
case chk: (_check_vcov_input request (_data (init self))) => [[]|e];
  last by rewrite (get_vcov_check_raise fs chk).
case: request chk => [s|items|l|]; rewrite dn.
- rewrite /_check_vcov_input /assert /=.
  by case es: (s \in _) => // _ _; exists s.
- rewrite /_check_vcov_input /assert /=.
  case: items => [|[[key|] [v|]] rest] //=;
    by case: (key \in _).
- by move=> _; have [e ->] := get_vcov_list_raises l fs.
- by [].
Qed.

(** X20.  The F-test of an IV model can only be asked for with a string.
    The first stage that [get_Ftest] fits is a new object without a data
    frame, so a request that names a cluster variable (a dict) fails on it,
    as does a list: whenever [get_Ftest] returns on an IV model, the request
    was one of "iid", "hetero", "HC1", "HC2", "HC3". *)
Theorem get_Ftest_iv_string_request (self : obj) (request : vcov_arg) :
  _is_iv (init self) -> is_ok (get_Ftest request self).1 ->
  exists2 s, request = VcovStr s
           & s \in [:: "iid"; "hetero"; "HC1"; "HC2"; "HC3"].
Proof.
move=> iv; rewrite /get_Ftest /bind /getattr.
case: (beta_hat (fit self)) => [b|] //.
rewrite /Ftest_vcov /bind /= iv /Feols_init /=.
set fs0 := Obj _ _ _ _.
rewrite /call_on.
case: (boolP ((Z (init fs0))^T *m X (init fs0) \in unitmx)) => [u|nu];
  last by rewrite (get_fit_singular nu).
rewrite (get_fit_unit u) /=.
set fs1 := Obj _ _ _ _.
have f1 : fitted fs1 by [].
have d1 : _data (init fs1) = None by [].
have := get_vcov_no_data (request := request) f1 d1.
by case: (get_vcov request fs1) => [[[]|e] s'] //= /(_ isT).
Qed.

End Summary.

(** ** [get_performance] *)

Section Performance.

Variable F : realFieldType.
Variable E : externals F.
Variables N k : nat.

Notation obj := (FeolsObj E N k).

(** What [get_performance] assigns. *)
Lemma get_performance_eval (self : obj) (u : 'cV[F]_N) :
  let ssu := \sum_i u i 0 ^+ 2 in
  let ssy := sum_sq_dev (Y (init (core self))) in
  let r := 1 - ssu / ssy in
  let adj := 1 - (1 - r) * (N%:R - 1) / (N%:R - k%:R - 1) in
  u_hat (fit (core self)) = Some u ->
  get_performance self
  = (Ok tt,
     Self (core self)
          (ReportAttrs (_coefnames (more self))
                       (Val (np_sqrt E (ssu / N%:R))) (Val r) (Val r)
                       (Val adj) (Val adj))
          (fe self)).
Proof.
by move=> /= eu; rewrite /get_performance /bind /getattr_of /= eu.
Qed.

(** The residuals of a least-squares fit are at least as short as the
    deviations of Y from any constant, when the constant vector is a
    combination of the regressors. *)
Lemma ssu_le_ssy (X : 'M[F]_(N, k)) (Y : 'cV[F]_N) (c : 'cV[F]_k) (m : F) :
  X^T *m X \in unitmx -> X *m c = const_mx 1 ->
  let u := Y - X *m (invmx (X^T *m X) *m (X^T *m Y)) in
  \sum_i u i 0 ^+ 2 <= \sum_i (Y i 0 - m) ^+ 2.
Proof.
move=> uX eX /=.
set b := invmx _ *m _; set u := Y - X *m b.
pose w := X *m (b - m *: c).
have ev i : Y i 0 - m = w i 0 + u i 0.
  have -> : w = X *m b - m *: const_mx 1.
    by rewrite /w mulmxBr -scalemxAr eX.
  by rewrite /u !mxE; ring.
have wu0 : \sum_i w i 0 * u i 0 = 0.
  have e0 : w^T *m u = 0.
    by rewrite /w trmx_mul -mulmxA /u /b ols_orthogonal // mulmx0.
  have : (w^T *m u) 0 0 = 0 by rewrite e0 mxE.
  rewrite [LHS]mxE => e; rewrite -[RHS]e.
  by apply: eq_bigr => i _; rewrite [in RHS]mxE.
under [leRHS]eq_bigr do rewrite ev sqrrD.
rewrite !big_split /= wu0 !addr0 lerDr.
by apply: sumr_ge0 => i _; rewrite sqr_ge0.
Qed.

Lemma sum_sq_dev_ge0 (y : 'cV[F]_N) : 0 <= sum_sq_dev y.
Proof. by apply: sumr_ge0 => i _; rewrite sqr_ge0. Qed.

Lemma ssu_ge0 (u : 'cV[F]_N) : 0 <= \sum_i u i 0 ^+ 2.
Proof. by apply: sumr_ge0 => i _; rewrite sqr_ge0. Qed.

(** X21.  R squared lies between 0 and 1 for a least-squares fit with an
    intercept.  When the instruments are the regressors, X has full column
    rank, the constant vector is a combination of the columns of X (X has,
    for one, a column of ones) and Y is not constant, then after [get_fit]
    [get_performance] returns and the [r2] it stores satisfies
    0 <= r2 <= 1. *)
Theorem get_performance_r2_bounds (self : obj) (c : 'cV[F]_k) :
  let X := X (init (core self)) in
  let Y := Y (init (core self)) in
  Z (init (core self)) = X -> \rank X = k -> X *m c = const_mx 1 ->
  sum_sq_dev Y != 0 ->
  let fitted_self := (on_core (@get_fit _ E N k) self).2 in
  exists rho,
    [/\ (get_performance fitted_self).1 = Ok tt,
        r2 (more (get_performance fitted_self).2) = Val rho &
        0 <= rho <= 1].
Proof.
move=> /= ZX rk eX y0.
have uX := gram_unitmx rk.
have uz : (Z (init (core self)))^T *m X (init (core self)) \in unitmx.
  by rewrite ZX.
rewrite /on_core (get_fit_unit uz) [(_, _).2]/=.
set u := (Y (init (core self)) - _).
set s1 := Self _ _ _.
rewrite (@get_performance_eval s1 u) //=.
eexists; split; [reflexivity..|].
have ypos : 0 < sum_sq_dev (Y (init (core self))).
  by rewrite lt_def y0 sum_sq_dev_ge0.
rewrite subr_ge0 ler_pdivrMr // mul1r lerBlDr lerDl.
rewrite divr_ge0 ?ssu_ge0 ?sum_sq_dev_ge0 // andbT.
by rewrite /u ZX; apply: ssu_le_ssy eX.
Qed.

(** X22.  [get_performance] computes the "within" measures from the same
    Y as the others: [r2_within] equals [r2] and [adj_r2_within] equals
    [adj_r2].  When Y is not constant and N > k + 1, the adjusted R squared
    is at most R squared, which is at most 1. *)
Theorem get_performance_adjusted (self : obj) (u : 'cV[F]_N) :
  u_hat (fit (core self)) = Some u ->
  sum_sq_dev (Y (init (core self))) != 0 -> (k.+1 < N)%N ->
  let self' := (get_performance self).2 in
  exists rho adj,
    [/\ r2 (more self') = Val rho /\ r2_within (more self') = Val rho,
        adj_r2 (more self') = Val adj /\
        adj_r2_within (more self') = Val adj &
        adj <= rho <= 1].
Proof.
move=> eu y0 kN /=; rewrite (get_performance_eval eu) /=.
eexists; eexists; split; [split; reflexivity..|].
set ssu := \sum_i _; set ssy := sum_sq_dev _.
have q0 : 0 <= ssu / ssy by rewrite divr_ge0 ?ssu_ge0 ?sum_sq_dev_ge0.
have kN' : k%:R + 1 < N%:R :> F by rewrite natr1 ltr_nat.
have k0 : 0 <= k%:R :> F by rewrite ler0n.
have d0 : 0 < N%:R - k%:R - 1 :> F by lra.
have dle : N%:R - k%:R - 1 <= N%:R - 1 :> F by lra.
have -> : 1 - (1 - ssu / ssy) = ssu / ssy by ring.
apply/andP; split; last by lra.
rewrite lerD2l lerN2 ler_pdivlMr //.
exact: ler_wpM2l.
Qed.

(** X23.  An exact fit has R squared 1.  When Y = X b for a matrix X of
    full column rank (and Z = X), Y is not constant and N is not k + 1,
    then after [get_fit] [get_performance] stores [r2] = 1, [adj_r2] = 1
    and the square root of 0 as [rmse]. *)
Theorem get_performance_exact_fit (self : obj) (b : 'cV[F]_k) :
  let X := X (init (core self)) in
  let Y := Y (init (core self)) in
  Z (init (core self)) = X -> \rank X = k -> Y = X *m b ->
  sum_sq_dev Y != 0 -> N != k.+1 ->
  let self' := (get_performance (on_core (@get_fit _ E N k) self).2).2 in
  [/\ r2 (more self') = Val 1, adj_r2 (more self') = Val 1 &
      rmse (more self') = Val (np_sqrt E 0)].
Proof.
move=> /= ZX rk eY y0 Nk.
rewrite /on_core (get_fit_exact ZX rk eY) [(_, _).2]/=.
set s1 := Self _ _ _.
rewrite (@get_performance_eval s1 0) //=.
have -> : \sum_(i < N) (0 : 'cV[F]_N) i 0 ^+ 2 = 0.
  by apply: big1 => i _; rewrite mxE expr0n.
rewrite !mul0r subr0; split=> //.
by congr Val; rewrite subrr !mul0r subr0.
Qed.

End Performance.

(** ** [predict] and [resid] *)

Section Strings.

(** Splitting gives one piece more than the separator has occurrences. *)
Lemma size_split_from (sep : string) (skip : nat) (cur s : string) :
  size (split_from sep skip cur s) = (count_from sep skip s).+1.
Proof.
elim: s skip cur => [|d s IH] [|n] cur //=.
by case: ifP => _ /=; rewrite IH.
Qed.

Lemma size_str_split (s sep : string) :
  size (str_split s sep) = (str_count s sep).+1.
Proof. exact: size_split_from. Qed.

End Strings.

Section Predict.

Variable F : realFieldType.
Variable E : externals F.
Variables N k : nat.

Notation obj := (FeolsObj E N k).

(** X24.  What [predict] rejects.  On an object that is not fitted it
    raises AttributeError, whatever its arguments (the attributes are read
    first).  On a fitted object a [type] other than "response" and "link"
    raises ValueError; and with new data, a formula that does not contain
    exactly one "|" (a model without fixed effects, for one) raises
    ValueError when it is unpacked, before [model_matrix] is called.  The
    object is unchanged in each case. *)
Theorem predict_rejects (self : obj) (model_matrix : model_matrix_type F)
    M' (data : option (DataFrame M')) (type : pyatom) :
  let r := predict model_matrix data type self in
  [/\ u_hat (fit (core self)) = None \/ beta_hat (fit (core self)) = None ->
      r = (Raise AttributeError, self),
      isSome (u_hat (fit (core self))) ->
      isSome (beta_hat (fit (core self))) ->
      ~~ atom_in type [:: "response"; "link"] ->
      r = (Raise ValueError, self) &
      forall fml,
        isSome (u_hat (fit (core self))) ->
        isSome (beta_hat (fit (core self))) ->
        isSome data -> _fml (init (core self)) = Some fml ->
        str_count fml "|" != 1%N ->
        r = (Raise ValueError, self)].
Proof.
rewrite /predict /bind /getattr_of /=.
case: (u_hat (fit (core self))) => [u|]; last first.
  by split=> // [[]|].
case: (beta_hat (fit (core self))) => [b|]; last by split=> // [[]|].
split=> [[]|_ _ /negbTE ->|fml _ _] //=.
case: data => [data|] // _ -> n1; case: ifP => //= _.
have : size (str_split fml "|") != 2%N by rewrite size_str_split eqSS.
by case: (str_split fml "|") => [|x [|y [|z l]]].
Qed.

(** X25.  On the data of the fit, [predict] returns the fitted values.
    After [get_fit] (Z = X of full column rank), when the text of the
    formula before its first "~" names a column of [_data] that holds Y (as
    integers), [predict()] returns X beta_hat, for [type] "link" and
    "response" alike; it is computed as the column minus the residuals, so
    that [predict()] and [resid()] add up to the column.  The object is
    unchanged. *)
Theorem predict_training_data (self : obj)
    (model_matrix : model_matrix_type F) (type : pyatom)
    (fml depvar : string) (rest : seq string) (df : DataFrame N)
    (col : N.-tuple cell) (y : 'I_N -> int) :
  let X := X (init (core self)) in
  let Y := Y (init (core self)) in
  let beta := invmx (X^T *m X) *m (X^T *m Y) in
  let fitted_self := (on_core (@get_fit _ E N k) self).2 in
  Z (init (core self)) = X -> \rank X = k ->
  atom_in type [:: "response"; "link"] ->
  _fml (init (core self)) = Some fml ->
  str_split fml "~" = depvar :: rest ->
  _data (init (core self)) = Some df -> getitem df depvar = Ok col ->
  (forall i, tnth col i = Some (LInt (y i)) /\ Y i 0 = (y i)%:~R) ->
  predict model_matrix (@None (DataFrame 0)) type fitted_self
  = (Ok [seq Some ((X *m beta) i 0) | i <- enum 'I_N], fitted_self) /\
  resid fitted_self = (Ok (Y - X *m beta), fitted_self).
Proof.
move=> /= ZX rk ty ef es ed eg ey.
have uX := gram_unitmx rk.
have uz : (Z (init (core self)))^T *m X (init (core self)) \in unitmx.
  by rewrite ZX.
rewrite /on_core (get_fit_unit uz) [(_, _).2]/= ZX.
split; last by rewrite /resid /getattr_of.
rewrite /predict /bind /getattr_of /= ty /= ef /= es /= ed /= eg /=.
rewrite /column_minus.
have -> : has (fun c : cell => if c is Some (LStr _) then true else false)
              col = false.
  apply/negbTE/hasPn => c /tnthP[i ->].
  by rewrite (ey i).1.
congr (Ok _, _); apply: eq_map => i.
by rewrite (ey i).1 -(ey i).2 !mxE; congr Some; ring.
Qed.

End Predict.

(** ** [tidy] and the accessors *)

Section Tidy.

Variable F : realFieldType.
Variable E : externals F.
Variables N k : nat.

Notation obj := (FeolsObj E N k).

Lemma tidy_column_raise T (f : tidy_row F -> T) (self : obj) (e : exn) :
  tidy self = (Raise e, self) -> tidy_column f self = (Raise e, self).
Proof. by rewrite /tidy_column /bind => ->. Qed.

(** X26.  The accessors need [get_inference].  On an object on which
    [get_inference] has not run ([_se] is not assigned), [tidy], [coef],
    [se], [tstat], [pvalue] and [confint] all raise AttributeError, also
    [coef], although the coefficients are there once [get_fit] has run. *)
Theorem accessors_need_inference (self : obj) :
  _se (inf (core self)) = Unset ->
  [/\ tidy self = (Raise AttributeError, self),
      coef self = (Raise AttributeError, self),
      se self = (Raise AttributeError, self) &
      [/\ tstat self = (Raise AttributeError, self),
          pvalue self = (Raise AttributeError, self) &
          confint self = (Raise AttributeError, self)]].
Proof.
move=> ese.
have et : tidy self = (Raise AttributeError, self).
  by rewrite /tidy /bind /getattr_opt_of /= ese.
by split=> //; [| |split]; apply: tidy_column_raise.
Qed.

(** What a successful [get_inference] leaves. *)
Lemma get_inference_inv (s : Feols E N k) (alpha : F) :
  (get_inference alpha s).1 = Ok tt ->
  exists V b t p ci,
    [/\ vcov_of s = Val V, beta_hat (fit s) = Some b &
        (get_inference alpha s).2
        = Obj (init s) (fit s) (cov s)
              (InferenceAttrs (Val (\col_i np_sqrt E (V i i))) (Val t)
                              (Val p) (Val ci) (F_stat (inf s)))].
Proof.
case: s => i ft c n.
rewrite /get_inference /bind /getattr /getattr_opt /vcov_of /=.
case: (vcov c) => [||V] //=; case eb: (beta_hat ft) => [b|] //=;
  case: (vcov_type c) => [||vt] //=; case: (G c) => [||g] //=.
all: try (case: (vt \in _) => //=).
all: by move=> _; exists V, b; eexists; eexists; eexists; split.
Qed.

(** X27.  The accessors after [get_inference].  Once [get_inference] has
    returned, and [_coefnames] holds a list of k names, [coef()] pairs the
    j-th name with the j-th coefficient and [se()] pairs it with the square
    root of the j-th diagonal entry of [self.vcov]; the object is unchanged.
    A list of names of any other length makes every accessor raise
    ValueError. *)
Theorem accessors_after_inference (self : obj) (alpha : F)
    (names : seq string) :
  _coefnames (more self) = Some names ->
  (on_core (get_inference alpha) self).1 = Ok tt ->
  let self' := (on_core (get_inference alpha) self).2 in
  exists V beta,
    [/\ vcov_of (core self) = Val V,
        beta_hat (fit (core self)) = Some beta,
        size names = k ->
        coef self'
        = (Ok (map (fun j : 'I_k => (Some (nth EmptyString names j),
                                     beta j 0)) (enum 'I_k)), self') /\
        se self'
        = (Ok (map (fun j : 'I_k => (Some (nth EmptyString names j),
                                     Some (np_sqrt E (V j j))))
                   (enum 'I_k)), self') &
        size names != k ->
        [/\ tidy self' = (Raise ValueError, self'),
            coef self' = (Raise ValueError, self') &
            se self' = (Raise ValueError, self')]].
Proof.
move=> en; rewrite /on_core /= => ok.
have [V [b] [t] [p] [ci] [eV eb ->]] := get_inference_inv ok.
exists V, b; split=> //.
- move=> sz; rewrite /coef /se /tidy_column /tidy /bind /getattr_opt_of
                     /getattr_of /= eb /= en /tidy_frame sz eqxx /=.
  rewrite -!map_comp; split; congr (Ok _, _); apply: eq_map => j /=;
    by rewrite ?mxE.
- move=> /negbTE sz.
  have et : tidy (Self (Obj (init (core self)) (fit (core self))
                            (cov (core self))
                            (InferenceAttrs
                               (Val (\col_i np_sqrt E (V i i))) (Val t)
                               (Val p) (Val ci) (F_stat (inf (core self)))))
                       (more self) (fe self))
            = (Raise ValueError,
               Self (Obj (init (core self)) (fit (core self))
                         (cov (core self))
                         (InferenceAttrs
                            (Val (\col_i np_sqrt E (V i i))) (Val t)
                            (Val p) (Val ci) (F_stat (inf (core self)))))
                    (more self) (fe self)).
    by rewrite /tidy /bind /getattr_opt_of /getattr_of /= eb /= en
               /tidy_frame sz.
  by split=> //; apply: tidy_column_raise.
Qed.

End Tidy.

(** ** [fixef] *)

Section Fixef.

Variable F : realFieldType.
Variable E : externals F.
Variables N k : nat.

Notation obj := (FeolsObj E N k).

Variable model_matrix : model_matrix_type F.
Variable model_matrix_rhs : model_matrix_rhs_type F.
Variable spsolve : spsolve_type F.

(** X28.  What [fixef] rejects, whatever the libraries do.  A model without
    fixed effects is answered with ValueError, before anything else is
    looked at; a model with fixed effects that is an IV model or a Poisson
    model with NotImplementedError; and a formula that does not contain
    exactly one "~" with ValueError, when it is unpacked.  The object is
    unchanged in each case. *)
Theorem fixef_rejects (self : obj) :
  let r := fixef model_matrix model_matrix_rhs spsolve self in
  [/\ ~~ _has_fixef (init (core self)) -> r = (Raise ValueError, self),
      _has_fixef (init (core self)) ->
      _is_iv (init (core self)) || (_method (init (core self)) == "fepois")
      -> r = (Raise NotImplementedError, self) &
      forall fml,
        _has_fixef (init (core self)) -> ~~ _is_iv (init (core self)) ->
        _method (init (core self)) != "fepois" ->
        _fml (init (core self)) = Some fml -> str_count fml "~" != 1%N ->
        r = (Raise ValueError, self)].
Proof.
rewrite /fixef /bind /=; split.
- by move=> ->.
- by move=> -> /=; case: (_is_iv _) => //= ->.
- move=> fml -> /negbTE -> /negbTE -> -> /= n1.
  have : size (str_split fml "~") != 2%N by rewrite size_str_split eqSS.
  by case: (str_split fml "~") => [|x [|y [|z l]]].
Qed.

(** The keys of a dict after an assignment. *)
Lemma dict_set_keys T (d : seq (string * T)) (x : string) (v : T) :
  [seq kv.1 | kv <- dict_set d x v]
  =i x :: [seq kv.1 | kv <- d].
Proof.
rewrite /dict_set; case: ifP => [xd|_] y.
  rewrite inE -map_comp.
  have -> : [seq (if kv.1 == x then (x, v) else kv).1 | kv <- d]
            = [seq kv.1 | kv <- d].
    by apply: eq_map => kv /=; case: eqP.
  by case: eqP => [->|] //=; rewrite xd.
by rewrite map_rcons mem_rcons.
Qed.

Lemma dict_set_empty (d : seq (string * fe_table F)) (x : string) :
  all (fun t => t.2 == [::]) d ->
  all (fun t => t.2 == [::]) (dict_set d x [::]).
Proof.
rewrite /dict_set; case: ifP => _ ad; last by rewrite all_rcons /= ad.
rewrite all_map; apply: sub_all ad => kv /=.
by case: (kv.1 == x).
Qed.

(** The loop of lines 629-638, when it returns: every name it passes is a
    key afterwards, and when no entry of [var] is "group" (ki = 0) the
    tables it assigns are empty. *)
Lemma fixef_loop_ok ki level alpha ki_start xs (s : obj) d :
  fixef_dict (fe s) = Val d ->
  (fixef_loop ki level alpha ki_start xs s).1 = Ok tt ->
  exists d',
    [/\ fixef_dict (fe (fixef_loop ki level alpha ki_start xs s).2) = Val d',
        {subset xs <= [seq kv.1 | kv <- d']},
        {subset [seq kv.1 | kv <- d] <= [seq kv.1 | kv <- d']} &
        ki = 0%N -> all (fun t => t.2 == [::]) d ->
        all (fun t => t.2 == [::]) d'].
Proof.
elim: xs ki_start s d => [|x xs IH] ki_start s d ed /=.
  by move=> _; exists d; split.
rewrite /bind /= /getattr_opt_of.
case elv: (level_value _ _) => [t|] //=; rewrite ed /=.
set s1 := Self _ _ _.
have ed1 : fixef_dict (fe s1) = Val (dict_set d x t) by [].
move=> ok; have [d' [-> sx sd emp]] := IH ki s1 _ ed1 ok.
exists d'; split=> //.
- move=> y; rewrite inE => /orP[/eqP->|/sx //].
  by apply: sd; rewrite dict_set_keys mem_head.
- by move=> y yd; apply: sd; rewrite dict_set_keys inE yd orbT.
- move=> k0 ad; apply: emp => //.
  move: elv; rewrite k0 /slice add0n subnn !take0 /level_value /= => -[<-].
  exact: dict_set_empty.
Qed.

(** X29.  The tables of [fixef_dict].  Whenever [fixef] returns, it has
    assigned a dict to [fixef_dict], and unless one of its keys (the names
    of the fixed-effect variables) is "group", every table in it is empty:
    the number of levels of each variable is counted as the number of
    entries of [var] equal to the literal "group" (line 630). *)
Theorem fixef_tables_empty_unless_group (self : obj) :
  let r := fixef model_matrix model_matrix_rhs spsolve self in
  r.1 = Ok tt ->
  exists tables,
    fixef_dict (fe r.2) = Val tables /\
    ("group" \notin [seq t.1 | t <- tables] ->
     all (fun t => t.2 == [::]) tables).
Proof.
rewrite /fixef /bind /=.
case: ifP => //= _; case: ifP => //= _; case: ifP => //= _.
case: (_fml _) => [fml|] //=.
case: (unpack2 (str_split fml "~")) => [[depvars res]|] //=.
case: (unpack2 (str_split res "|")) => [[covars fixef_vars]|] //=.
case: (_data _) => [df|] //=.
case: (to_categorical _ _) => [[]|] //=.
case: (model_matrix _ _) => [[Y X0]|] //=.
case: (drop_Intercept _) => [X|] //=.
rewrite /getattr_of /=; case: (beta_hat _) => [b|] //=.
case: (design_matmul _ _) => [Xb|] //=.
case: (np_sub _ _) => [uhat|] //=.
case: (model_matrix_rhs _ _) => [D2|] //=.
case: ifP => //= _.
case: (spsolve _ _) => [alpha|] //=.
case: (var_levels _) => [[var level]|] //=.
set s1 := Self _ _ _.
have ed1 : fixef_dict (fe s1) = Val [::] by [].
set lp := fixef_loop _ _ _ _ _ _.
case elp: lp => [[[]|e] s2] //= _.
have ok : lp.1 = Ok tt by rewrite elp.
have [d' [ed' sx _ emp]] := fixef_loop_ok ed1 ok.
move: ed'; rewrite -/lp elp /= => ed'.
exists d'; split=> // ng; apply: emp => //.
apply/eqP; rewrite -leqn0 leqNgt -has_count; apply/negP => /hasP[y yv] /=.
move/eqP=> ey; move: ng; rewrite -ey => /negP; apply.
by apply: sx; rewrite /np_unique mem_sort mem_undup.
Qed.

End Fixef.


(** ** The theorems at concrete models *)

Section Witnesses.

Local Notation d01 := (data2 (Some (LInt 0)) (Some (LInt 1))).

Lemma rank_ones2 : \rank (const_mx 1 : 'M[rat]_(2, 1)) = 1%N.
Proof.
apply/eqP; rewrite eqn_leq rank_leq_col lt0n mxrank_eq0.
by apply/eqP => /matrixP/(_ ord0 ord0); rewrite !mxE.
Qed.

Lemma get_fit_normal_equations_witness :
  exists beta : 'cV[rat]_1,
    (get_fit (ols2 None ones2)).1 = Ok tt /\
    (const_mx 1 : 'M[rat]_(2, 1))^T *m (const_mx 1 : 'M[rat]_(2, 1)) *m beta
      = (const_mx 1 : 'M[rat]_(2, 1))^T *m colv [:: 1; 3].
Proof.
have [beta [[ok _] _ nrm _ _]] :=
  @get_fit_normal_equations rat toy 2 1 (ols2 None ones2) (erefl _)
    rank_ones2.
by exists beta.
Defined.

Lemma get_vcov_list_unbound_local_witness :
  get_vcov (VcovList [:: PStr "c"]) (ols2_fitted (Some d01) ones2)
    = (Raise UnboundLocalError, reset_vcov (ols2_fitted (Some d01) ones2)).
Proof.
have [_ _ res _] :=
  @get_vcov_list_unbound_local rat toy 2 1 (ols2_fitted (Some d01) ones2)
    d01 [:: PStr "c"] (erefl _) (erefl _) (erefl _).
exact: res.
Defined.

Lemma iv2_hc2 :
  (get_vcov (VcovStr "HC2") iv2).1 = Raise VcovTypeNotSupportedError.
Proof. by rewrite get_vcov_hc_unsupported. Qed.

Lemma get_vcov_failure_erases_vcov_witness :
  [/\ cov iv2 = VcovAttrs (Val "hetero") (Val (PAtom (PStr "hetero")))
                          (Val false) PyNone PyNone (Val 1) (Val 4%:M),
      (get_vcov (VcovStr "HC2") iv2).1 = Raise VcovTypeNotSupportedError &
      cov (get_vcov (VcovStr "HC2") iv2).2
      = VcovAttrs PyNone PyNone PyNone PyNone PyNone PyNone PyNone].
Proof.
have [_ res _ _] :=
  @get_vcov_failure_erases_vcov rat toy 2 1 iv2 (VcovStr "HC2") (erefl _).
by rewrite (res VcovTypeNotSupportedError (erefl _) (erefl _)).
Defined.

Lemma weights_only_in_CRV1_witness :
  get_vcov (VcovStr "iid")
           (with_weights (PyArray (Ndarray [:: 2%N; 1%N] [:: 1; 2]))
                         (ols2_fitted (Some d01) ones2))
  = ((get_vcov (VcovStr "iid") (ols2_fitted (Some d01) ones2)).1,
     with_weights (PyArray (Ndarray [:: 2%N; 1%N] [:: 1; 2]))
                  (get_vcov (VcovStr "iid")
                            (ols2_fitted (Some d01) ones2)).2).
Proof.
have [_ _ res _] :=
  @weights_only_in_CRV1 rat toy 2 1 (ols2_fitted (Some d01) ones2)
    (PyArray (Ndarray [:: 2%N; 1%N] [:: 1; 2])) (VcovStr "iid") 0.
exact: (res (erefl _)).
Defined.



End Witnesses.
(** ** The further properties at concrete models *)

Section MoreWitnesses.

Local Notation d01 := (data2 (Some (LInt 0)) (Some (LInt 1))).

Lemma sum_ord3 (f : 'I_3 -> rat) :
  \sum_i f i
  = f ord0 + (f (lift ord0 ord0) + f (lift ord0 (lift ord0 ord0))).
Proof. by rewrite !big_ord_recl big_ord0 addr0. Qed.

Lemma ord3_cases (P : 'I_3 -> Prop) :
  P ord0 -> P (lift ord0 ord0) -> P (lift ord0 (lift ord0 ord0)) ->
  forall i, P i.
Proof.
move=> P0 P1 P2 i; case: (unliftP ord0 i) => [j|] ->; last exact: P0.
by elim/ord2_cases: j.
Qed.

Lemma colv3_eq (x y : 'cV[rat]_3) :
  x ord0 0 = y ord0 0 -> x (lift ord0 ord0) 0 = y (lift ord0 ord0) 0 ->
  x (lift ord0 (lift ord0 ord0)) 0 = y (lift ord0 (lift ord0 ord0)) 0 ->
  x = y.
Proof.
move=> e0 e1 e2; apply/matrixP => i j; rewrite (ord1 j).
by elim/ord3_cases: i.
Qed.

Lemma rank_line3 : \rank (colv [:: 1; 2; 3]) = 1%N.
Proof.
apply/eqP; rewrite eqn_leq rank_leq_col lt0n mxrank_eq0.
by apply/eqP => /matrixP/(_ ord0 ord0); rewrite !mxE.
Qed.

Lemma line3_exact : Y (init line3) = X (init line3) *m 1%:M.
Proof. by rewrite /= mulmx1. Qed.

Lemma zero2_singular :
  (Z (init zero2))^T *m X (init zero2) \notin unitmx.
Proof.
have -> : (Z (init zero2))^T *m X (init zero2) = 0%:M.
  by rewrite /= mulmx0; apply/matrixP => i j; rewrite !mxE mul0rn.
by rewrite scalar_unitmx eqxx.
Qed.

Lemma zero2_get_fit : (get_fit zero2).1 = Raise LinAlgError.
Proof. by rewrite (get_fit_singular zero2_singular). Qed.

Lemma get_fit_failure_state_witness :
  (get_fit zero2).1 = Raise LinAlgError /\
  beta_hat (fit (get_fit zero2).2) = None /\
  tZX (fit (get_fit zero2).2) = Some ((Z (init zero2))^T *m X (init zero2)).
Proof.
split; first exact: zero2_get_fit.
have [_ ->] := @get_fit_failure_state rat toy 2 1 zero2 LinAlgError
                 zero2_get_fit.
by [].
Defined.

Lemma rank_scalar1 : \rank (1%:M : 'M[rat]_1) = 1%N.
Proof. by rewrite mxrank1. Qed.

Lemma ols1_exact : Y (init ols1) = X (init ols1) *m 1%:M.
Proof. by rewrite /= mulmx1. Qed.

Lemma get_fit_recovers_exact_fit_witness :
  beta_hat (fit (get_fit ols1).2) = Some 1%:M /\
  u_hat (fit (get_fit ols1).2) = Some 0.
Proof.
have [_ eb _ eu _] :=
  @get_fit_recovers_exact_fit rat toy 1 1 ols1 1%:M (erefl _) rank_scalar1
    ols1_exact.
by split.
Defined.

Lemma get_vcov_unfitted_unchanged_witness :
  get_vcov (VcovStr "iid") (ols2 None ones2)
  = (Raise AttributeError, ols2 None ones2).
Proof.
exact: (@get_vcov_unfitted_unchanged rat toy 2 1 (ols2 None ones2)
          (VcovStr "iid") (erefl _)).
Defined.

Lemma check_then_deparse_witness :
  _deparse_vcov_input (VcovStr "HC2") true false
  = Raise VcovTypeNotSupportedError.
Proof.
exact: (@check_then_deparse 0 (VcovStr "HC2") None true false (erefl _)).
Defined.

End MoreWitnesses.
Section MoreWitnesses2.

Local Notation d01 := (data2 (Some (LInt 0)) (Some (LInt 1))).

Lemma ols2_hessian data w :
  hessian (fit (ols2_fitted data w))
  = Some ((Z (init (ols2_fitted data w)))^T *m Z (init (ols2_fitted data w))).
Proof. by congr Some; rewrite /= dot11 sum_ord2 !mxE. Qed.

Lemma ols2_iid data w :
  (get_vcov (VcovStr "iid") (ols2_fitted data w)).1 = Ok tt.
Proof.
by rewrite (@get_vcov_iidE _ toy 2 1 _ _ _ _ _ _ _ _ _ _ _ None None _ _ 1)
           ?scalar_unitmx.
Qed.

Lemma toy_ssc_ge0 d n p g v t (s : rat) :
  get_ssc (e := toy) d n p g v t = Ok s -> 0 <= s.
Proof. by case=> <-. Qed.

Lemma ols2_fitted_unit data w :
  (X (init (ols2_fitted data w)))^T *m X (init (ols2_fitted data w))
  \in unitmx.
Proof. by rewrite /= dot11 sum_ord2 !mxE scalar_unitmx. Qed.

Lemma ols2_hc3 data w :
  (get_vcov (VcovStr "HC3") (ols2_fitted data w)).1 = Ok tt.
Proof.
rewrite (@get_vcov_heteroE _ toy 2 1 _ _ _ _ _ _ _ _ _ _ _ None None _ _
           "HC3" 1) ?scalar_unitmx //.
by move=> _; split=> //; apply: ols2_fitted_unit.
Qed.

(** In [ols2] the leverages that line 242 computes are 1/2. *)
Lemma ols2_hc3_defined data w :
  divisors_nonzero (ols2_fitted data w) (VcovStr "HC3").
Proof.
split=> // zxi [<-]; split=> // _ i.
by rewrite /leverage mxE big_ord1 !mxE big_ord1 !mxE.
Qed.

Lemma ols2_iid_defined data w :
  divisors_nonzero (ols2_fitted data w) (VcovStr "iid").
Proof. by split=> // zxi _; split. Qed.

Lemma get_vcov_symmetric_witness :
  exists V : 'M[rat]_1,
    vcov_of (get_vcov (VcovStr "HC3") (ols2_fitted None ones2)).2 = Val V /\
    V^T = V.
Proof.
exact: (@get_vcov_symmetric rat toy 2 1 (ols2_fitted None ones2)
          (VcovStr "HC3") (erefl _) (erefl _) (ols2_hessian _ _)
          (ols2_hc3_defined _ _) (ols2_hc3 _ _)).
Defined.

Lemma get_vcov_psd_witness :
  exists V : 'M[rat]_1,
    [/\ vcov_of (get_vcov (VcovStr "iid") (ols2_fitted None ones2)).2 = Val V,
        psd V & forall i, 0 <= V i i].
Proof.
exact: (@get_vcov_psd rat toy 2 1 (ols2_fitted None ones2) (VcovStr "iid")
          toy_ssc_ge0 (erefl _) (erefl _) (ols2_hessian _ _)
          (ols2_iid_defined _ _) (ols2_iid _ _)).
Defined.

Lemma line3_gram : (X (init line3))^T *m X (init line3) = 14%:M.
Proof. by rewrite /= dot11 sum_ord3 !mxE. Qed.

Lemma line3_unit : (X (init line3))^T *m X (init line3) \in unitmx.
Proof. by rewrite line3_gram scalar_unitmx. Qed.

(** The leverages of [line3] are 1/14, 4/14 and 9/14. *)
Lemma line3_leverage (i : 'I_3) :
  hat_diag (X (init line3)) i = (nth 0 [:: 1; 2; 3] i) ^+ 2 / 14.
Proof.
rewrite /hat_diag line3_gram invmx_scalar mxE big_ord1 !mxE big_ord1 !mxE.
by elim/ord3_cases: i.
Qed.

Lemma line3_hc3 : (get_vcov (VcovStr "HC3") (get_fit line3).2).1 = Ok tt.
Proof.
by rewrite (@get_vcov_hc_fit _ toy 3 1 line3 "HC3" 1) //; apply: line3_unit.
Qed.

Lemma line3_hc3_defined :
  divisors_nonzero (get_fit line3).2 (VcovStr "HC3").
Proof.
have u : (Z (init line3))^T *m X (init line3) \in unitmx.
  exact: line3_unit.
split=> // zxi; rewrite (get_fit_unit u) => -[<-]; split=> // _ i.
rewrite /= leverage_hat_diag line3_leverage.
by elim/ord3_cases: i.
Qed.

Lemma exact_fit_zero_vcov_witness :
  vcov_of (get_vcov (VcovStr "HC3") (get_fit line3).2).2 = Val 0.
Proof.
exact: (@exact_fit_zero_vcov rat toy 3 1 line3 1%:M "HC3" (erefl _) (erefl _)
          rank_line3 line3_exact line3_hc3_defined line3_hc3).
Defined.

Lemma get_inference_after_failed_get_vcov_witness :
  (get_inference (19%:R / 20%:R) (get_vcov (VcovStr "HC2") iv2).2).1
  = Raise ValueError.
Proof.
have res :=
  @get_inference_after_failed_get_vcov rat toy 2 1 iv2 (VcovStr "HC2")
    (19%:R / 20%:R) VcovTypeNotSupportedError (erefl _) iv2_hc2.
by rewrite res.
Defined.

Lemma iv1_bread (c : cell) (beta : rat) V :
  is_ok (if _is_iv (init (iv1 c beta V))
         then iv_bread (Some 1%:M) (Some 1%:M) (1%:M : 'M[rat]_1)
         else np_linalg_inv (1%:M : 'M[rat]_1)).
Proof. by rewrite /= /iv_bread /= /np_linalg_inv !mulmx1 unitmx1. Qed.

Lemma get_vcov_cluster_nan_witness :
  get_vcov crv3_c (iv1 None 2 Unset)
  = (Raise NanInClusterVarError,
     resolved (iv1 None 2 Unset)
              ("CRV", PAtom (PStr "CRV3"), true, Some (PStr "c"))).
Proof.
apply: (@get_vcov_cluster_nan rat toy 1 1 (iv1 None 2 Unset) "CRV3" "c" [::]
          [:: ("c", [tuple None])] [tuple None] 1%:M 1%:M (Some 1%:M)
          (Some 1%:M)); try exact: erefl.
exact: (iv1_bread None 2 Unset).
Defined.

End MoreWitnesses2.
Section MoreWitnesses3.

Local Notation d01 := (data2 (Some (LInt 0)) (Some (LInt 1))).
Local Notation dab := (data2 (Some (LStr "a")) (Some (LStr "b"))).
Local Notation d77 := (data2 (Some (LInt 7)) (Some (LInt 7))).

Lemma get_vcov_CRV3_foreign_labels_witness :
  vcov_of (get_vcov crv3_c (get_fit (ols2 (Some dab) ones2)).2).2 = Val 0.
Proof.
have [_ _ res] :=
  @get_vcov_CRV3_foreign_labels rat toy 2 1 (ols2 (Some dab) ones2) "c" [::]
    dab [tuple Some (LStr "a"); Some (LStr "b")] 1 (erefl _) rank_ones2
    (erefl _) (erefl _) (erefl _) (erefl _) (erefl _) (erefl _)
    (fun ixg _ => erefl _) (erefl _).
exact: res.
Defined.

Lemma crv1_meat_singleton_clusters_witness :
  crv1_meat (factorize_uniques [tuple Some (LInt 0); Some (LInt 1)])
            [tuple Some (LInt 0); Some (LInt 1)]
            (const_mx 1 : 'M[rat]_(2, 1)) (colv [:: -1; 1])
  = (\matrix_(i, j) ((const_mx 1 : 'M[rat]_(2, 1)) i j
                     * colv [:: -1; 1] i 0))^T
    *m (\matrix_(i, j) ((const_mx 1 : 'M[rat]_(2, 1)) i j
                        * colv [:: -1; 1] i 0)).
Proof.
exact: (@crv1_meat_singleton_clusters rat 2 1
          [tuple Some (LInt 0); Some (LInt 1)] (const_mx 1)
          (colv [:: -1; 1]) (erefl _) (erefl _)).
Defined.

Lemma d77_labels (i : 'I_2) :
  tnth [tuple Some (LInt 7); Some (LInt 7)] i = Some (LInt 7).
Proof. by elim/ord2_cases: i; rewrite (tnth_nth None). Qed.

Lemma get_vcov_CRV1_single_cluster_witness :
  G (cov (get_vcov crv1_c (get_fit (ols2 (Some d77) ones2)).2).2) = Val 1%N /\
  vcov_of (get_vcov crv1_c (get_fit (ols2 (Some d77) ones2)).2).2 = Val 0.
Proof.
have [_ eG eV] :=
  @get_vcov_CRV1_single_cluster rat toy 2 1 (ols2 (Some d77) ones2) "c" [::]
    d77 [tuple Some (LInt 7); Some (LInt 7)] (LInt 7)
    (Ndarray [:: 2%N; 1%N] [:: 1; 1]) 1 1 (erefl _) rank_ones2 (erefl _)
    (erefl _) (erefl _) (erefl _) d77_labels (erefl _) (erefl _) (erefl _).
by split.
Defined.

Lemma unit2 : (2%:M : 'M[rat]_1) \in unitmx.
Proof. by rewrite scalar_unitmx. Qed.

Lemma get_vcov_CRV1_weights_length_witness :
  (get_vcov crv1_c
            (ols2_fitted (Some d01)
                         (PyArray (Ndarray [:: 3%N; 1%N] [:: 1; 1; 1])))).1
  = Raise ValueError.
Proof.
have [res _ _ _] :=
  @get_vcov_CRV1_weights_length rat toy 2 1
    (ols2_fitted (Some d01) (PyArray (Ndarray [:: 3%N; 1%N] [:: 1; 1; 1])))
    "c" [::] d01 [tuple Some (LInt 0); Some (LInt 1)]
    (Ndarray [:: 3%N; 1%N] [:: 1; 1; 1]) 2%:M 1 (erefl _) (erefl _)
    (erefl _) unit2 (erefl _) (erefl _) (erefl _) (erefl _) (erefl _)
    (erefl _) (erefl _).
exact: res.
Defined.

Lemma toy_abs_sqrt (x : rat) : 0 <= np_sqrt toy_abs x.
Proof. exact: normr_ge0. Qed.

Lemma ols2_hetero_inference (E : externals rat) (alpha : rat) :
  (get_inference alpha (ols2_hetero E)).1 = Ok tt.
Proof. by []. Qed.

Lemma conf_int_brackets_witness :
  exists (beta se : 'cV[rat]_1) (ci : 'M[rat]_(2, 1)),
    [/\ beta_hat (fit (get_inference (19%:R / 20%:R)
                                     (ols2_hetero toy_abs)).2) = Some beta,
        _se (inf (get_inference (19%:R / 20%:R)
                                (ols2_hetero toy_abs)).2) = Val se,
        conf_int (inf (get_inference (19%:R / 20%:R)
                                     (ols2_hetero toy_abs)).2) = Val ci &
        forall j, [/\ 0 <= se j 0, ci 0 j <= beta j 0 <= ci 1 j &
                      ci 0 j + ci 1 j = 2 * beta j 0]].
Proof.
exact: (@conf_int_brackets rat toy_abs 2 1 (ols2_hetero toy_abs)
          (19%:R / 20%:R) toy_abs_sqrt (ols2_hetero_inference _ _)).
Defined.

Lemma get_Ftest_sum_of_coefficients_witness :
  get_Ftest (VcovStr "iid") (ols2_hetero toy)
  = if \sum_i \sum_j ((2^-1)%:M : 'M[rat]_1) i j == 0
    then (Raise LinAlgError, ols2_hetero toy)
    else (Ok tt,
          Obj (init (ols2_hetero toy)) (fit (ols2_hetero toy))
              (cov (ols2_hetero toy))
              (set_F_stat
                 (Val ((\sum_i (2%:M : 'cV[rat]_1) i 0) ^+ 2
                       / (\sum_i \sum_j ((2^-1)%:M : 'M[rat]_1) i j)))
                 (inf (ols2_hetero toy)))).
Proof.
exact: (@get_Ftest_sum_of_coefficients rat toy 2 1 (ols2_hetero toy)
          (VcovStr "iid") (2^-1)%:M 2%:M (erefl _) (erefl _) (erefl _)).
Defined.

Lemma iv2_Ftest : is_ok (get_Ftest (VcovStr "hetero") iv2).1.
Proof.
rewrite /get_Ftest /bind /getattr /= iv2_first_stage_vcov /=.
rewrite /getattr_opt /vcov_of /= /lift_exc /np_linalg_inv.
have -> : (const_mx 1 : 'rV[rat]_1) = 1%:M.
  by apply/matrixP => i j; rewrite !ord1 !mxE.
by rewrite subr0 tr_scalar_mx !mul1mx mulmx1 scalar_unitmx.
Qed.

Lemma get_Ftest_iv_string_request_witness :
  exists2 s, VcovStr "hetero" = VcovStr s
           & s \in [:: "iid"; "hetero"; "HC1"; "HC2"; "HC3"].
Proof.
exact: (@get_Ftest_iv_string_request rat toy 2 1 iv2 (VcovStr "hetero")
          (erefl _) iv2_Ftest).
Defined.

Lemma next_label_inj : injective next_label.
Proof.
by move=> [x|x] [y|y] //= [] /addIr ->.
Qed.

Lemma crv1_meat_invariant_witness :
  crv1_meat
    (factorize_uniques
       (relabel next_label
          (reorder (tperm ord0 (lift ord0 ord0))
                   [tuple Some (LInt 0); Some (LInt 1)])))
    (relabel next_label
       (reorder (tperm ord0 (lift ord0 ord0))
                [tuple Some (LInt 0); Some (LInt 1)]))
    (row_perm (tperm ord0 (lift ord0 ord0)) (const_mx 1 : 'M[rat]_(2, 1)))
    (row_perm (tperm ord0 (lift ord0 ord0)) (colv [:: -1; 1]))
  = crv1_meat (factorize_uniques [tuple Some (LInt 0); Some (LInt 1)])
              [tuple Some (LInt 0); Some (LInt 1)]
              (const_mx 1 : 'M[rat]_(2, 1)) (colv [:: -1; 1]).
Proof.
exact: (@crv1_meat_invariant rat 2 1 next_label
          (tperm ord0 (lift ord0 ord0)) [tuple Some (LInt 0); Some (LInt 1)]
          (const_mx 1) (colv [:: -1; 1]) next_label_inj).
Defined.

End MoreWitnesses3.
Section MoreWitnesses4.

Lemma ones2_intercept :
  X (init (ols2 None ones2)) *m (1%:M : 'cV[rat]_1) = const_mx 1.
Proof. by rewrite mulmx1. Qed.

Lemma ssd_13 : sum_sq_dev (colv [:: 1; 3]) != 0.
Proof. by rewrite /sum_sq_dev !sum_ord2 !mxE. Qed.

Lemma ssd_124 : sum_sq_dev (colv [:: 1; 2; 4]) != 0.
Proof. by rewrite /sum_sq_dev !sum_ord3 !mxE. Qed.

Lemma ssd_123 : sum_sq_dev (colv [:: 1; 2; 3]) != 0.
Proof. by rewrite /sum_sq_dev !sum_ord3 !mxE. Qed.

Lemma get_performance_r2_bounds_witness :
  exists rho : rat,
    [/\ (get_performance
           (on_core (@get_fit _ toy 2 1)
                    (as_built None (ols2 None ones2))).2).1 = Ok tt,
        r2 (more (get_performance
                    (on_core (@get_fit _ toy 2 1)
                             (as_built None (ols2 None ones2))).2).2)
        = Val rho &
        0 <= rho <= 1].
Proof.
exact: (@get_performance_r2_bounds rat toy 2 1
          (as_built None (ols2 None ones2)) 1%:M (erefl _) rank_ones2
          ones2_intercept ssd_13).
Defined.

Lemma get_performance_adjusted_witness :
  exists rho adj : rat,
    [/\ r2 (more (get_performance (as_built None bent3)).2) = Val rho /\
        r2_within (more (get_performance (as_built None bent3)).2) = Val rho,
        adj_r2 (more (get_performance (as_built None bent3)).2) = Val adj /\
        adj_r2_within (more (get_performance (as_built None bent3)).2)
        = Val adj &
        adj <= rho <= 1].
Proof.
exact: (@get_performance_adjusted rat toy 3 1 (as_built None bent3)
          (colv [:: - (3 / 14); - (3 / 7); 5 / 14]) (erefl _) ssd_124
          (erefl _)).
Defined.

Lemma get_performance_exact_fit_witness :
  r2 (more (get_performance
              (on_core (@get_fit _ toy 3 1) (as_built None line3)).2).2)
  = Val 1.
Proof.
have [res _ _] :=
  @get_performance_exact_fit rat toy 3 1 (as_built None line3) 1%:M
    (erefl _) rank_line3 line3_exact ssd_123 (erefl _).
exact: res.
Defined.

Lemma train2_column (i : 'I_2) :
  tnth [tuple Some (LInt 1); Some (LInt 3)] i
  = Some (LInt (nth 0 [:: 1; 3] i : int)) /\
  Y (init train2) i 0 = (nth 0 [:: 1; 3] i : int)%:~R.
Proof. by elim/ord2_cases: i; rewrite (tnth_nth None) !mxE. Qed.

Lemma predict_training_data_witness :
  predict model_matrix2 (@None (DataFrame 0)) (PStr "response")
          (on_core (@get_fit _ toy 2 1) (as_built None train2)).2
  = (Ok [seq Some ((X (init train2)
                    *m (invmx ((X (init train2))^T *m X (init train2))
                        *m ((X (init train2))^T *m Y (init train2)))) i 0)
        | i <- enum 'I_2],
     (on_core (@get_fit _ toy 2 1) (as_built None train2)).2).
Proof.
have [res _] :=
  @predict_training_data rat toy 2 1 (as_built None train2) model_matrix2
    (PStr "response") "y~x" "y" [:: "x"]
    [:: ("y", [tuple Some (LInt 1); Some (LInt 3)]);
        ("x", [tuple Some (LInt 1); Some (LInt 1)])]
    [tuple Some (LInt 1); Some (LInt 3)] (fun i => nth 0 [:: 1; 3] i)
    (erefl _) rank_ones2 (erefl _) (erefl _) (erefl _) (erefl _) (erefl _)
    train2_column.
exact: res.
Defined.

Lemma accessors_need_inference_witness :
  coef (as_built None (ols2_fitted None ones2))
  = (Raise AttributeError, as_built None (ols2_fitted None ones2)).
Proof.
have [_ res _ _] :=
  @accessors_need_inference rat toy 2 1
    (as_built None (ols2_fitted None ones2)) (erefl _).
exact: res.
Defined.

Lemma ols2_hetero_on_core (alpha : rat) names :
  (on_core (get_inference alpha) (as_built names (ols2_hetero toy))).1
  = Ok tt.
Proof. by []. Qed.

Lemma accessors_after_inference_witness :
  exists (V : 'M[rat]_1) (beta : 'cV[rat]_1),
    vcov_of (ols2_hetero toy) = Val V /\
    beta_hat (fit (ols2_hetero toy)) = Some beta /\
    coef (on_core (get_inference (19%:R / 20%:R))
                  (as_built (Some [:: "x"]) (ols2_hetero toy))).2
    = (Ok (map (fun j : 'I_1 => (Some (nth EmptyString [:: "x"] j),
                                 beta j 0)) (enum 'I_1)),
       (on_core (get_inference (19%:R / 20%:R))
                (as_built (Some [:: "x"]) (ols2_hetero toy))).2).
Proof.
have [V [beta [eV eb ok _]]] :=
  @accessors_after_inference rat toy 2 1
    (as_built (Some [:: "x"]) (ols2_hetero toy)) (19%:R / 20%:R) [:: "x"]
    (erefl _) (ols2_hetero_on_core _ _).
by exists V, beta; split=> //; split=> //; apply: (ok (erefl _)).1.
Defined.

Lemma fe2_fixef :
  (fixef model_matrix2 model_matrix_rhs2 spsolve_diag
         (as_built None fe2)).1 = Ok tt.
Proof.
rewrite /fixef /bind /= /np_sub size_map size_enum_ord /=.
rewrite size_map size_zip size_map size_enum_ord /=.
by rewrite /slice !addn0 subnn !take0.
Qed.

Lemma fixef_tables_empty_unless_group_witness :
  exists tables,
    fixef_dict (fe (fixef model_matrix2 model_matrix_rhs2 spsolve_diag
                          (as_built None fe2)).2) = Val tables /\
    ("group" \notin [seq t.1 | t <- tables] ->
     all (fun t => t.2 == [::]) tables).
Proof.
exact: (@fixef_tables_empty_unless_group rat toy 2 1 model_matrix2
          model_matrix_rhs2 spsolve_diag (as_built None fe2) fe2_fixef).
Defined.

End MoreWitnesses4.
Section MoreWitnesses5.

(** [bent3] is what [get_fit] leaves. *)
Lemma bent3_get_fit :
  get_fit (Obj (init bent3) (unfitted rat 3 1) (cov bent3) (inf bent3))
  = (Ok tt, bent3).
Proof.
have xx : (colv [:: 1; 2; 3])^T *m colv [:: 1; 2; 3] = 14%:M.
  by rewrite dot11 sum_ord3 !mxE.
have xy : (colv [:: 1; 2; 3])^T *m colv [:: 1; 2; 4] = 17%:M.
  by rewrite dot11 sum_ord3 !mxE.
rewrite get_fit_unit /= ?xx ?xy ?scalar_unitmx // /bent3 /=.
rewrite invmx_scalar -scalar_mxM.
have -> : (14^-1 * 17 : rat) = 17 / 14 by [].
have xb : colv [:: 1; 2; 3] *m (17 / 14)%:M
          = colv [:: 17 / 14; 17 / 7; 51 / 14].
  by apply: colv3_eq; rewrite !mxE big_ord1 !mxE.
have u3 : colv [:: 1; 2; 4] - colv [:: 17 / 14; 17 / 7; 51 / 14]
          = colv [:: - (3 / 14); - (3 / 7); 5 / 14].
  by apply: colv3_eq; rewrite !mxE.
rewrite xb u3.
have -> : \matrix_(i, j) (colv [:: 1; 2; 3] i j
                          * colv [:: - (3 / 14); - (3 / 7); 5 / 14] i 0)
          = colv [:: - (3 / 14); - (6 / 7); 15 / 14].
  by apply: colv3_eq; rewrite !mxE.
by [].
Qed.

End MoreWitnesses5.
Section MoreWitnesses6.

(** [ols2_hetero] is what [get_vcov("hetero")] leaves. *)
Lemma ols2_hetero_get_vcov :
  get_vcov (VcovStr "hetero") (ols2_fitted None ones2)
  = (Ok tt, ols2_hetero toy).
Proof.
rewrite /ols2_fitted.
rewrite (@get_vcov_heteroE _ toy 2 1 _ _ _ _ _ _ _ _ _ _ _ None None _ _
           "hetero" 1) ?scalar_unitmx //=.
rewrite /ols2_hetero /hc_scores /=; congr (_, Obj _ _ _ _).
congr VcovAttrs; congr Val.
rewrite dot11 sum_ord2 !mxE /= scale1r invmx_scalar -!scalar_mxM.
by congr (_%:M).
Qed.

End MoreWitnesses6.
Section MoreWitnesses7.

Local Notation X2 := (const_mx 1 : 'M[rat]_(2, 1)).
Local Notation Y2 := (colv [:: 1; 3] : 'cV[rat]_2).
Local Notation c01 := [tuple Some (LInt 0); Some (LInt 1)].

Lemma get_vcov_dict_first_item_witness :
  get_vcov (VcovDict [::]) (ols2_fitted None ones2)
  = (Raise IndexError, reset_vcov (ols2_fitted None ones2)).
Proof.
have [_ res] :=
  @get_vcov_dict_first_item rat toy 2 1 (ols2_fitted None ones2)
    (PStr "CRV1", PStr "c") [::].
exact: (res (erefl _)).
Defined.

Lemma rest2_unit :
  (rowsel (predC (np_equal 0 c01)) X2)^T *m rowsel (predC (np_equal 0 c01)) X2
  \in unitmx.
Proof.
by rewrite rowsel_dot11 sum_ord2_cond /np_equal /= !mxE scalar_unitmx.
Qed.

Lemma beta_jack_fast_normal_equations_witness :
  beta_jack_fast X2 Y2 c01 0
  = invmx ((rowsel (predC (np_equal 0 c01)) X2)^T
           *m rowsel (predC (np_equal 0 c01)) X2)
    *m ((rowsel (predC (np_equal 0 c01)) X2)^T
        *m rowsel (predC (np_equal 0 c01)) Y2).
Proof.
have [_ res] := @beta_jack_fast_normal_equations rat 2 1 X2 Y2 c01 0.
exact: (res rest2_unit).
Defined.

Lemma predict_rejects_witness :
  predict model_matrix2 (@None (DataFrame 0)) (PStr "terms")
          (as_built None fe2)
  = (Raise ValueError, as_built None fe2).
Proof.
have [_ res _] :=
  @predict_rejects rat toy 2 1 (as_built None fe2) model_matrix2 0 None
    (PStr "terms").
exact: (res (erefl _) (erefl _) (erefl _)).
Defined.

Lemma fixef_rejects_witness :
  fixef model_matrix2 model_matrix_rhs2 spsolve_diag
        (as_built None (ols2_fitted None ones2))
  = (Raise ValueError, as_built None (ols2_fitted None ones2)).
Proof.
have [res _ _] :=
  @fixef_rejects rat toy 2 1 model_matrix2 model_matrix_rhs2 spsolve_diag
    (as_built None (ols2_fitted None ones2)).
exact: (res (erefl _)).
Defined.

End MoreWitnesses7.
